(** * Censudex orders service: order lifecycle, broker client, compensating consumer

    A shallow embedding of [src/orders/services/order.service.ts],
    [src/orders/services/rabbitmq.service.ts],
    [src/orders/services/sendgrid.service.ts],
    [src/orders/controllers/order.controller.ts] and
    [src/orders/decorators/grpc-user.decorator.ts], with the entities and DTOs
    they use, followed by the properties of the specification that concern
    them and by further properties of the services and of the gRPC handlers.

    Conventions of the embedding:
    - a JavaScript [number] that holds a price, a quantity or an amount is a
      [float], the IEEE 754 double of the language, with its arithmetic; a
      [Date] is a [Z], the milliseconds read from the world's clock;
    - an optional or possibly [undefined] field is an [option];
    - an [async] method is a computation in the monad [M]: it threads the
      [World] (database table, entity objects in memory, broker channel,
      configuration, the chronological [trace] of outward effects and the log)
      and ends by returning a value or by throwing an [Exception];
    - entity objects are mutable: [findOne] and [create] allocate an object in
      [heap] and hand out a reference, assignments update the object in place,
      [save] writes the object to the table. *)

From Stdlib Require Import Ascii PrimFloat.
From stdpp Require Import gmap strings list pretty.
From Equations Require Import Equations.

Open Scope string_scope.
Open Scope Z_scope.

(** ** Entities and DTOs *)

(** [ORDER_STATUSES] / [OrderStatus] of update-order-status.dto.ts; the same
    five values are the enum of the [status] column of [Order]. *)
Inductive OrderStatus :=
| pendiente
| en_procesamiento
| enviado
| entregado
| cancelado.

#[global] Instance OrderStatus_eq_dec : EqDecision OrderStatus.
Proof. solve_decision. Defined.

(** [a === b] on statuses *)
Definition status_eqb (a b : OrderStatus) : bool :=
  match a, b with
  | pendiente, pendiente => true
  | en_procesamiento, en_procesamiento => true
  | enviado, enviado => true
  | entregado, entregado => true
  | cancelado, cancelado => true
  | _, _ => false
  end.

Definition ORDER_STATUSES : list OrderStatus :=
  [pendiente; en_procesamiento; enviado; entregado; cancelado].

Definition status_name (s : OrderStatus) : string :=
  match s with
  | pendiente => "pendiente"
  | en_procesamiento => "en_procesamiento"
  | enviado => "enviado"
  | entregado => "entregado"
  | cancelado => "cancelado"
  end.

(** order-item.entity.ts, without the columns the database fills in
    ([id], [orderId], [createdAt]). *)
Record OrderItem := mkOrderItem {
  item_productId : string;
  item_productName : string;
  item_productImageUrl : option string;
  item_unitPrice : float;
  item_quantity : float;
  item_subtotal : float;
}.

(** order.entity.ts, without [createdAt] and [updatedAt].  [id] is [None]
    until the first [save] generates it. *)
Record Order := mkOrder {
  id : option string;
  clientId : string;
  clientName : string;
  clientEmail : string;
  status : OrderStatus;
  total : float;
  shippingAddress : string;
  trackingNumber : option string;
  cancellationReason : option string;
  shippedAt : option Z;
  deliveredAt : option Z;
  cancelledAt : option Z;
  items : list OrderItem;
  isDeleted : bool;
}.

Definition set_id (v : option string) (o : Order) : Order :=
  mkOrder v (clientId o) (clientName o) (clientEmail o) (status o) (total o)
    (shippingAddress o) (trackingNumber o) (cancellationReason o) (shippedAt o)
    (deliveredAt o) (cancelledAt o) (items o) (isDeleted o).

Definition set_status (v : OrderStatus) (o : Order) : Order :=
  mkOrder (id o) (clientId o) (clientName o) (clientEmail o) v (total o)
    (shippingAddress o) (trackingNumber o) (cancellationReason o) (shippedAt o)
    (deliveredAt o) (cancelledAt o) (items o) (isDeleted o).

Definition set_total (v : float) (o : Order) : Order :=
  mkOrder (id o) (clientId o) (clientName o) (clientEmail o) (status o) v
    (shippingAddress o) (trackingNumber o) (cancellationReason o) (shippedAt o)
    (deliveredAt o) (cancelledAt o) (items o) (isDeleted o).

Definition set_trackingNumber (v : option string) (o : Order) : Order :=
  mkOrder (id o) (clientId o) (clientName o) (clientEmail o) (status o) (total o)
    (shippingAddress o) v (cancellationReason o) (shippedAt o)
    (deliveredAt o) (cancelledAt o) (items o) (isDeleted o).

Definition set_cancellationReason (v : option string) (o : Order) : Order :=
  mkOrder (id o) (clientId o) (clientName o) (clientEmail o) (status o) (total o)
    (shippingAddress o) (trackingNumber o) v (shippedAt o)
    (deliveredAt o) (cancelledAt o) (items o) (isDeleted o).

Definition set_shippedAt (v : option Z) (o : Order) : Order :=
  mkOrder (id o) (clientId o) (clientName o) (clientEmail o) (status o) (total o)
    (shippingAddress o) (trackingNumber o) (cancellationReason o) v
    (deliveredAt o) (cancelledAt o) (items o) (isDeleted o).

Definition set_deliveredAt (v : option Z) (o : Order) : Order :=
  mkOrder (id o) (clientId o) (clientName o) (clientEmail o) (status o) (total o)
    (shippingAddress o) (trackingNumber o) (cancellationReason o) (shippedAt o)
    v (cancelledAt o) (items o) (isDeleted o).

Definition set_cancelledAt (v : option Z) (o : Order) : Order :=
  mkOrder (id o) (clientId o) (clientName o) (clientEmail o) (status o) (total o)
    (shippingAddress o) (trackingNumber o) (cancellationReason o) (shippedAt o)
    (deliveredAt o) v (items o) (isDeleted o).

Definition set_items (v : list OrderItem) (o : Order) : Order :=
  mkOrder (id o) (clientId o) (clientName o) (clientEmail o) (status o) (total o)
    (shippingAddress o) (trackingNumber o) (cancellationReason o) (shippedAt o)
    (deliveredAt o) (cancelledAt o) v (isDeleted o).

(** create-order.dto.ts.  The item of a create command carries a product and a
    quantity, and nothing else.  The quantity is any [number]: nothing on the
    way to [create] checks it. *)
Record CreateOrderItemDto := mkCreateOrderItemDto {
  dto_productId : string;
  dto_quantity : float;
}.

(** The controller hands the gRPC message over as it arrives ([data: any]) and
    checks [clientId] only, so [items] may be [undefined] at run time. *)
Record CreateOrderDto := mkCreateOrderDto {
  dto_clientId : string;
  dto_clientName : string;
  dto_clientEmail : string;
  dto_shippingAddress : string;
  dto_items : option (list CreateOrderItemDto);
}.

(** update-order-status.dto.ts *)
Record UpdateOrderStatusDto := mkUpdateOrderStatusDto {
  dto_status : OrderStatus;
  dto_trackingNumber : option string;
}.

Record CancelOrderDto := mkCancelOrderDto {
  dto_cancellationReason : option string;
}.

(** The payload of an [order.failed.stock] message after [JSON.parse]:
    [{ message: { orderId | OrderId } }], every level possibly absent. *)
Record FailedStockMessage := mkFailedStockMessage {
  msg_orderId : option string;
  msg_OrderId : option string;
}.

Record FailedStockData := mkFailedStockData {
  data_message : option FailedStockMessage;
}.

(** Result of the stock check. *)
Record UnavailableProduct := mkUnavailableProduct {
  un_productId : string;
  un_requested : float;
  un_available : float;
}.

Record StockValidation := mkStockValidation {
  allAvailable : bool;
  unavailable : list UnavailableProduct;
}.

(** ** Exceptions *)

Inductive BadRequestBody :=
| BadRequestMessage (message : string)
| BadRequestStock (message : string) (unavailableProducts : list UnavailableProduct).

Inductive Exception :=
| NotFoundException (message : string)
| BadRequestException (response : BadRequestBody)
| InternalServerErrorException (message : string)
| Error (message : string).

Definition error_message (e : Exception) : string :=
  match e with
  | NotFoundException m => m
  | BadRequestException (BadRequestMessage m) => m
  | BadRequestException (BadRequestStock m _) => m
  | InternalServerErrorException m => m
  | Error m => m
  end.

Definition is_NotFoundException (e : Exception) : bool :=
  match e with NotFoundException _ => true | _ => false end.

Definition is_BadRequestException (e : Exception) : bool :=
  match e with BadRequestException _ => true | _ => false end.

(** ** Outward effects and the world *)

(** The payload objects handed to the publishing methods, as they are before
    [JSON.stringify] writes them out. *)
Inductive Payload :=
| OrderCreatedPayload (orderId : option string) (products : gmap string float)
| OrderShippedPayload (orderId : option string) (client : string) (email : string)
    (tracking : option string) (lines : list (string * float))
| OrderDeliveredPayload (orderId : option string) (client : string) (email : string).

Inductive Email :=
| OrderConfirmationEmail (o : Order)
| OrderStatusUpdateEmail (o : Order) (previousStatus : OrderStatus)
| OrderCancellationEmail (o : Order).

(** What leaves the process, in the order in which it happens. *)
Inductive Effect :=
| RowSaved (row : Order)
| QueueAsserted (queue : string)
| MessageSent (queue : string) (payload : Payload)
| EmailRequested (mail : Email)
| ConnectAttempted (attempt : nat)
| Slept (ms : Z)
| ConsumerRegistered (queue : string)
| Acked (tag : nat).

Inductive LogLevel := LOG | WARN | ERROR.

(** The state the services run in:
    - [table]: the rows of the orders table, by id (items cascade with the row);
    - [heap]: the entity objects in memory, a reference being an index;
    - [issued], [uuid]: how many ids the database has generated, and the ids;
    - [clock]: the current time;
    - [config]: the values of the [ConfigService];
    - [channel]: whether [this.channel] of the broker service is set;
    - [sendgrid_up]: whether SendGrid accepts a request;
    - [reconnectAttempts]: the counter of the broker service;
    - [trace], [logs]: the outward effects and the log lines so far. *)
Record World := mkWorld {
  table : gmap string Order;
  heap : list Order;
  issued : nat;
  uuid : nat -> string;
  clock : Z;
  config : gmap string string;
  channel : bool;
  sendgrid_up : bool;
  reconnectAttempts : nat;
  trace : list Effect;
  logs : list (LogLevel * string);
}.

Definition with_table (t : gmap string Order) (w : World) : World :=
  mkWorld t (heap w) (issued w) (uuid w) (clock w) (config w) (channel w)
    (sendgrid_up w) (reconnectAttempts w) (trace w) (logs w).

Definition with_heap (h : list Order) (w : World) : World :=
  mkWorld (table w) h (issued w) (uuid w) (clock w) (config w) (channel w)
    (sendgrid_up w) (reconnectAttempts w) (trace w) (logs w).

Definition with_issued (n : nat) (w : World) : World :=
  mkWorld (table w) (heap w) n (uuid w) (clock w) (config w) (channel w)
    (sendgrid_up w) (reconnectAttempts w) (trace w) (logs w).

Definition with_channel (c : bool) (w : World) : World :=
  mkWorld (table w) (heap w) (issued w) (uuid w) (clock w) (config w) c
    (sendgrid_up w) (reconnectAttempts w) (trace w) (logs w).

Definition with_reconnectAttempts (n : nat) (w : World) : World :=
  mkWorld (table w) (heap w) (issued w) (uuid w) (clock w) (config w) (channel w)
    (sendgrid_up w) n (trace w) (logs w).

Definition with_trace (t : list Effect) (w : World) : World :=
  mkWorld (table w) (heap w) (issued w) (uuid w) (clock w) (config w) (channel w)
    (sendgrid_up w) (reconnectAttempts w) t (logs w).

Definition with_logs (l : list (LogLevel * string)) (w : World) : World :=
  mkWorld (table w) (heap w) (issued w) (uuid w) (clock w) (config w) (channel w)
    (sendgrid_up w) (reconnectAttempts w) (trace w) l.

(** ** The monad of service methods *)

Inductive Outcome (A : Type) :=
| Returned (a : A)
| Thrown (e : Exception).
Arguments Returned {A} a.
Arguments Thrown {A} e.

Definition M (A : Type) : Type := World -> Outcome A * World.

#[global] Instance M_ret : MRet M := fun A a w => (Returned a, w).

#[global] Instance M_bind : MBind M := fun A B k m w =>
  match m w with
  | (Returned a, w') => k a w'
  | (Thrown e, w') => (Thrown e, w')
  end.

Definition throw {A : Type} (e : Exception) : M A := fun w => (Thrown e, w).

(** [try { body } catch (error) { handler error }] *)
Definition try_catch {A : Type} (body : M A) (handler : Exception -> M A) : M A :=
  fun w =>
    match body w with
    | (Returned a, w') => (Returned a, w')
    | (Thrown e, w') => handler e w'
    end.

Definition emit (e : Effect) : M unit :=
  fun w => (Returned tt, with_trace (trace w ++ [e]) w).

Definition logger (level : LogLevel) (text : string) : M unit :=
  fun w => (Returned tt, with_logs (logs w ++ [(level, text)]) w).

(** [new Date()] *)
Definition new_Date : M Z := fun w => (Returned (clock w), w).

(** A JavaScript string used as a condition: [undefined] and the empty string
    are falsy. *)
Definition truthy (s : option string) : bool :=
  match s with
  | Some (String _ _) => true
  | Some EmptyString => false
  | None => false
  end.

(** [a || b] on possibly undefined strings *)
Definition or_else (a b : option string) : option string :=
  if truthy a then a else b.

Definition dquote : string := String (ascii_of_nat 34) EmptyString.

(** ** Entity objects and the order repository *)

(** A reference to an entity object. *)
Definition ref := nat.

Definition new_entity (o : Order) : M ref :=
  fun w => (Returned (length (heap w)), with_heap (heap w ++ [o]) w).

(** Reading through a reference that holds no object is a [TypeError]. *)
Definition read (r : ref) : M Order :=
  fun w =>
    match heap w !! r with
    | Some o => (Returned o, w)
    | None => (Thrown (Error "TypeError: Cannot read properties of undefined"), w)
    end.

(** [order.field = value] *)
Definition assign (r : ref) (f : Order -> Order) : M unit :=
  fun w => (Returned tt, with_heap (alter f r (heap w)) w).

(** [orderRepository.create(fields)]: a new entity object, not yet stored. *)
Definition repository_create (fields : Order) : M ref := new_entity fields.

(** [orderRepository.findOne({ where: { id, isDeleted: false } })]: a fresh
    object for the row, or [null]. *)
Definition repository_findOne (key : string) : M (option ref) :=
  fun w =>
    match table w !! key with
    | Some row =>
        if isDeleted row then (Returned None, w)
        else (Returned (Some (length (heap w))), with_heap (heap w ++ [row]) w)
    | None => (Returned None, w)
    end.

(** [orderRepository.save(order)]: generates the id of a new order, writes the
    row, and returns the same object. *)
Definition repository_save (r : ref) : M ref :=
  fun w =>
    match heap w !! r with
    | None => (Thrown (Error "TypeError: Cannot read properties of undefined"), w)
    | Some o =>
        match id o with
        | Some key =>
            (Returned r,
             with_trace (trace w ++ [RowSaved o]) (with_table (<[key := o]> (table w)) w))
        | None =>
            let key := uuid w (issued w) in
            let o' := set_id (Some key) o in
            (Returned r,
             with_trace (trace w ++ [RowSaved o'])
               (with_table (<[key := o']> (table w))
                  (with_heap (<[r := o']> (heap w)) (with_issued (S (issued w)) w))))
        end
    end.

(** ** sendgrid.service.ts *)

Module SendGridService.

(** [sgMail.send(msg)]: the request leaves the process when SendGrid can be
    reached and is rejected otherwise. *)
Definition sgMail_send (mail : Email) : M unit :=
  fun w =>
    if sendgrid_up w then (Returned tt, with_trace (trace w ++ [EmailRequested mail]) w)
    else (Thrown (Error "Unauthorized"), w).

(** [order.id.slice(0, 8)] of the subject line: a [TypeError] on an order
    without id. *)
Definition subject_id (o : Order) : M string :=
  match id o with
  | Some key => mret key
  | None => throw (Error "TypeError: Cannot read properties of undefined (reading 'slice')")
  end.

Definition sendOrderConfirmationEmail (order : ref) : M unit :=
  try_catch
    (o ← read order;
     subject_id o;;
     sgMail_send (OrderConfirmationEmail o);;
     logger LOG ("✉️ Email de confirmación enviado a " +:+ clientEmail o))
    (fun error =>
       logger ERROR ("❌ Error al enviar email de confirmación: " +:+ error_message error)).

Definition sendOrderStatusUpdateEmail (order : ref) (previousStatus : OrderStatus) : M unit :=
  try_catch
    (o ← read order;
     subject_id o;;
     sgMail_send (OrderStatusUpdateEmail o previousStatus);;
     logger LOG ("✉️ Email de actualización de estado enviado a " +:+ clientEmail o))
    (fun error =>
       logger ERROR ("Error al enviar email de actualización: " +:+ error_message error)).

Definition sendOrderCancellationEmail (order : ref) : M unit :=
  try_catch
    (o ← read order;
     subject_id o;;
     sgMail_send (OrderCancellationEmail o);;
     logger LOG ("Email de cancelación enviado a " +:+ clientEmail o))
    (fun error =>
       logger ERROR ("Error al enviar email de cancelación: " +:+ error_message error)).

End SendGridService.

(** ** rabbitmq.service.ts *)

(** A message as the broker delivers it. *)
Record Message := mkMessage {
  content : string;
  deliveryTag : nat;
}.

(** What calling an [async] function returns: the rest of its work, which the
    event loop runs after the caller has gone on. *)
Definition Promise : Type := M unit.

(** What the broker answers to one run of the [try] block of [connect]: all of
    it goes through, or [amqp.connect] / [createChannel] throws, or a queue
    declaration throws (then [this.channel] has already been assigned). *)
Inductive Attempt :=
| Connected
| Refused (message : string)
| DeclarationFailed (message : string).

Module RabbitMQService.

Definition maxReconnectAttempts : nat := 10.

Definition getRequiredConfig (key : string) : M string :=
  fun w =>
    if truthy (config w !! key) then (Returned (default "" (config w !! key)), w)
    else (Thrown (Error ("Missing required config: " +:+ key)), w).

(** [this.connection = ...; this.channel = ...] *)
Definition open_channel : M unit :=
  fun w => (Returned tt, with_channel true w).

(** [this.reconnectAttempts = 0] *)
Definition reset_reconnectAttempts : M unit :=
  fun w => (Returned tt, with_reconnectAttempts 0 w).

(** [connect(retryCount)].  [amqp n] is what the broker answers to the
    connection attempt made with retry count [n]. *)
Equations? connect (amqp : nat -> Attempt) (retryCount : nat) : M unit
  by wf (maxReconnectAttempts - retryCount)%nat lt :=
connect amqp retryCount :=
  try_catch
    (logger LOG ("Intentando conectar a RabbitMQ (intento " +:+ pretty (retryCount + 1)%nat +:+ ")...");;
     emit (ConnectAttempted retryCount);;
     match amqp retryCount with
     | Refused message => throw (Error message)
     | DeclarationFailed message => open_channel;; throw (Error message)
     | Connected =>
         open_channel;;
         logger LOG "✓ Conectado exitosamente a RabbitMQ";;
         reset_reconnectAttempts
     end)
    (fun error =>
       logger ERROR ("Error conectando a RabbitMQ: " +:+ error_message error);;
       match lt_dec retryCount maxReconnectAttempts with
       | left _ =>
           let delay := Z.min (1000 * 2 ^ Z.of_nat retryCount) 30000 in
           logger LOG ("Reintentando en " +:+ pretty (delay / 1000) +:+ " segundos...");;
           emit (Slept delay);;
           (connect amqp (S retryCount) : M unit)
       | right _ =>
           logger ERROR "Máximo de reintentos alcanzado. No se pudo conectar a RabbitMQ."
       end).
Proof. unfold maxReconnectAttempts in *. lia. Qed.

Definition ensureQueue (queue : string) : M unit :=
  fun w =>
    if channel w then (Returned tt, with_trace (trace w ++ [QueueAsserted queue]) w)
    else (Thrown (Error "Canal RabbitMQ no inicializado"), w).

Definition publishMessage (queue : string) (payload : Payload) : M unit :=
  try_catch
    (ensureQueue queue;;
     emit (MessageSent queue payload);;
     logger LOG ("Mensaje enviado a cola " +:+ queue))
    (fun error =>
       logger ERROR ("Error al publicar mensaje en " +:+ queue +:+ ": " +:+ error_message error);;
       throw error).

Definition publishOrderCreated (payload : Payload) : M unit :=
  queue ← getRequiredConfig "RABBITMQ_QUEUE_ORDER_CREATED";
  publishMessage queue payload.

Definition publishOrderShipped (payload : Payload) : M unit :=
  queue ← getRequiredConfig "RABBITMQ_QUEUE_ORDER_SHIPPED";
  publishMessage queue payload.

Definition publishOrderDelivered (payload : Payload) : M unit :=
  queue ← getRequiredConfig "RABBITMQ_QUEUE_ORDER_DELIVERED";
  publishMessage queue payload.

Definition publishOrderFailedStock (payload : Payload) : M unit :=
  queue ← getRequiredConfig "RABBITMQ_QUEUE_ORDER_FAILED";
  publishMessage queue payload.

(** The function that [consumeMessages] hands to [channel.consume]: parse the
    content, call the callback, acknowledge.  The callback's promise is not
    awaited; it is returned here as the promise left floating. *)
Definition consumer {A : Type} (JSON_parse : string -> option A) (queue : string)
    (callback : A -> M Promise) (msg : option Message) : M (option Promise) :=
  match msg with
  | Some m =>
      match JSON_parse (content m) with
      | None => throw (Error "SyntaxError: Unexpected token in JSON")
      | Some data =>
          logger LOG ("Mensaje recibido de cola " +:+ queue);;
          promise ← callback data;
          emit (Acked (deliveryTag m));;
          mret (Some promise)
      end
  | None => mret None
  end.

(** [consumeMessages(queue, callback)]: returns the consumer it registered on
    the channel, if it got that far. *)
Definition consumeMessages {A : Type} (JSON_parse : string -> option A) (queue : string)
    (callback : A -> M Promise) : M (option (option Message -> M (option Promise))) :=
  try_catch
    (ensureQueue queue;;
     emit (ConsumerRegistered queue);;
     logger LOG ("Escuchando mensajes en cola " +:+ queue);;
     mret (Some (consumer JSON_parse queue callback)))
    (fun error =>
       logger ERROR ("Error al consumir mensajes de " +:+ queue +:+ ": " +:+ error_message error);;
       mret None).

(** [validateStock(items)]: [items.length] of the log line is a [TypeError]
    when [items] is [undefined]. *)
Definition validateStock (itemDtos : option (list CreateOrderItemDto)) : M StockValidation :=
  try_catch
    (match itemDtos with
     | Some l => logger LOG ("Validando stock de " +:+ pretty (length l) +:+ " productos...")
     | None => throw (Error "TypeError: Cannot read properties of undefined (reading 'length')")
     end;;
     mret (mkStockValidation true []))
    (fun error =>
       logger ERROR ("Error al validar stock: " +:+ error_message error);;
       mret (mkStockValidation true [])).


(** [this.reconnectAttempts] *)
Definition get_reconnectAttempts : M nat :=
  fun w => (Returned (reconnectAttempts w), w).

(** [this.reconnectAttempts = n] *)
Definition set_reconnectAttempts (n : nat) : M unit :=
  fun w => (Returned tt, with_reconnectAttempts n w).

(** [reconnect()]: one more reconnection, while the counter allows it. *)
Definition reconnect (amqp : nat -> Attempt) : M unit :=
  counter ← get_reconnectAttempts;
  if (counter <? maxReconnectAttempts)%nat then
    set_reconnectAttempts (S counter);;
    counter ← get_reconnectAttempts;
    let delay := Z.min (1000 * 2 ^ Z.of_nat counter) 30000 in
    emit (Slept delay);;
    connect amqp 0
  else mret tt.

End RabbitMQService.

(** ** query-order.dto.ts *)

(** The filters of a listing; each may be absent.  [status] is a plain string
    here, as in the DTO. *)
Record QueryOrderDto := mkQueryOrderDto {
  q_orderId : option string;
  q_clientId : option string;
  q_clientName : option string;
  q_status : option string;
  q_startDate : option string;
  q_endDate : option string;
}.

(** What [findOne] returns (without [createdAt], as the entity). *)
Record OrderDetailDto := mkOrderDetailDto {
  detail_id : option string;
  detail_clientId : string;
  detail_clientName : string;
  detail_status : OrderStatus;
  detail_total : float;
  detail_shippingAddress : string;
  detail_trackingNumber : option string;
  detail_cancellationReason : option string;
  detail_items : list OrderItem;
}.

(** The conditions [findAll] puts on its query builder. *)
Inductive Condition :=
| IsDeletedIs (value : bool)
| IdIs (orderId : string)
| ClientIdIs (client : string)
| ClientNameLike (pattern : string)
| StatusIs (wanted : string)
| CreatedAtBetween (startDate endDate : string)
| CreatedAtFrom (startDate : string)
| CreatedAtUntil (endDate : string).

(** The query [findAll] hands to the database: orders joined with their
    items, under the conditions, in the given order. *)
Record SelectQuery := mkSelectQuery {
  conditions : list Condition;
  orderBy : string * string;
}.

(** ** order.service.ts *)

Record ProductDetails := mkProductDetails {
  pd_id : string;
  pd_name : string;
  pd_price : float;
  pd_imageUrl : string;
}.

Module OrdersService.

Definition getProductDetails (productId : string) : M ProductDetails :=
  logger LOG ("Obteniendo detalles del producto " +:+ productId);;
  mret (mkProductDetails productId "Producto de Ejemplo" 10000
          "https://via.placeholder.com/150").

(** The [validTransitions] object literal of [validateStatusTransition]. *)
Definition validTransitions : list (OrderStatus * list OrderStatus) :=
  [ (pendiente, [en_procesamiento; cancelado]);
    (en_procesamiento, [enviado; cancelado]);
    (enviado, [entregado; cancelado]);
    (entregado, []);
    (cancelado, []) ].

(** [table[key] || []] *)
Fixpoint property (key : OrderStatus) (obj : list (OrderStatus * list OrderStatus))
    : list OrderStatus :=
  match obj with
  | [] => []
  | (k, v) :: rest => if status_eqb k key then v else property key rest
  end.

(** [array.includes(x)] *)
Fixpoint includes (array : list OrderStatus) (x : OrderStatus) : bool :=
  match array with
  | [] => false
  | y :: rest => if status_eqb y x then true else includes rest x
  end.

Definition validateStatusTransition (currentStatus newStatus : OrderStatus) : M unit :=
  let allowedStatuses := property currentStatus validTransitions in
  if negb (includes allowedStatuses newStatus) then
    throw (BadRequestException (BadRequestMessage
      ("No se puede cambiar de estado " +:+ dquote +:+ status_name currentStatus +:+ dquote
       +:+ " a " +:+ dquote +:+ status_name newStatus +:+ dquote)))
  else mret tt.

(** The callback of [createOrderDto.items.map] under [Promise.all], run over
    the items in order; [totalAmount] is the running sum the callbacks add
    to.  The product and the sum are those of doubles. *)
Fixpoint orderItems_of (itemDtos : list CreateOrderItemDto) (totalAmount : float)
    : M (list OrderItem * float) :=
  match itemDtos with
  | [] => mret ([], totalAmount)
  | itemDto :: rest =>
      productDetails ← getProductDetails (dto_productId itemDto);
      let subtotal := (pd_price productDetails * dto_quantity itemDto)%float in
      let totalAmount := (totalAmount + subtotal)%float in
      let item :=
        mkOrderItem (dto_productId itemDto) (pd_name productDetails)
          (Some (pd_imageUrl productDetails)) (pd_price productDetails)
          (dto_quantity itemDto) subtotal in
      '(orderItems, totalAmount) ← orderItems_of rest totalAmount;
      mret (item :: orderItems, totalAmount)
  end.

(** [acc[key] = value] on the plain object [acc], for a [number] value: the
    key [__proto__] is the accessor of [Object.prototype], whose setter
    ignores a value that is no object, so no property is made; every other
    key becomes, or stays, an own property with the value. *)
Definition set_property (key : string) (value : float) (acc : gmap string float)
    : gmap string float :=
  if (key =? "__proto__")%string then acc else <[key := value]> acc.

(** [order.items.reduce((acc, item) => { acc[item.productId] = item.quantity; ... }, {})] *)
Definition productsMap_of (l : list OrderItem) : gmap string float :=
  foldl (fun acc item => set_property (item_productId item) (item_quantity item) acc) ∅ l.

Definition publishOrderCreatedEvent (order : ref) : M unit :=
  try_catch
    (o ← read order;
     let payload := OrderCreatedPayload (id o) (productsMap_of (items o)) in
     RabbitMQService.publishOrderCreated payload;;
     logger LOG ("Evento order.created publicado para OrderID " +:+ default "undefined" (id o)))
    (fun error =>
       logger ERROR ("Error al publicar evento order.created: " +:+ error_message error)).

(** [create(createOrderDto)], over the stock check of the injected broker
    service. *)
Definition create_with
    (validateStock : option (list CreateOrderItemDto) -> M StockValidation)
    (createOrderDto : CreateOrderDto) : M ref :=
  logger LOG ("Creando nuevo pedido para cliente " +:+ dto_clientId createOrderDto);;
  try_catch
    (productsWithStock ← validateStock (dto_items createOrderDto);
     if negb (allAvailable productsWithStock) then
       throw (BadRequestException
                (BadRequestStock "Algunos productos no tienen stock suficiente"
                   (unavailable productsWithStock)))
     else
       order ← repository_create
                 (mkOrder None (dto_clientId createOrderDto) (dto_clientName createOrderDto)
                    (dto_clientEmail createOrderDto) pendiente 0
                    (dto_shippingAddress createOrderDto) None None None None None [] false);
       match dto_items createOrderDto with
       | None => throw (Error "TypeError: Cannot read properties of undefined (reading 'map')")
       | Some itemDtos =>
           '(orderItems, totalAmount) ← orderItems_of itemDtos 0;
           assign order (set_items orderItems);;
           assign order (set_total totalAmount);;
           savedOrder ← repository_save order;
           saved ← read savedOrder;
           logger LOG ("Pedido " +:+ default "undefined" (id saved) +:+ " creado exitosamente");;
           publishOrderCreatedEvent savedOrder;;
           SendGridService.sendOrderConfirmationEmail savedOrder;;
           mret savedOrder
       end)
    (fun error =>
       logger ERROR ("Error al crear pedido: " +:+ error_message error);;
       if is_BadRequestException error then throw error
       else throw (InternalServerErrorException "Error al procesar el pedido")).

Definition create (createOrderDto : CreateOrderDto) : M ref :=
  create_with RabbitMQService.validateStock createOrderDto.

Definition not_found (key : string) : Exception :=
  NotFoundException ("Pedido con ID " +:+ key +:+ " no encontrado").

Definition updateStatus (key : string) (updateDto : UpdateOrderStatusDto) : M ref :=
  logger LOG ("Actualizando estado del pedido " +:+ key +:+ " a "
              +:+ status_name (dto_status updateDto));;
  try_catch
    (found ← repository_findOne key;
     match found with
     | None => throw (not_found key)
     | Some order =>
         loaded ← read order;
         validateStatusTransition (status loaded) (dto_status updateDto);;
         let previousStatus := status loaded in
         assign order (set_status (dto_status updateDto));;
         match dto_status updateDto with
         | enviado =>
             if negb (truthy (dto_trackingNumber updateDto)) then
               throw (BadRequestException (BadRequestMessage
                 ("Se requiere número de tracking para estado "
                  +:+ dquote +:+ "enviado" +:+ dquote)))
             else
               assign order (set_trackingNumber (dto_trackingNumber updateDto));;
               now ← new_Date;
               assign order (set_shippedAt (Some now));;
               o ← read order;
               RabbitMQService.publishOrderShipped
                 (OrderShippedPayload (id o) (clientId o) (clientEmail o) (trackingNumber o)
                    (map (fun item => (item_productId item, item_quantity item)) (items o)))
         | entregado =>
             now ← new_Date;
             assign order (set_deliveredAt (Some now));;
             o ← read order;
             RabbitMQService.publishOrderDelivered
               (OrderDeliveredPayload (id o) (clientId o) (clientEmail o))
         | cancelado =>
             now ← new_Date;
             assign order (set_cancelledAt (Some now))
         | _ => mret tt
         end;;
         updatedOrder ← repository_save order;
         SendGridService.sendOrderStatusUpdateEmail updatedOrder previousStatus;;
         logger LOG ("Estado del pedido " +:+ key +:+ " actualizado exitosamente");;
         mret updatedOrder
     end)
    (fun error =>
       if is_NotFoundException error || is_BadRequestException error then throw error
       else
         logger ERROR ("Error al actualizar estado del pedido " +:+ key +:+ ": "
                       +:+ error_message error);;
         throw (InternalServerErrorException "Error al actualizar el estado del pedido")).

Definition cancel (key : string) (cancelDto : CancelOrderDto) : M ref :=
  logger LOG ("Cancelando pedido " +:+ key);;
  try_catch
    (found ← repository_findOne key;
     match found with
     | None => throw (not_found key)
     | Some order =>
         loaded ← read order;
         if includes [entregado; cancelado] (status loaded) then
           throw (BadRequestException (BadRequestMessage
             ("No se puede cancelar un pedido con estado "
              +:+ dquote +:+ status_name (status loaded) +:+ dquote)))
         else
           assign order (set_status cancelado);;
           assign order (set_cancellationReason
                           (or_else (dto_cancellationReason cancelDto)
                                    (Some "Cancelado por el usuario")));;
           now ← new_Date;
           assign order (set_cancelledAt (Some now));;
           cancelledOrder ← repository_save order;
           SendGridService.sendOrderCancellationEmail cancelledOrder;;
           logger LOG ("Pedido " +:+ key +:+ " cancelado exitosamente");;
           mret cancelledOrder
     end)
    (fun error =>
       if is_NotFoundException error || is_BadRequestException error then throw error
       else
         logger ERROR ("Error al cancelar pedido " +:+ key +:+ ": " +:+ error_message error);;
         throw (InternalServerErrorException "Error al cancelar el pedido")).

Definition handleFailedStock (data : FailedStockData) : M unit :=
  try_catch
    (match data_message data with
     | None =>
         logger ERROR ("Error al manejar fallo de stock: Objeto " +:+ dquote +:+ "message"
                       +:+ dquote +:+ " no encontrado en el payload")
     | Some messagePayload =>
         let orderId := or_else (msg_orderId messagePayload) (msg_OrderId messagePayload) in
         if negb (truthy orderId) then
           logger ERROR ("Error al manejar fallo de stock: orderId no encontrado en el objeto "
                         +:+ dquote +:+ "message" +:+ dquote)
         else
           let key := default "" orderId in
           found ← repository_findOne key;
           let discard :=
             logger WARN ("Orden " +:+ key
                          +:+ " no encontrada o ya no está pendiente. Omitiendo cancelación.") in
           match found with
           | None => discard
           | Some order =>
               loaded ← read order;
               if negb (status_eqb (status loaded) pendiente) then discard
               else
                 assign order (set_status cancelado);;
                 assign order (set_cancellationReason (Some "Stock insuficiente"));;
                 now ← new_Date;
                 assign order (set_cancelledAt (Some now));;
                 repository_save order;;
                 SendGridService.sendOrderCancellationEmail order;;
                 o ← read order;
                 logger LOG ("Pedido " +:+ default "undefined" (id o)
                             +:+ " cancelado por falta de stock")
           end
     end)
    (fun error =>
       logger ERROR ("Error al manejar fallo de stock: " +:+ error_message error)).

(** The callback registered by [onModuleInit]:
    [async (data) => { await this.handleFailedStock(data); }].  Calling it
    yields the handler's promise and never throws.  What the handler does
    before its first [await] is to read the message and, when the envelope or
    the id is missing, to write the error to the log; the embedding leaves the
    whole handler to the promise. *)
Definition failedStockCallback (data : FailedStockData) : M Promise :=
  mret (handleFailedStock data).

Definition onModuleInit (JSON_parse : string -> option FailedStockData)
    : M (option (option Message -> M (option Promise))) :=
  RabbitMQService.consumeMessages JSON_parse "order.failed.stock" failedStockCallback.


(** [findOne(id)] *)
Definition findOne (key : string) : M OrderDetailDto :=
  logger LOG ("Consultando pedido " +:+ key);;
  try_catch
    (found ← repository_findOne key;
     match found with
     | None => throw (not_found key)
     | Some order =>
         o ← read order;
         mret (mkOrderDetailDto (id o) (clientId o) (clientName o) (status o) (total o)
                 (shippingAddress o) (trackingNumber o) (cancellationReason o)
                 (map (fun item =>
                         mkOrderItem (item_productId item) (item_productName item)
                           (item_productImageUrl item) (item_unitPrice item)
                           (item_quantity item) (item_subtotal item))
                      (items o)))
     end)
    (fun error =>
       if is_NotFoundException error then throw error
       else
         logger ERROR ("Error al consultar pedido " +:+ key +:+ ": " +:+ error_message error);;
         throw (InternalServerErrorException "Error al consultar el pedido")).

(** [queryBuilder.andWhere(...)] under [if (value)] *)
Definition andWhere (value : option string) (condition : string -> Condition)
    : list Condition :=
  if truthy value then [condition (default "" value)] else [].

(** The query [findAll] builds from the filters. *)
Definition queryBuilder (queryDto : QueryOrderDto) : SelectQuery :=
  mkSelectQuery
    ([IsDeletedIs false]
     ++ andWhere (q_orderId queryDto) IdIs
     ++ andWhere (q_clientId queryDto) ClientIdIs
     ++ andWhere (q_clientName queryDto) (fun name => ClientNameLike ("%" +:+ name +:+ "%"))
     ++ andWhere (q_status queryDto) StatusIs
     ++ (if truthy (q_startDate queryDto) && truthy (q_endDate queryDto) then
           [CreatedAtBetween (default "" (q_startDate queryDto))
              (default "" (q_endDate queryDto))]
         else if truthy (q_startDate queryDto) then
           [CreatedAtFrom (default "" (q_startDate queryDto))]
         else if truthy (q_endDate queryDto) then
           [CreatedAtUntil (default "" (q_endDate queryDto))]
         else []))
    ("order.createdAt", "DESC").

(** [findAll(queryDto)], over the database's [getMany]. *)
Definition findAll (getMany : SelectQuery -> M (list Order)) (queryDto : QueryOrderDto)
    : M (list Order) :=
  logger LOG "Consultando listado de pedidos";;
  try_catch
    (getMany (queryBuilder queryDto))
    (fun error =>
       logger ERROR ("Error al consultar pedidos: " +:+ error_message error);;
       throw (InternalServerErrorException "Error al consultar pedidos")).

(** [getClientHistory(clientId)] *)
Definition getClientHistory (getMany : SelectQuery -> M (list Order)) (client : string)
    : M (list Order) :=
  logger LOG ("Consultando historial de pedidos del cliente " +:+ client);;
  findAll getMany (mkQueryOrderDto None (Some client) None None None None).

End OrdersService.

(** ** Reference definitions used by the statements *)

Open Scope list_scope.

(** The transition table of the specification, as a relation on statuses. *)
Definition transition_table (current requested : OrderStatus) : bool :=
  match current, requested with
  | pendiente, en_procesamiento | pendiente, cancelado => true
  | en_procesamiento, enviado | en_procesamiento, cancelado => true
  | enviado, entregado | enviado, cancelado => true
  | _, _ => false
  end.

(** The error thrown for a pair outside the table. *)
Definition invalid_transition (current requested : OrderStatus) : Exception :=
  BadRequestException (BadRequestMessage
    ("No se puede cambiar de estado " +:+ dquote +:+ status_name current +:+ dquote
     +:+ " a " +:+ dquote +:+ status_name requested +:+ dquote)).

(** The error thrown when [enviado] is requested without a tracking number. *)
Definition tracking_required : Exception :=
  BadRequestException (BadRequestMessage
    ("Se requiere número de tracking para estado " +:+ dquote +:+ "enviado" +:+ dquote)).

(** The error thrown when a delivered or cancelled order is cancelled. *)
Definition cannot_cancel (current : OrderStatus) : Exception :=
  BadRequestException (BadRequestMessage
    ("No se puede cancelar un pedido con estado "
     +:+ dquote +:+ status_name current +:+ dquote)).

(** What a notification adds to the trace and to the log. *)
Definition mails (w : World) (mail : Email) : list Effect :=
  if sendgrid_up w then [EmailRequested mail] else [].

Definition mail_log (w : World) (sent failed : string) : LogLevel * string :=
  if sendgrid_up w then (LOG, sent) else (ERROR, failed +:+ "Unauthorized").

(** Two worlds that differ in their trace and log at most. *)
Definition same_store (w w' : World) : Prop :=
  table w' = table w /\ heap w' = heap w /\ issued w' = issued w /\ uuid w' = uuid w
  /\ clock w' = clock w /\ config w' = config w /\ channel w' = channel w
  /\ sendgrid_up w' = sendgrid_up w.

(** [min(1000 * 2^n, 30000)] *)
Definition backoff (n : nat) : Z := Z.min (1000 * 2 ^ Z.of_nat n) 30000.

(** The attempts and pauses of a connection sequence that starts with retry
    count [from] and makes [retries] retries. *)
Fixpoint schedule (from retries : nat) : list Effect :=
  match retries with
  | O => [ConnectAttempted from]
  | S n => ConnectAttempted from :: Slept (backoff from) :: schedule (S from) n
  end.

Definition is_stock_failure {A : Type} (result : Outcome A) : bool :=
  match result with
  | Thrown (BadRequestException _) => true
  | _ => false
  end.

(** What [create] makes of one item of the command: the product details are
    those [getProductDetails] returns. *)
Definition priced (itemDto : CreateOrderItemDto) : OrderItem :=
  mkOrderItem (dto_productId itemDto) "Producto de Ejemplo"
    (Some "https://via.placeholder.com/150") 10000 (dto_quantity itemDto)
    (10000 * dto_quantity itemDto)%float.

(** The subtotals added one after the other to [totalAmount], in the order of
    the items (the sum of doubles depends on the order). *)
Definition add_subtotals (totalAmount : float) (l : list OrderItem) : float :=
  foldl (fun acc item => (acc + item_subtotal item)%float) totalAmount l.

Definition sum_subtotals (l : list OrderItem) : float := add_subtotals 0 l.

Definition detail_logs (l : list CreateOrderItemDto) : list (LogLevel * string) :=
  map (fun itemDto => (LOG, "Obteniendo detalles del producto " +:+ dto_productId itemDto)) l.

(** The order [create] builds for a command with the items [l]. *)
Definition new_order (createOrderDto : CreateOrderDto) (l : list CreateOrderItemDto)
    (key : option string) : Order :=
  mkOrder key (dto_clientId createOrderDto) (dto_clientName createOrderDto)
    (dto_clientEmail createOrderDto) pendiente (sum_subtotals (map priced l))
    (dto_shippingAddress createOrderDto) None None None None None (map priced l) false.

(** The log line of [validateStock]. *)
Definition stock_log (itemDtos : option (list CreateOrderItemDto)) : LogLevel * string :=
  match itemDtos with
  | Some l => (LOG, "Validando stock de " +:+ pretty (length l) +:+ " productos...")
  | None =>
      (ERROR, "Error al validar stock: "
              +:+ "TypeError: Cannot read properties of undefined (reading 'length')")
  end.

(** The error [create] throws when the stock check reports missing stock. *)
Definition insufficient_stock (verdict : StockValidation) : Exception :=
  BadRequestException
    (BadRequestStock "Algunos productos no tienen stock suficiente" (unavailable verdict)).

(** A stock check that finds the first product of the command out of stock. *)
Definition out_of_stock (itemDtos : option (list CreateOrderItemDto)) : M StockValidation :=
  mret (mkStockValidation false [mkUnavailableProduct "p1" 2 0]).

Definition example_command : CreateOrderDto :=
  mkCreateOrderDto "client-1" "Ana" "ana@censudex.cl" "Calle 1"
    (Some [mkCreateOrderItemDto "p1" 2; mkCreateOrderItemDto "p2" 1]).

(** The pauses recorded in a trace. *)
Definition pauses (t : list Effect) : list Z :=
  omap (fun e => match e with Slept ms => Some ms | _ => None end) t.

(** A broker that refuses every connection. *)
Definition always_down : nat -> Attempt := fun _ => Refused "ECONNREFUSED".

(** The connection attempts recorded in a trace. *)
Definition attempts (t : list Effect) : list nat :=
  omap (fun e => match e with ConnectAttempted n => Some n | _ => None end) t.

(** The text of a failure event for order-0. *)
Definition order0_failed_text : string :=
  "{" +:+ dquote +:+ "message" +:+ dquote +:+ ":{" +:+ dquote +:+ "orderId" +:+ dquote
  +:+ ":" +:+ dquote +:+ "order-0" +:+ dquote +:+ "}}".

(** [JSON.parse] on the texts of the examples: it yields the data of
    [order0_failed_text] and throws on a text that is not JSON, such as
    [not json]; the examples use no other text. *)
Definition example_JSON_parse (text : string) : option FailedStockData :=
  if String.eqb text order0_failed_text then
    Some (mkFailedStockData (Some (mkFailedStockMessage (Some "order-0") None)))
  else None.

(** ** Example worlds *)

Definition example_config : gmap string string :=
  list_to_map
    [ ("RABBITMQ_QUEUE_ORDER_CREATED", "order.created");
      ("RABBITMQ_QUEUE_ORDER_FAILED", "order.failed.stock");
      ("RABBITMQ_QUEUE_ORDER_SHIPPED", "order.shipped");
      ("RABBITMQ_QUEUE_ORDER_DELIVERED", "order.delivered") ].

Definition example_item : OrderItem :=
  mkOrderItem "p1" "Producto de Ejemplo" (Some "https://via.placeholder.com/150")
    10000 2 20000.

Definition example_order (st : OrderStatus) : Order :=
  mkOrder (Some "order-0") "client-1" "Ana" "ana@censudex.cl" st 20000 "Calle 1"
    None None None None None [example_item] false.

Definition example_uuid (n : nat) : string := "order-" +:+ pretty n.

(** A running service whose table holds one order, in the given status. *)
Definition example_world (st : OrderStatus) : World :=
  mkWorld {["order-0" := example_order st]} [] 1 example_uuid 1700000000
    example_config true true 0 [] [].

(** A running service with an empty table. *)
Definition empty_world : World :=
  mkWorld ∅ [] 0 example_uuid 1700000000 example_config true true 0 [] [].

(** ** order.controller.ts *)

(** The gRPC messages of the handlers.  A message is an object or
    [undefined], and every field of it may be absent. *)
Record FindOneOrderRequest := mkFindOneOrderRequest {
  find_id : option string;
}.

Record UpdateOrderStatusRequest := mkUpdateOrderStatusRequest {
  update_id : option string;
  update_status : option OrderStatus;
  update_trackingNumber : option string;
}.

Record CancelOrderRequest := mkCancelOrderRequest {
  cancel_id : option string;
  cancel_cancellationReason : option string;
}.

Record GetClientHistoryRequest := mkGetClientHistoryRequest {
  history_clientId : option string;
}.

(** [AuthUser] of grpc-user.decorator.ts; at run time [role] is whatever
    string the metadata carries. *)
Record AuthUser := mkAuthUser {
  userId : string;
  role : string;
  email : string;
}.

(** A protobuf [Timestamp]. *)
Record Timestamp := mkTimestamp {
  seconds : Z;
  nanos : Z;
}.

(** The object [mapOrderToResponse] builds: the fields of its argument, the
    dates as timestamps ([createdAt] and [updatedAt] are left out, as in the
    entities).  The fields that only an [Order] has are absent when the
    argument is an [OrderDetailDto]. *)
Record OrderResponse := mkOrderResponse {
  response_id : option string;
  response_clientId : string;
  response_clientName : string;
  response_clientEmail : option string;
  response_status : OrderStatus;
  response_total : float;
  response_shippingAddress : string;
  response_trackingNumber : option string;
  response_cancellationReason : option string;
  response_isDeleted : option bool;
  response_items : list OrderItem;
  response_shippedAt : option Timestamp;
  response_deliveredAt : option Timestamp;
  response_cancelledAt : option Timestamp;
}.

(** The status codes of [@grpc/grpc-js] that the service uses. *)
Inductive Status :=
| INVALID_ARGUMENT
| NOT_FOUND
| PERMISSION_DENIED
| INTERNAL
| UNAUTHENTICATED.

Record RpcException := mkRpcException {
  rpc_code : Status;
  rpc_message : string;
}.

(** What the [catch] of a handler receives: the controller's own
    [ForbiddenException], or an exception that came out of the service. *)
Inductive Caught :=
| ForbiddenException (message : string)
| Raised (e : Exception).

(** The [try] block of a handler. *)
Definition Try (A : Type) : Type := World -> (A + Caught) * World.

(** A handler as the gRPC layer sees it: a response, or an [RpcException]. *)
Definition Rpc (A : Type) : Type := World -> (A + RpcException) * World.

#[global] Instance Try_ret : MRet Try := fun A a w => (inl a, w).

#[global] Instance Try_bind : MBind Try := fun A B k m w =>
  match m w with
  | (inl a, w') => k a w'
  | (inr error, w') => (inr error, w')
  end.

(** [await] of a service method *)
Definition await {A : Type} (m : M A) : Try A :=
  fun w =>
    match m w with
    | (Returned a, w') => (inl a, w')
    | (Thrown e, w') => (inr (Raised e), w')
    end.

Definition raise {A : Type} (error : Caught) : Try A := fun w => (inr error, w).

(** [x || fallback] on a possibly undefined string *)
Definition or_string (value : option string) (fallback : string) : string :=
  if truthy value then default "" value else fallback.

(** The template literal of a possibly undefined string *)
Definition interpolate (value : option string) : string := default "undefined" value.

Module OrdersController.

Definition caught_message (error : Caught) : string :=
  match error with
  | ForbiddenException message => message
  | Raised e => error_message e
  end.

(** [handleRpcError(error, logger, methodName)]: always throws. *)
Definition handleRpcError {A : Type} (error : Caught) (methodName : string) : Rpc A :=
  fun w =>
    let w' := with_logs (logs w ++ [(ERROR, "Error en " +:+ methodName +:+ ": "
                                              +:+ caught_message error)]) w in
    let rpcStatus := INTERNAL in
    let message := or_string (Some (caught_message error)) "Error interno del servidor" in
    match error with
    | ForbiddenException _ =>
        (inr (mkRpcException PERMISSION_DENIED (caught_message error)), w')
    | Raised e =>
        if is_NotFoundException e then
          (inr (mkRpcException NOT_FOUND (caught_message error)), w')
        else if is_BadRequestException e then
          (inr (mkRpcException INVALID_ARGUMENT (caught_message error)), w')
        else (inr (mkRpcException rpcStatus message), w')
    end.

(** [try { body } catch (error) { handleRpcError(error, this.logger, methodName) }] *)
Definition try_rpc {A : Type} (methodName : string) (body : Try A) : Rpc A :=
  fun w =>
    match body w with
    | (inl a, w') => (inl a, w')
    | (inr error, w') => handleRpcError error methodName w'
    end.

(** [this.logger.log(text)] ahead of the [try] *)
Definition logged {A : Type} (text : string) (rest : Rpc A) : Rpc A :=
  fun w => rest (with_logs (logs w ++ [(LOG, text)]) w).

(** [toTimestamp]: [Math.floor(ms / 1000)] seconds and [(ms % 1000) * 1e6]
    nanoseconds, [%] being the remainder of JavaScript, which takes the sign
    of [ms]. *)
Definition toTimestamp (date : option Z) : option Timestamp :=
  match date with
  | None => None
  | Some ms => Some (mkTimestamp (ms / 1000) (Z.rem ms 1000 * 1000000))
  end.

(** [parseFloat(String(x || 0))]: [0], [-0] and [NaN] are falsy and give [0];
    every other number is printed and read back, which returns it as it is. *)
Definition parseFloat_or_0 (x : float) : float :=
  if PrimFloat.is_zero x || PrimFloat.is_nan x then 0%float else x.

Definition mapItem (item : OrderItem) : OrderItem :=
  mkOrderItem (item_productId item) (item_productName item) (item_productImageUrl item)
    (parseFloat_or_0 (item_unitPrice item)) (item_quantity item)
    (parseFloat_or_0 (item_subtotal item)).

Definition mapOrderToResponse (order : option (Order + OrderDetailDto))
    : option OrderResponse :=
  match order with
  | None => None
  | Some (inl o) =>
      Some (mkOrderResponse (id o) (clientId o) (clientName o) (Some (clientEmail o))
              (status o) (parseFloat_or_0 (total o)) (shippingAddress o) (trackingNumber o)
              (cancellationReason o) (Some (isDeleted o)) (map mapItem (items o))
              (toTimestamp (shippedAt o)) (toTimestamp (deliveredAt o))
              (toTimestamp (cancelledAt o)))
  | Some (inr d) =>
      Some (mkOrderResponse (detail_id d) (detail_clientId d) (detail_clientName d) None
              (detail_status d) (parseFloat_or_0 (detail_total d)) (detail_shippingAddress d)
              (detail_trackingNumber d) (detail_cancellationReason d) None
              (map mapItem (detail_items d))
              (toTimestamp None) (toTimestamp None) (toTimestamp None))
  end.

(** [mapOrderToResponse] of the entity object a service method returned *)
Definition respond (order : ref) : Try (option OrderResponse) :=
  o ← await (read order);
  mret (mapOrderToResponse (Some (inl o))).

Definition extractUserFromMetadata (metadata : option (gmap string string)) : AuthUser :=
  let meta := default ∅ metadata in
  mkAuthUser (or_string (meta !! "x-user-id") "")
    (or_string (meta !! "x-user-role") "client")
    (or_string (meta !! "x-user-email") "").

Definition bad_request {A : Type} (message : string) : Try A :=
  raise (Raised (BadRequestException (BadRequestMessage message))).

(** [createOrder(data, metadata)] *)
Definition createOrder (data : option CreateOrderDto) (metadata : option (gmap string string))
    : Rpc (option OrderResponse) :=
  let user := extractUserFromMetadata metadata in
  logged ("gRPC CreateOrder - Cliente " +:+ userId user)
    (try_rpc "CreateOrder"
       (match data with
        | None =>
            bad_request "El mensaje de solicitud (CreateOrderRequest) está vacío o es inválido."
        | Some createOrderDto =>
            if negb (truthy (Some (dto_clientId createOrderDto))) then
              bad_request "El mensaje de solicitud (CreateOrderRequest) está vacío o es inválido."
            else if (role user =? "client")%string
                    && negb (dto_clientId createOrderDto =? userId user)%string then
              raise (ForbiddenException "Solo puedes crear pedidos para ti mismo")
            else
              order ← await (OrdersService.create createOrderDto);
              respond order
        end)).

(** [queryDto || {}], then [effectiveQueryDto.clientId = user.userId] for a
    client *)
Definition effectiveQueryDto (data : option QueryOrderDto) (user : AuthUser) : QueryOrderDto :=
  let queryDto := default (mkQueryOrderDto None None None None None None) data in
  if (role user =? "client")%string then
    mkQueryOrderDto (q_orderId queryDto) (Some (userId user)) (q_clientName queryDto)
      (q_status queryDto) (q_startDate queryDto) (q_endDate queryDto)
  else queryDto.

(** [findAllOrders(data, metadata)] *)
Definition findAllOrders (getMany : SelectQuery -> M (list Order))
    (data : option QueryOrderDto) (metadata : option (gmap string string))
    : Rpc (list (option OrderResponse)) :=
  let user := extractUserFromMetadata metadata in
  logged "gRPC FindAllOrders"
    (try_rpc "FindAllOrders"
       (orders ← await (OrdersService.findAll getMany (effectiveQueryDto data user));
        mret (map (fun o => mapOrderToResponse (Some (inl o))) orders))).

Definition is_hex (c : ascii) : bool :=
  let n := nat_of_ascii c in
  ((48 <=? n) && (n <=? 57) || (65 <=? n) && (n <=? 70) || (97 <=? n) && (n <=? 102))%nat.

(** [n] hexadecimal digits at the head of [s]; what follows them. *)
Fixpoint hex_run (n : nat) (s : string) : option string :=
  match n, s with
  | O, _ => Some s
  | S n, String c rest => if is_hex c then hex_run n rest else None
  | S _, EmptyString => None
  end.

Definition hyphen (s : option string) : option string :=
  match s with
  | Some (String c rest) => if (nat_of_ascii c =? 45)%nat then Some rest else None
  | _ => None
  end.

(** [uuidRegex.test(s)], for
    [/^[0-9a-fA-F]{8}-[0-9a-fA-F]{4}-[0-9a-fA-F]{4}-[0-9a-fA-F]{4}-[0-9a-fA-F]{12}$/] *)
Definition uuidRegex_test (s : string) : bool :=
  match hyphen (hex_run 8 s) ≫= hex_run 4 with
  | Some s1 =>
      match hyphen (Some s1) ≫= hex_run 4 with
      | Some s2 =>
          match hyphen (Some s2) ≫= hex_run 4 with
          | Some s3 =>
              match hyphen (Some s3) ≫= hex_run 12 with
              | Some EmptyString => true
              | _ => false
              end
          | None => false
          end
      | None => false
      end
  | None => false
  end.

(** [findOneOrder(data, metadata)].  [trim] is [String.prototype.trim] and
    [JSON_stringify] is [JSON.stringify]; the [debug] line is not kept in the
    log. *)
Definition findOneOrder (trim : string -> string)
    (JSON_stringify : option FindOneOrderRequest -> string)
    (data : option FindOneOrderRequest) (metadata : option (gmap string string))
    : Rpc (option OrderResponse) :=
  try_rpc "FindOneOrder"
    (let user := extractUserFromMetadata metadata in
     match data with
     | None => bad_request "El mensaje de solicitud es inválido. Recibido: undefined"
     | Some request =>
         if negb (truthy (find_id request))
            || (trim (default "" (find_id request)) =? "")%string then
           bad_request ("El ID del pedido (id) es requerido en el mensaje. Recibido: "
                        +:+ JSON_stringify data)
         else
           let key := default "" (find_id request) in
           if negb (uuidRegex_test key) then
             bad_request "El ID del pedido (id) debe ser un UUID v4 válido"
           else
             await (logger LOG ("gRPC FindOneOrder - ID " +:+ key));;
             order ← await (OrdersService.findOne key);
             if (role user =? "client")%string
                && negb (detail_clientId order =? userId user)%string then
               raise (ForbiddenException "No tienes permiso para ver este pedido")
             else mret (mapOrderToResponse (Some (inr order)))
     end).

(** [updateOrderStatus(data, metadata)] *)
Definition updateOrderStatus (data : option UpdateOrderStatusRequest)
    (metadata : option (gmap string string)) : Rpc (option OrderResponse) :=
  let user := extractUserFromMetadata metadata in
  logged ("gRPC UpdateOrderStatus - ID " +:+ interpolate (data ≫= update_id))
    (try_rpc "UpdateOrderStatus"
       (if negb (role user =? "admin")%string then
          raise (ForbiddenException "Solo administradores pueden actualizar estados")
        else
          match data with
          | None => bad_request "Se requieren id y status en el mensaje"
          | Some request =>
              if negb (truthy (update_id request)) then
                bad_request "Se requieren id y status en el mensaje"
              else
                match update_status request with
                | None => bad_request "Se requieren id y status en el mensaje"
                | Some requested =>
                    let updateDto :=
                      mkUpdateOrderStatusDto requested (update_trackingNumber request) in
                    order ← await (OrdersService.updateStatus
                                     (default "" (update_id request)) updateDto);
                    respond order
                end
          end)).

(** [cancelOrder(data, metadata)] *)
Definition cancelOrder (data : option CancelOrderRequest)
    (metadata : option (gmap string string)) : Rpc (option OrderResponse) :=
  let user := extractUserFromMetadata metadata in
  logged ("gRPC CancelOrder - ID " +:+ interpolate (data ≫= cancel_id))
    (try_rpc "CancelOrder"
       (match data with
        | None => bad_request "Se requiere un id en el mensaje"
        | Some request =>
            if negb (truthy (cancel_id request)) then
              bad_request "Se requiere un id en el mensaje"
            else
              let key := default "" (cancel_id request) in
              orderToAuth ← await (OrdersService.findOne key);
              if (role user =? "client")%string
                 && negb (detail_clientId orderToAuth =? userId user)%string then
                raise (ForbiddenException "No tienes permiso para cancelar este pedido")
              else
                cancelledOrder ← await (OrdersService.cancel key
                                          (mkCancelOrderDto (cancel_cancellationReason request)));
                respond cancelledOrder
        end)).

(** [getClientHistory(data, metadata)] *)
Definition getClientHistory (getMany : SelectQuery -> M (list Order))
    (data : option GetClientHistoryRequest) (metadata : option (gmap string string))
    : Rpc (list (option OrderResponse)) :=
  let user := extractUserFromMetadata metadata in
  logged ("gRPC GetClientHistory - Cliente " +:+ interpolate (data ≫= history_clientId))
    (try_rpc "GetClientHistory"
       (match data with
        | None => bad_request "Se requiere clientId en el mensaje"
        | Some request =>
            if negb (truthy (history_clientId request)) then
              bad_request "Se requiere clientId en el mensaje"
            else
              let client := default "" (history_clientId request) in
              if (role user =? "client")%string && negb (client =? userId user)%string then
                raise (ForbiddenException
                         "No tienes permiso para ver el historial de este cliente")
              else
                orders ← await (OrdersService.getClientHistory getMany client);
                mret (map (fun o => mapOrderToResponse (Some (inl o))) orders)
        end)).

End OrdersController.

(** ** grpc-user.decorator.ts *)

(** [GrpcUser]: the user of the metadata of the RPC context.  The context may
    be missing, and so may its metadata map. *)
Definition GrpcUser (rpcContext : option (option (gmap string string)))
    : AuthUser + RpcException :=
  match rpcContext with
  | None => inr (mkRpcException INTERNAL "Contexto RPC no encontrado")
  | Some None => inr (mkRpcException UNAUTHENTICATED "Metadata de gRPC no encontrada")
  | Some (Some metadata) =>
      let userId := metadata !! "x-user-id" in
      let userRole := metadata !! "x-user-role" in
      let userEmail := metadata !! "x-user-email" in
      if negb (truthy userId) || negb (truthy userRole) then
        inr (mkRpcException UNAUTHENTICATED
               "Información de autenticación (metadata) faltante")
      else
        inl (mkAuthUser (default "" userId) (default "" userRole) (or_string userEmail ""))
  end.

(** ** Reference definitions used by the further properties *)

(** The fields of an order that no status operation writes. *)
Definition same_core (o o' : Order) : Prop :=
  id o' = id o /\ clientId o' = clientId o /\ clientName o' = clientName o
  /\ clientEmail o' = clientEmail o /\ total o' = total o
  /\ shippingAddress o' = shippingAddress o /\ items o' = items o
  /\ isDeleted o' = isDeleted o.

(** Between two tables: the same ids, every row with its core fields, and
    every row but the one under [key] as it was. *)
Definition touches_only (key : string) (t t' : gmap string Order) : Prop :=
  forall k,
    option_Forall2 (fun o o' => same_core o o' /\ (k <> key -> o' = o)) (t !! k) (t' !! k).

(** The order a stock-failure message names: [message.orderId ||
    message.OrderId], the empty id when the message names none. *)
Definition named_order (data : FailedStockData) : string :=
  default "" (messagePayload ← data_message data;
              or_else (msg_orderId messagePayload) (msg_OrderId messagePayload)).

(** The table keeps every row under its id. *)
Definition keyed_by_id (t : gmap string Order) : Prop :=
  forall k row, t !! k = Some row -> id row = Some k.

(** [validTransitions[a].includes(b)], the test of [validateStatusTransition]. *)
Definition allowed (a b : OrderStatus) : bool :=
  OrdersService.includes (OrdersService.property a OrdersService.validTransitions) b.

(** A history of statuses in which every step passes the test. *)
Fixpoint lifecycle (history : list OrderStatus) : bool :=
  match history with
  | a :: (b :: _) as rest => allowed a b && lifecycle rest
  | _ => true
  end.

(** How far a status is along the lifecycle. *)
Definition rank (s : OrderStatus) : nat :=
  match s with
  | pendiente => 0
  | en_procesamiento => 1
  | enviado => 2
  | entregado => 3
  | cancelado => 3
  end.

(** The broker cannot take a message for the queue configured under [name]. *)
Definition broker_unavailable (name : string) (w : World) : Prop :=
  truthy (config w !! name) = false \/ channel w = false.

(** The two ways a publishing method can end: the message is out on the
    configured queue, or the broker could not take it and nothing is out. *)
Definition sent_or_failed (name : string) (payload : Payload) (w : World)
    (run : Outcome unit * World) : Prop :=
  table (snd run) = table w /\ heap (snd run) = heap w
  /\ ((exists queue,
         config w !! name = Some queue /\ queue <> "" /\ channel w = true
         /\ fst run = Returned tt
         /\ trace (snd run) = trace w ++ [QueueAsserted queue; MessageSent queue payload])
      \/ (broker_unavailable name w
          /\ (exists message, fst run = Thrown (Error message))
          /\ trace (snd run) = trace w)).

(** The detail [findOne] returns for a stored row. *)
Definition detail_of (row : Order) : OrderDetailDto :=
  mkOrderDetailDto (id row) (clientId row) (clientName row) (status row) (total row)
    (shippingAddress row) (trackingNumber row) (cancellationReason row) (items row).

(** A world with one more line in its log. *)
Definition noted (level : LogLevel) (text : string) (w : World) : World :=
  with_logs (logs w ++ [(level, text)]) w.

(** The order stored under [key], soft-deleted rows apart. *)
Definition stored (w : World) (key : string) : option Order :=
  match table w !! key with
  | Some row => if isDeleted row then None else Some row
  | None => None
  end.

(** The query is restricted to the orders of [client], and of nobody else. *)
Definition scoped_to (client : string) (q : SelectQuery) : Prop :=
  In (IsDeletedIs false) (conditions q)
  /\ forall c, In (ClientIdIs c) (conditions q) <-> c = client.

(** The query asks for the orders of every client. *)
Definition unscoped (q : SelectQuery) : Prop :=
  forall c, ~ In (ClientIdIs c) (conditions q).

(** A user acts as a client on an order that is not theirs. *)
Definition foreign (user : AuthUser) (owner : string) : Prop :=
  role user = "client" /\ owner <> userId user.

(** What an admin's status update is refused for, and the answer: an order
    that is not stored, a transition outside the table, a shipment without
    tracking number. *)
Definition update_refusal (w : World) (key : string) (requested : OrderStatus)
    (tracking : option string) : option RpcException :=
  match stored w key with
  | None => Some (mkRpcException NOT_FOUND (error_message (OrdersService.not_found key)))
  | Some row =>
      if negb (transition_table (status row) requested) then
        Some (mkRpcException INVALID_ARGUMENT
                (error_message (invalid_transition (status row) requested)))
      else if status_eqb requested enviado && negb (truthy tracking) then
        Some (mkRpcException INVALID_ARGUMENT (error_message tracking_required))
      else None
  end.

(** What a cancellation is refused for, and the answer: an order that is not
    stored, an order of another client, an order already delivered or
    cancelled. *)
Definition cancel_refusal (w : World) (user : AuthUser) (key : string) : option RpcException :=
  match stored w key with
  | None => Some (mkRpcException NOT_FOUND (error_message (OrdersService.not_found key)))
  | Some row =>
      if (role user =? "client")%string && negb (clientId row =? userId user)%string then
        Some (mkRpcException PERMISSION_DENIED "No tienes permiso para cancelar este pedido")
      else if OrdersService.includes [entregado; cancelado] (status row) then
        Some (mkRpcException INVALID_ARGUMENT (error_message (cannot_cancel (status row))))
      else None
  end.

(** The order a cancellation stores. *)
Definition cancelled (w : World) (reason : option string) (row : Order) : Order :=
  set_cancelledAt (Some (clock w))
    (set_cancellationReason (or_else reason (Some "Cancelado por el usuario"))
       (set_status cancelado row)).

(** What a listing handler answers once the query is fixed: the rows the
    database returns, mapped to responses; or, whatever error the database
    throws, INTERNAL with the message of [findAll]. *)
Definition listing (methodName : string) (rows : M (list Order)) (w : World)
    : (list (option OrderResponse) + RpcException) * World :=
  match rows w with
  | (Returned orders, w') =>
      (inl (map (fun o => OrdersController.mapOrderToResponse (Some (inl o))) orders), w')
  | (Thrown e, w') =>
      (inr (mkRpcException INTERNAL "Error al consultar pedidos"),
       noted ERROR ("Error en " +:+ methodName +:+ ": Error al consultar pedidos")
         (noted ERROR ("Error al consultar pedidos: " +:+ error_message e) w'))
  end.

(** The filters of a listing, without the one on the client. *)
Definition any_client (queryDto : QueryOrderDto) : QueryOrderDto :=
  mkQueryOrderDto (q_orderId queryDto) None (q_clientName queryDto) (q_status queryDto)
    (q_startDate queryDto) (q_endDate queryDto).

(** ** Running the primitives *)

Section Heap.
Context (h : list Order) (o : Order).

Lemma heap_lookup_new : (h ++ [o]) !! length h = Some o.
Proof. by rewrite list_lookup_middle. Qed.

Lemma heap_alter_new (f : Order -> Order) : alter f (length h) (h ++ [o]) = h ++ [f o].
Proof. by rewrite <- (Nat.add_0_r (length h)), alter_app_r. Qed.

Lemma heap_insert_new (x : Order) : <[length h := x]> (h ++ [o]) = h ++ [x].
Proof. by rewrite <- (Nat.add_0_r (length h)), insert_app_r. Qed.
End Heap.

Lemma ORDER_STATUSES_complete (s : OrderStatus) : s ∈ ORDER_STATUSES.
Proof. destruct s; unfold ORDER_STATUSES; set_solver. Qed.

Lemma with_trace_id (w : World) : with_trace (trace w) w = w.
Proof. by destruct w. Qed.

Lemma same_store_refl (w : World) : same_store w w.
Proof. by repeat split. Qed.

Ltac prim :=
  unfold mbind, M_bind, mret, M_ret, assign, new_Date, logger, emit, throw, try_catch; cbn.

Ltac run_with lem :=
  prim; erewrite lem by (cbn; rewrite ?heap_lookup_new; eauto); cbn.

Lemma findOne_found (key : string) (row : Order) (w : World) :
  table w !! key = Some row -> isDeleted row = false ->
  repository_findOne key w
  = (Returned (Some (length (heap w))), with_heap (heap w ++ [row]) w).
Proof. intros Hrow Hdel. unfold repository_findOne. by rewrite Hrow, Hdel. Qed.

Lemma findOne_deleted (key : string) (row : Order) (w : World) :
  table w !! key = Some row -> isDeleted row = true ->
  repository_findOne key w = (Returned None, w).
Proof. intros Hrow Hdel. unfold repository_findOne. by rewrite Hrow, Hdel. Qed.

Lemma findOne_absent (key : string) (w : World) :
  table w !! key = None -> repository_findOne key w = (Returned None, w).
Proof. intros Hrow. unfold repository_findOne. by rewrite Hrow. Qed.

Lemma read_run (r : ref) (o : Order) (w : World) :
  heap w !! r = Some o -> read r w = (Returned o, w).
Proof. intros H. unfold read. by rewrite H. Qed.

Lemma save_run (r : ref) (o : Order) (key : string) (w : World) :
  heap w !! r = Some o -> id o = Some key ->
  repository_save r w
  = (Returned r, with_trace (trace w ++ [RowSaved o]) (with_table (<[key := o]> (table w)) w)).
Proof. intros H Hid. unfold repository_save. by rewrite H, Hid. Qed.

Lemma validateStatusTransition_run (current requested : OrderStatus) (w : World) :
  OrdersService.validateStatusTransition current requested w
  = (if transition_table current requested then Returned tt
     else Thrown (invalid_transition current requested), w).
Proof. by destruct current, requested. Qed.

(** A notification never throws; it adds the mail to the trace when SendGrid
    answers, and a line to the log. *)
Section Notifications.
Context (r : ref) (o : Order) (key : string) (w : World).
Hypothesis Hobj : heap w !! r = Some o.
Hypothesis Hid : id o = Some key.

Ltac notify :=
  unfold try_catch, mails, mail_log, mbind, M_bind;
  rewrite (read_run _ _ _ Hobj); unfold SendGridService.subject_id; rewrite Hid; cbn;
  unfold SendGridService.sgMail_send, logger;
  destruct (sendgrid_up w); cbn; [done|];
  by rewrite app_nil_r, with_trace_id.

Lemma sendOrderConfirmationEmail_run :
  SendGridService.sendOrderConfirmationEmail r w
  = (Returned tt,
     with_logs (logs w ++ [mail_log w ("✉️ Email de confirmación enviado a " +:+ clientEmail o)
                                      "❌ Error al enviar email de confirmación: "])
       (with_trace (trace w ++ mails w (OrderConfirmationEmail o)) w)).
Proof. unfold SendGridService.sendOrderConfirmationEmail. notify. Qed.

Lemma sendOrderStatusUpdateEmail_run (previousStatus : OrderStatus) :
  SendGridService.sendOrderStatusUpdateEmail r previousStatus w
  = (Returned tt,
     with_logs (logs w ++ [mail_log w ("✉️ Email de actualización de estado enviado a "
                                       +:+ clientEmail o)
                                      "Error al enviar email de actualización: "])
       (with_trace (trace w ++ mails w (OrderStatusUpdateEmail o previousStatus)) w)).
Proof. unfold SendGridService.sendOrderStatusUpdateEmail. notify. Qed.

Lemma sendOrderCancellationEmail_run :
  SendGridService.sendOrderCancellationEmail r w
  = (Returned tt,
     with_logs (logs w ++ [mail_log w ("Email de cancelación enviado a " +:+ clientEmail o)
                                      "Error al enviar email de cancelación: "])
       (with_trace (trace w ++ mails w (OrderCancellationEmail o)) w)).
Proof. unfold SendGridService.sendOrderCancellationEmail. notify. Qed.
End Notifications.

(** Publishing writes to the trace and the log only; it returns, or throws a
    plain [Error] (queue name not configured, channel not initialised). *)
Lemma publish_frame (name : string) (payload : Payload) (w : World) :
  exists res w',
    (queue ← RabbitMQService.getRequiredConfig name;
     RabbitMQService.publishMessage queue payload) w = (res, w')
    /\ same_store w w'
    /\ (res = Returned tt \/ exists message, res = Thrown (Error message)).
Proof.
  unfold RabbitMQService.getRequiredConfig, RabbitMQService.publishMessage,
    RabbitMQService.ensureQueue, mbind, M_bind, try_catch.
  destruct (truthy (config w !! name)); cbn.
  - destruct (channel w) eqn:Hch; prim; eexists _, _; (split; [reflexivity|]);
      (split; [by repeat split|]); eauto.
  - eexists _, _; split; [reflexivity|]. split; [apply same_store_refl|]. eauto.
Qed.

(** With the queue configured and the channel up, publishing asserts the queue
    and sends the message. *)
Lemma publish_run (name queue : string) (payload : Payload) (w : World) :
  config w !! name = Some queue -> queue <> "" -> channel w = true ->
  (q ← RabbitMQService.getRequiredConfig name;
   RabbitMQService.publishMessage q payload) w
  = (Returned tt,
     with_logs (logs w ++ [(LOG, "Mensaje enviado a cola " +:+ queue)])
       (with_trace (trace w ++ [QueueAsserted queue; MessageSent queue payload]) w)).
Proof.
  intros Hq Hne Hch.
  unfold RabbitMQService.getRequiredConfig, RabbitMQService.publishMessage,
    RabbitMQService.ensureQueue, mbind, M_bind, try_catch.
  rewrite Hq. destruct queue as [|c q]; [done|]. prim. rewrite Hch. cbn.
  by rewrite <- app_assoc.
Qed.

Lemma publishOrderShipped_frame (payload : Payload) (w : World) :
  exists res w',
    RabbitMQService.publishOrderShipped payload w = (res, w')
    /\ same_store w w'
    /\ (res = Returned tt \/ exists message, res = Thrown (Error message)).
Proof. apply publish_frame. Qed.

Lemma publishOrderDelivered_frame (payload : Payload) (w : World) :
  exists res w',
    RabbitMQService.publishOrderDelivered payload w = (res, w')
    /\ same_store w w'
    /\ (res = Returned tt \/ exists message, res = Thrown (Error message)).
Proof. apply publish_frame. Qed.

Lemma publishOrderCreated_frame (payload : Payload) (w : World) :
  exists res w',
    RabbitMQService.publishOrderCreated payload w = (res, w')
    /\ same_store w w'
    /\ (res = Returned tt \/ exists message, res = Thrown (Error message)).
Proof. apply publish_frame. Qed.

(** Replace the call of a publishing method in the goal by its outcome. *)
Ltac publish_with lem :=
  match goal with
  | |- context [RabbitMQService.publishOrderShipped ?p ?W] =>
      let Heq := fresh "Hpub" in
      let Hres := fresh "Hres" in
      destruct (lem p W)
        as (? & ? & Heq & (?Htable & ?Hheap & ?Hissued & ?Huuid & ?Hclock & ?Hconfig
                           & ?Hchannel & ?Hsendgrid) & Hres);
      rewrite Heq; clear Heq; cbn in *
  | |- context [RabbitMQService.publishOrderDelivered ?p ?W] =>
      let Heq := fresh "Hpub" in
      let Hres := fresh "Hres" in
      destruct (lem p W)
        as (? & ? & Heq & (?Htable & ?Hheap & ?Hissued & ?Huuid & ?Hclock & ?Hconfig
                           & ?Hchannel & ?Hsendgrid) & Hres);
      rewrite Heq; clear Heq; cbn in *
  | |- context [RabbitMQService.publishOrderCreated ?p ?W] =>
      let Heq := fresh "Hpub" in
      let Hres := fresh "Hres" in
      destruct (lem p W)
        as (? & ? & Heq & (?Htable & ?Hheap & ?Hissued & ?Huuid & ?Hclock & ?Hconfig
                           & ?Hchannel & ?Hsendgrid) & Hres);
      rewrite Heq; clear Heq; cbn in *
  end.

(** ** The status state machine *)

Lemma updateStatus_rejected (w : World) (key : string) (row : Order)
    (updateDto : UpdateOrderStatusDto) :
  table w !! key = Some row -> isDeleted row = false ->
  transition_table (status row) (dto_status updateDto) = false ->
  exists w',
    OrdersService.updateStatus key updateDto w
    = (Thrown (invalid_transition (status row) (dto_status updateDto)), w')
    /\ table w' = table w /\ trace w' = trace w
    /\ heap w' !! length (heap w) = Some row.
Proof.
  intros Hrow Hdel Hedge. unfold OrdersService.updateStatus.
  run_with findOne_found. run_with read_run.
  rewrite validateStatusTransition_run, Hedge. cbn.
  eexists. split; [reflexivity|]. cbn. by rewrite heap_lookup_new.
Qed.

Lemma updateStatus_accepted (w : World) (key : string) (row : Order)
    (updateDto : UpdateOrderStatusDto) :
  table w !! key = Some row -> isDeleted row = false -> id row = Some key ->
  transition_table (status row) (dto_status updateDto) = true ->
  exists res w',
    OrdersService.updateStatus key updateDto w = (res, w')
    /\ status <$> heap w' !! length (heap w) = Some (dto_status updateDto)
    /\ (forall r, res = Returned r ->
          status <$> table w' !! key = Some (dto_status updateDto)).
Proof.
  intros Hrow Hdel Hid Hedge. unfold OrdersService.updateStatus.
  run_with findOne_found. run_with read_run.
  rewrite validateStatusTransition_run, Hedge. prim. rewrite heap_alter_new.
  destruct updateDto as [requested tracking]. cbn in *.
  destruct requested; cbn.
  - destruct (status row); discriminate.
  - run_with save_run. run_with sendOrderStatusUpdateEmail_run.
    eexists _, _. split; [reflexivity|]. cbn. rewrite heap_lookup_new.
    split; [done|]. intros _ _. by rewrite lookup_insert_eq.
  - destruct (truthy tracking); prim.
    + rewrite !heap_alter_new. run_with read_run.
      publish_with publishOrderShipped_frame.
      destruct Hres as [->|[message ->]]; cbn.
      * erewrite save_run by (rewrite ?Hheap; cbn; rewrite ?heap_lookup_new; eauto).
        cbn.
        erewrite sendOrderStatusUpdateEmail_run
          by (cbn; rewrite ?Hheap; cbn; rewrite ?heap_lookup_new; eauto).
        cbn. eexists _, _. split; [reflexivity|]. cbn.
        rewrite Hheap. cbn. rewrite heap_lookup_new.
        split; [done|]. intros _ _. by rewrite lookup_insert_eq.
      * eexists _, _. split; [reflexivity|]. cbn.
        rewrite Hheap. cbn. rewrite heap_lookup_new. split; [done|]. intros r [=].
    + eexists _, _. split; [reflexivity|]. cbn. rewrite heap_lookup_new.
      split; [done|]. intros r [=].
  - rewrite !heap_alter_new. run_with read_run.
    publish_with publishOrderDelivered_frame.
    destruct Hres as [->|[message ->]]; cbn.
    + erewrite save_run by (rewrite ?Hheap; cbn; rewrite ?heap_lookup_new; eauto).
      cbn.
      erewrite sendOrderStatusUpdateEmail_run
        by (cbn; rewrite ?Hheap; cbn; rewrite ?heap_lookup_new; eauto).
      cbn. eexists _, _. split; [reflexivity|]. cbn.
      rewrite Hheap. cbn. rewrite heap_lookup_new.
      split; [done|]. intros _ _. by rewrite lookup_insert_eq.
    + eexists _, _. split; [reflexivity|]. cbn.
      rewrite Hheap. cbn. rewrite heap_lookup_new. split; [done|]. intros r [=].
  - rewrite !heap_alter_new. run_with save_run. run_with sendOrderStatusUpdateEmail_run.
    eexists _, _. split; [reflexivity|]. cbn. rewrite heap_lookup_new.
    split; [done|]. intros _ _. by rewrite lookup_insert_eq.
Qed.

(** C2.  The transition validation accepts a pair of statuses exactly when it
    is an edge of the table pendiente -> en_procesamiento | cancelado,
    en_procesamiento -> enviado | cancelado, enviado -> entregado | cancelado,
    and leaves the world as it is either way.  In [updateStatus] on a stored
    order: for an edge the order object takes exactly the requested status,
    and so does the stored row whenever the call returns; for any other pair
    (so for every transition out of entregado and cancelado) the call fails
    with the invalid-transition error, nothing is saved or published and the
    order object is the row as loaded. *)
Theorem validateStatusTransition_follows_table (w : World) (key : string) (row : Order)
    (updateDto : UpdateOrderStatusDto) :
  table w !! key = Some row -> isDeleted row = false -> id row = Some key ->
  OrdersService.validateStatusTransition (status row) (dto_status updateDto) w
  = (if transition_table (status row) (dto_status updateDto) then Returned tt
     else Thrown (invalid_transition (status row) (dto_status updateDto)), w)
  /\ exists res w',
       OrdersService.updateStatus key updateDto w = (res, w')
       /\ if transition_table (status row) (dto_status updateDto) then
            status <$> heap w' !! length (heap w) = Some (dto_status updateDto)
            /\ (forall r, res = Returned r ->
                  status <$> table w' !! key = Some (dto_status updateDto))
          else
            res = Thrown (invalid_transition (status row) (dto_status updateDto))
            /\ table w' = table w /\ trace w' = trace w
            /\ heap w' !! length (heap w) = Some row.
Proof.
  intros Hrow Hdel Hid. split; [apply validateStatusTransition_run|].
  destruct (transition_table (status row) (dto_status updateDto)) eqn:Hedge.
  - destruct (updateStatus_accepted w key row updateDto) as (res & w' & Hrun & H);
      [done..|]. eauto.
  - destruct (updateStatus_rejected w key row updateDto) as (w' & Hrun & H);
      [done..|]. eauto.
Qed.

Lemma validateStatusTransition_follows_table_witness :
  table (example_world pendiente) !! "order-0" = Some (example_order pendiente)
  /\ isDeleted (example_order pendiente) = false
  /\ id (example_order pendiente) = Some "order-0"
  /\ OrdersService.validateStatusTransition pendiente en_procesamiento
       (example_world pendiente)
     = (Returned tt, example_world pendiente)
  /\ exists res w',
       OrdersService.updateStatus "order-0" (mkUpdateOrderStatusDto en_procesamiento None)
         (example_world pendiente) = (res, w')
       /\ status <$> heap w' !! 0%nat = Some en_procesamiento
       /\ (forall r, res = Returned r ->
             status <$> table w' !! "order-0" = Some en_procesamiento).
Proof.
  split; [reflexivity|]. split; [reflexivity|]. split; [reflexivity|].
  apply (validateStatusTransition_follows_table (example_world pendiente) "order-0"
           (example_order pendiente) (mkUpdateOrderStatusDto en_procesamiento None));
    reflexivity.
Defined.

(** C5, as stated, fails: when [enviado] is requested for an order in
    en_procesamiento without a tracking number, the call does fail with the
    validation error and without any persistence call, but the status of the
    order object has been assigned before the tracking number is looked at.
    On the example order the object reads [enviado] when the error is thrown,
    so it is not the row as loaded. *)
Lemma enviado_without_tracking_counterexample :
  ~ (forall (w : World) (key : string) (row : Order) (tracking : option string),
       table w !! key = Some row -> isDeleted row = false ->
       status row = en_procesamiento -> truthy tracking = false ->
       exists w',
         OrdersService.updateStatus key (mkUpdateOrderStatusDto enviado tracking) w
         = (Thrown tracking_required, w')
         /\ table w' = table w /\ trace w' = trace w
         /\ heap w' !! length (heap w) = Some row).
Proof.
  intros H.
  destruct (H (example_world en_procesamiento) "order-0" (example_order en_procesamiento) None)
    as (w' & Hrun & _ & _ & Hobj); [reflexivity..|].
  vm_compute in Hrun. injection Hrun as <-. vm_compute in Hobj. discriminate Hobj.
Qed.

(** C5, amended.  When [enviado] is requested for an order in
    en_procesamiento and no non-empty tracking number is supplied, the call
    fails with the validation error before any persistence call: nothing is
    saved, published or mailed, no id is generated, and the stored order is
    unchanged. *)
Theorem enviado_without_tracking_fails_before_persistence (w : World) (key : string)
    (row : Order) (tracking : option string) :
  table w !! key = Some row -> isDeleted row = false ->
  status row = en_procesamiento -> truthy tracking = false ->
  exists w',
    OrdersService.updateStatus key (mkUpdateOrderStatusDto enviado tracking) w
    = (Thrown tracking_required, w')
    /\ table w' = table w /\ trace w' = trace w /\ issued w' = issued w.
Proof.
  intros Hrow Hdel Hst Htr. unfold OrdersService.updateStatus.
  run_with findOne_found. run_with read_run.
  rewrite validateStatusTransition_run, Hst. prim. rewrite Htr. cbn.
  eexists. split; [reflexivity|]. done.
Qed.

Lemma enviado_without_tracking_fails_before_persistence_witness :
  table (example_world en_procesamiento) !! "order-0" = Some (example_order en_procesamiento)
  /\ truthy (Some "") = false
  /\ exists w',
       OrdersService.updateStatus "order-0" (mkUpdateOrderStatusDto enviado (Some ""))
         (example_world en_procesamiento)
       = (Thrown tracking_required, w')
       /\ table w' = table (example_world en_procesamiento)
       /\ trace w' = trace (example_world en_procesamiento)
       /\ issued w' = issued (example_world en_procesamiento).
Proof.
  split; [reflexivity|]. split; [reflexivity|].
  apply (enviado_without_tracking_fails_before_persistence
           (example_world en_procesamiento) "order-0" (example_order en_procesamiento)
           (Some "")); reflexivity.
Defined.

(** ** Cancellation *)

(** The reason recorded by [cancel]: the one supplied, unless it is missing or
    empty. *)
Lemma or_else_default (given : option string) :
  exists reason,
    or_else given (Some "Cancelado por el usuario") = Some reason
    /\ reason <> ""
    /\ (truthy given = true -> given = Some reason)
    /\ (truthy given = false -> reason = "Cancelado por el usuario").
Proof.
  destruct given as [[|c s]|]; cbn; eexists; (split; [reflexivity|]); repeat split; done.
Qed.

(** C6.  On an existing, non-deleted order, [cancel] fails when the status is
    entregado or cancelado, and then nothing is saved and the order object is
    the row as loaded; from pendiente, en_procesamiento and enviado it returns
    the order with status cancelado, [cancelledAt] set to the current time and
    a non-empty [cancellationReason], which is the reason supplied or, when
    none (or an empty one) is supplied, "Cancelado por el usuario"; that order
    is what has been saved. *)
Theorem cancel_eligibility (w : World) (key : string) (row : Order)
    (cancelDto : CancelOrderDto) :
  table w !! key = Some row -> isDeleted row = false -> id row = Some key ->
  match status row with
  | entregado | cancelado =>
      exists w',
        OrdersService.cancel key cancelDto w = (Thrown (cannot_cancel (status row)), w')
        /\ table w' = table w /\ trace w' = trace w
        /\ heap w' !! length (heap w) = Some row
  | _ =>
      exists w' reason,
        let saved :=
          set_cancelledAt (Some (clock w))
            (set_cancellationReason (Some reason) (set_status cancelado row)) in
        OrdersService.cancel key cancelDto w = (Returned (length (heap w)), w')
        /\ heap w' !! length (heap w) = Some saved
        /\ table w' = <[key := saved]> (table w)
        /\ trace w' = trace w ++ [RowSaved saved] ++ mails w (OrderCancellationEmail saved)
        /\ reason <> ""
        /\ (truthy (dto_cancellationReason cancelDto) = true ->
              dto_cancellationReason cancelDto = Some reason)
        /\ (truthy (dto_cancellationReason cancelDto) = false ->
              reason = "Cancelado por el usuario")
  end.
Proof.
  intros Hrow Hdel Hid.
  destruct (or_else_default (dto_cancellationReason cancelDto))
    as (reason & Hreason & Hne & Hgiven & Hdefault).
  assert (Hfail : OrdersService.includes [entregado; cancelado] (status row) = true ->
    exists w',
      OrdersService.cancel key cancelDto w = (Thrown (cannot_cancel (status row)), w')
      /\ table w' = table w /\ trace w' = trace w
      /\ heap w' !! length (heap w) = Some row).
  { intros Hinc. unfold OrdersService.cancel.
    run_with findOne_found. run_with read_run.
    destruct (status row); try discriminate Hinc; cbn.
    all: eexists; (split; [reflexivity|]); cbn; by rewrite heap_lookup_new. }
  assert (Hok : OrdersService.includes [entregado; cancelado] (status row) = false ->
    exists w' reason,
      let saved :=
        set_cancelledAt (Some (clock w))
          (set_cancellationReason (Some reason) (set_status cancelado row)) in
      OrdersService.cancel key cancelDto w = (Returned (length (heap w)), w')
      /\ heap w' !! length (heap w) = Some saved
      /\ table w' = <[key := saved]> (table w)
      /\ trace w' = trace w ++ [RowSaved saved] ++ mails w (OrderCancellationEmail saved)
      /\ reason <> ""
      /\ (truthy (dto_cancellationReason cancelDto) = true ->
            dto_cancellationReason cancelDto = Some reason)
      /\ (truthy (dto_cancellationReason cancelDto) = false ->
            reason = "Cancelado por el usuario")).
  { intros Hinc. unfold OrdersService.cancel.
    run_with findOne_found. run_with read_run.
    destruct (status row); try discriminate Hinc; prim.
    all: rewrite !heap_alter_new, Hreason.
    all: run_with save_run; run_with sendOrderCancellationEmail_run.
    all: eexists _, reason; cbn; (split; [reflexivity|]); cbn; rewrite heap_lookup_new.
    all: unfold mails; cbn; rewrite <- app_assoc; done. }
  destruct (status row); auto.
Qed.

Lemma cancel_eligibility_witness :
  table (example_world enviado) !! "order-0" = Some (example_order enviado)
  /\ isDeleted (example_order enviado) = false
  /\ id (example_order enviado) = Some "order-0"
  /\ exists w' reason,
       let saved :=
         set_cancelledAt (Some (clock (example_world enviado)))
           (set_cancellationReason (Some reason)
              (set_status cancelado (example_order enviado))) in
       OrdersService.cancel "order-0" (mkCancelOrderDto None) (example_world enviado)
       = (Returned (length (heap (example_world enviado))), w')
       /\ heap w' !! length (heap (example_world enviado)) = Some saved
       /\ table w' = <["order-0" := saved]> (table (example_world enviado))
       /\ trace w'
          = trace (example_world enviado) ++ [RowSaved saved]
            ++ mails (example_world enviado) (OrderCancellationEmail saved)
       /\ reason <> ""
       /\ (truthy (dto_cancellationReason (mkCancelOrderDto None)) = true ->
             dto_cancellationReason (mkCancelOrderDto None) = Some reason)
       /\ (truthy (dto_cancellationReason (mkCancelOrderDto None)) = false ->
             reason = "Cancelado por el usuario").
Proof.
  split; [reflexivity|]. split; [reflexivity|]. split; [reflexivity|].
  apply (cancel_eligibility (example_world enviado) "order-0" (example_order enviado)
           (mkCancelOrderDto None)); reflexivity.
Defined.

(** ** The compensating handler *)

(** C3.  For a received order.failed.stock message that names an order: when
    no such order is stored, or it is soft-deleted, or its status is not
    pendiente, the handler returns without saving, publishing or mailing
    anything, and the table and the order object are as they were; when the
    order is stored with status pendiente, the handler sets status cancelado,
    the reason "Stock insuficiente" and [cancelledAt], and saves that order. *)
Theorem handleFailedStock_compensates (w : World) (data : FailedStockData)
    (message : FailedStockMessage) (key : string) :
  data_message data = Some message ->
  or_else (msg_orderId message) (msg_OrderId message) = Some key ->
  truthy (Some key) = true ->
  (forall row, table w !! key = Some row -> id row = Some key) ->
  exists w',
    OrdersService.handleFailedStock data w = (Returned tt, w')
    /\ match table w !! key with
       | None => table w' = table w /\ trace w' = trace w /\ heap w' = heap w
       | Some row =>
           if isDeleted row then
             table w' = table w /\ trace w' = trace w /\ heap w' = heap w
           else
             match status row with
             | pendiente =>
                 let saved :=
                   set_cancelledAt (Some (clock w))
                     (set_cancellationReason (Some "Stock insuficiente")
                        (set_status cancelado row)) in
                 table w' = <[key := saved]> (table w)
                 /\ heap w' !! length (heap w) = Some saved
                 /\ trace w'
                    = trace w ++ [RowSaved saved] ++ mails w (OrderCancellationEmail saved)
             | _ =>
                 table w' = table w /\ trace w' = trace w
                 /\ heap w' !! length (heap w) = Some row
             end
       end.
Proof.
  intros Hmsg Hkey Htruthy Hwf. unfold OrdersService.handleFailedStock.
  prim. rewrite Hmsg, Hkey, Htruthy. cbn.
  destruct (table w !! key) as [row|] eqn:Hrow.
  - destruct (isDeleted row) eqn:Hdel.
    + run_with findOne_deleted. by eexists.
    + specialize (Hwf row eq_refl).
      run_with findOne_found. run_with read_run.
      destruct (status row); prim.
      2-5: eexists; (split; [reflexivity|]); cbn; by rewrite heap_lookup_new.
      rewrite !heap_alter_new.
      run_with save_run. run_with sendOrderCancellationEmail_run. run_with read_run.
      eexists. split; [reflexivity|]. cbn. rewrite heap_lookup_new.
      unfold mails. cbn. by rewrite <- app_assoc.
  - run_with findOne_absent. by eexists.
Qed.

Lemma handleFailedStock_compensates_witness :
  or_else (msg_orderId (mkFailedStockMessage None (Some "order-0")))
          (msg_OrderId (mkFailedStockMessage None (Some "order-0"))) = Some "order-0"
  /\ exists w',
       OrdersService.handleFailedStock
         (mkFailedStockData (Some (mkFailedStockMessage None (Some "order-0"))))
         (example_world pendiente) = (Returned tt, w')
       /\ match table (example_world pendiente) !! "order-0" with
          | None =>
              table w' = table (example_world pendiente)
              /\ trace w' = trace (example_world pendiente)
              /\ heap w' = heap (example_world pendiente)
          | Some row =>
              if isDeleted row then
                table w' = table (example_world pendiente)
                /\ trace w' = trace (example_world pendiente)
                /\ heap w' = heap (example_world pendiente)
              else
                match status row with
                | pendiente =>
                    let saved :=
                      set_cancelledAt (Some (clock (example_world pendiente)))
                        (set_cancellationReason (Some "Stock insuficiente")
                           (set_status cancelado row)) in
                    table w' = <["order-0" := saved]> (table (example_world pendiente))
                    /\ heap w' !! length (heap (example_world pendiente)) = Some saved
                    /\ trace w'
                       = trace (example_world pendiente) ++ [RowSaved saved]
                         ++ mails (example_world pendiente) (OrderCancellationEmail saved)
                | _ =>
                    table w' = table (example_world pendiente)
                    /\ trace w' = trace (example_world pendiente)
                    /\ heap w' !! length (heap (example_world pendiente)) = Some row
                end
          end.
Proof.
  split; [reflexivity|].
  apply (handleFailedStock_compensates (example_world pendiente)
           (mkFailedStockData (Some (mkFailedStockMessage None (Some "order-0"))))
           (mkFailedStockMessage None (Some "order-0")) "order-0");
    try reflexivity.
  intros row. change (table (example_world pendiente)) with
    ({["order-0" := example_order pendiente]} : gmap string Order).
  rewrite lookup_singleton_eq. by intros [= <-].
Defined.

(** ** Persisting and publishing *)

(** C1 (the code departs from it).  For an order in en_procesamiento,
    [updateStatus] to enviado with a tracking number, the queue configured and
    the channel up: the order.shipped message is sent first and the row is
    saved after it, so the publish precedes the write of the new state. *)
Theorem updateStatus_publishes_before_saving (w : World) (key queue : string)
    (row : Order) (tracking : option string) :
  table w !! key = Some row -> isDeleted row = false -> id row = Some key ->
  status row = en_procesamiento -> truthy tracking = true ->
  config w !! "RABBITMQ_QUEUE_ORDER_SHIPPED" = Some queue -> queue <> "" ->
  channel w = true ->
  exists w',
    let shipped :=
      set_shippedAt (Some (clock w)) (set_trackingNumber tracking (set_status enviado row)) in
    let payload :=
      OrderShippedPayload (Some key) (clientId row) (clientEmail row) tracking
        (map (fun item => (item_productId item, item_quantity item)) (items row)) in
    OrdersService.updateStatus key (mkUpdateOrderStatusDto enviado tracking) w
    = (Returned (length (heap w)), w')
    /\ table w' !! key = Some shipped
    /\ trace w'
       = trace w ++ [QueueAsserted queue; MessageSent queue payload; RowSaved shipped]
         ++ mails w (OrderStatusUpdateEmail shipped en_procesamiento).
Proof.
  intros Hrow Hdel Hid Hst Htr Hq Hne Hch. unfold OrdersService.updateStatus.
  run_with findOne_found. run_with read_run.
  rewrite validateStatusTransition_run, Hst. prim. rewrite Htr. prim.
  rewrite !heap_alter_new. run_with read_run.
  unfold RabbitMQService.publishOrderShipped. erewrite publish_run by (cbn; eauto).
  run_with save_run. run_with sendOrderStatusUpdateEmail_run.
  eexists. split; [reflexivity|]. cbn. rewrite lookup_insert_eq, Hid. split; [done|].
  unfold mails. cbn. by rewrite <- !app_assoc.
Qed.

Lemma updateStatus_publishes_before_saving_witness :
  table (example_world en_procesamiento) !! "order-0" = Some (example_order en_procesamiento)
  /\ config (example_world en_procesamiento) !! "RABBITMQ_QUEUE_ORDER_SHIPPED"
     = Some "order.shipped"
  /\ exists w',
       let shipped :=
         set_shippedAt (Some (clock (example_world en_procesamiento)))
           (set_trackingNumber (Some "TRK-1")
              (set_status enviado (example_order en_procesamiento))) in
       let payload :=
         OrderShippedPayload (Some "order-0") (clientId (example_order en_procesamiento))
           (clientEmail (example_order en_procesamiento)) (Some "TRK-1")
           (map (fun item => (item_productId item, item_quantity item))
              (items (example_order en_procesamiento))) in
       OrdersService.updateStatus "order-0" (mkUpdateOrderStatusDto enviado (Some "TRK-1"))
         (example_world en_procesamiento)
       = (Returned (length (heap (example_world en_procesamiento))), w')
       /\ table w' !! "order-0" = Some shipped
       /\ trace w'
          = trace (example_world en_procesamiento)
            ++ [QueueAsserted "order.shipped"; MessageSent "order.shipped" payload;
                RowSaved shipped]
            ++ mails (example_world en_procesamiento)
                 (OrderStatusUpdateEmail shipped en_procesamiento).
Proof.
  split; [reflexivity|]. split; [reflexivity|].
  apply (updateStatus_publishes_before_saving (example_world en_procesamiento)
           "order-0" "order.shipped" (example_order en_procesamiento) (Some "TRK-1"));
    try reflexivity.
  discriminate.
Defined.

(** The same for entregado: the order.delivered message is sent before the row
    is saved. *)
Lemma updateStatus_delivered_publishes_before_saving (w : World) (key queue : string)
    (row : Order) (tracking : option string) :
  table w !! key = Some row -> isDeleted row = false -> id row = Some key ->
  status row = enviado ->
  config w !! "RABBITMQ_QUEUE_ORDER_DELIVERED" = Some queue -> queue <> "" ->
  channel w = true ->
  exists w',
    let delivered := set_deliveredAt (Some (clock w)) (set_status entregado row) in
    OrdersService.updateStatus key (mkUpdateOrderStatusDto entregado tracking) w
    = (Returned (length (heap w)), w')
    /\ table w' !! key = Some delivered
    /\ trace w'
       = trace w
         ++ [QueueAsserted queue;
             MessageSent queue (OrderDeliveredPayload (Some key) (clientId row) (clientEmail row));
             RowSaved delivered]
         ++ mails w (OrderStatusUpdateEmail delivered enviado).
Proof.
  intros Hrow Hdel Hid Hst Hq Hne Hch. unfold OrdersService.updateStatus.
  run_with findOne_found. run_with read_run.
  rewrite validateStatusTransition_run, Hst. prim.
  rewrite !heap_alter_new. run_with read_run.
  unfold RabbitMQService.publishOrderDelivered. erewrite publish_run by (cbn; eauto).
  run_with save_run. run_with sendOrderStatusUpdateEmail_run.
  eexists. split; [reflexivity|]. cbn. rewrite lookup_insert_eq, Hid. split; [done|].
  unfold mails. cbn. by rewrite <- !app_assoc.
Qed.

(** ** Creating an order *)

Lemma validateStock_run (itemDtos : option (list CreateOrderItemDto)) (w : World) :
  RabbitMQService.validateStock itemDtos w
  = (Returned (mkStockValidation true []), with_logs (logs w ++ [stock_log itemDtos]) w).
Proof. unfold RabbitMQService.validateStock. by destruct itemDtos. Qed.

Lemma orderItems_of_run (l : list CreateOrderItemDto) (totalAmount : float) (w : World) :
  OrdersService.orderItems_of l totalAmount w
  = (Returned (map priced l, add_subtotals totalAmount (map priced l)),
     with_logs (logs w ++ detail_logs l) w).
Proof.
  revert totalAmount w. induction l as [|itemDto rest IH]; intros totalAmount w.
  - cbn. rewrite app_nil_r. by destruct w.
  - cbn. unfold OrdersService.getProductDetails. prim. rewrite IH. cbn.
    by rewrite <- app_assoc.
Qed.

Lemma save_new_run (r : ref) (o : Order) (w : World) :
  heap w !! r = Some o -> id o = None ->
  repository_save r w
  = (Returned r,
     with_trace (trace w ++ [RowSaved (set_id (Some (uuid w (issued w))) o)])
       (with_table (<[uuid w (issued w) := set_id (Some (uuid w (issued w))) o]> (table w))
          (with_heap (<[r := set_id (Some (uuid w (issued w))) o]> (heap w))
             (with_issued (S (issued w)) w)))).
Proof. intros H Hid. unfold repository_save. by rewrite H, Hid. Qed.

(** Publishing the order.created event never throws: a failure is logged and
    swallowed.  What it adds to the trace is the message, or nothing. *)
Lemma publishOrderCreatedEvent_frame (r : ref) (o : Order) (w : World) :
  heap w !! r = Some o ->
  exists w' extra,
    OrdersService.publishOrderCreatedEvent r w = (Returned tt, w')
    /\ same_store w w'
    /\ trace w' = trace w ++ extra
    /\ (extra = []
        \/ exists queue,
             extra = [QueueAsserted queue;
                      MessageSent queue
                        (OrderCreatedPayload (id o) (OrdersService.productsMap_of (items o)))]).
Proof.
  intros Hobj. unfold OrdersService.publishOrderCreatedEvent.
  run_with read_run.
  unfold RabbitMQService.publishOrderCreated, RabbitMQService.getRequiredConfig,
    RabbitMQService.publishMessage, RabbitMQService.ensureQueue.
  prim. destruct (truthy (config w !! _)); cbn.
  - destruct (channel w); cbn.
    + eexists _, _. split; [reflexivity|]. cbn. split; [by repeat split|].
      rewrite <- app_assoc. split; [reflexivity|]. right. by eexists.
    + eexists _, []. split; [reflexivity|]. cbn. rewrite app_nil_r.
      split; [by repeat split|]. auto.
  - eexists _, []. split; [reflexivity|]. cbn. rewrite app_nil_r.
    split; [by repeat split|]. auto.
Qed.

(** [create] on a command with items: the order is built from the priced
    items, saved under a fresh id, then published and mailed. *)
Lemma create_returns (createOrderDto : CreateOrderDto) (l : list CreateOrderItemDto)
    (w : World) :
  dto_items createOrderDto = Some l ->
  exists w' extra,
    let saved := new_order createOrderDto l (Some (uuid w (issued w))) in
    OrdersService.create createOrderDto w = (Returned (length (heap w)), w')
    /\ heap w' !! length (heap w) = Some saved
    /\ table w' = <[uuid w (issued w) := saved]> (table w)
    /\ trace w' = trace w ++ [RowSaved saved] ++ extra ++ mails w (OrderConfirmationEmail saved)
    /\ (extra = []
        \/ exists queue,
             extra = [QueueAsserted queue;
                      MessageSent queue
                        (OrderCreatedPayload (id saved)
                           (OrdersService.productsMap_of (items saved)))]).
Proof.
  intros Hitems. unfold OrdersService.create, OrdersService.create_with.
  prim. rewrite validateStock_run. unfold repository_create, new_entity. prim.
  rewrite Hitems. prim. rewrite orderItems_of_run. prim. rewrite !heap_alter_new.
  run_with save_new_run. rewrite heap_insert_new. run_with read_run.
  match goal with
  | |- context [OrdersService.publishOrderCreatedEvent ?r ?W] =>
      destruct (publishOrderCreatedEvent_frame r (new_order createOrderDto l
                  (Some (uuid w (issued w)))) W)
        as (w1 & extra & Hpub & (Htable & Hheap & Hissued & Huuid & Hclock & Hconfig
                                 & Hchannel & Hsendgrid) & Htrace & Hextra);
        [cbn; by rewrite heap_lookup_new|]
  end.
  rewrite Hpub. cbn in *.
  erewrite sendOrderConfirmationEmail_run
    by (rewrite ?Hheap; cbn; rewrite ?heap_lookup_new; eauto).
  cbn. eexists _, extra. split; [reflexivity|]. cbn.
  rewrite Hheap, Htable, Htrace. cbn. rewrite heap_lookup_new.
  unfold mails. cbn. rewrite Hsendgrid. cbn.
  rewrite <- !app_assoc. done.
Qed.

Lemma create_without_items (createOrderDto : CreateOrderDto) (w : World) :
  dto_items createOrderDto = None ->
  exists w',
    OrdersService.create createOrderDto w
    = (Thrown (InternalServerErrorException "Error al procesar el pedido"), w')
    /\ table w' = table w /\ trace w' = trace w.
Proof.
  intros Hitems. unfold OrdersService.create, OrdersService.create_with.
  prim. rewrite validateStock_run. unfold repository_create, new_entity. prim.
  rewrite Hitems. cbn. by eexists.
Qed.

(** C4.  Whatever stock check the service is given: when the check answers
    [allAvailable = false], [create] throws the insufficient-stock error,
    which carries the list of unavailable products of the answer, and does
    nothing after the check: no order object is made, nothing is saved,
    published or mailed, no id is generated. *)
Theorem create_aborts_on_missing_stock
    (validateStock : option (list CreateOrderItemDto) -> M StockValidation)
    (createOrderDto : CreateOrderDto) (w w1 : World) (verdict : StockValidation) :
  validateStock (dto_items createOrderDto)
    (snd (logger LOG ("Creando nuevo pedido para cliente " +:+ dto_clientId createOrderDto) w))
  = (Returned verdict, w1) ->
  allAvailable verdict = false ->
  exists w',
    OrdersService.create_with validateStock createOrderDto w
    = (Thrown (insufficient_stock verdict), w')
    /\ table w' = table w1 /\ heap w' = heap w1 /\ trace w' = trace w1
    /\ issued w' = issued w1.
Proof.
  intros Hcheck Hverdict. unfold OrdersService.create_with. prim.
  cbn in Hcheck. rewrite Hcheck, Hverdict. cbn. by eexists.
Qed.

Lemma create_aborts_on_missing_stock_witness :
  allAvailable (mkStockValidation false [mkUnavailableProduct "p1" 2 0]) = false
  /\ exists w',
       OrdersService.create_with out_of_stock example_command empty_world
       = (Thrown (insufficient_stock (mkStockValidation false [mkUnavailableProduct "p1" 2 0])),
          w')
       /\ table w' = table empty_world /\ heap w' = heap empty_world
       /\ trace w' = trace empty_world /\ issued w' = issued empty_world.
Proof.
  split; [reflexivity|].
  apply (create_aborts_on_missing_stock out_of_stock example_command empty_world
           (snd (logger LOG ("Creando nuevo pedido para cliente "
                             +:+ dto_clientId example_command) empty_world))
           (mkStockValidation false [mkUnavailableProduct "p1" 2 0]));
    reflexivity.
Defined.

(** C9.  [validateStock] answers [{ allAvailable: true, unavailable: [] }] for
    every argument, also when its [try] block throws (the argument is
    [undefined]); hence [create] never throws the insufficient-stock error,
    nor any other bad-request error. *)
Theorem validateStock_always_available :
  (forall (itemDtos : option (list CreateOrderItemDto)) (w : World),
     fst (RabbitMQService.validateStock itemDtos w) = Returned (mkStockValidation true []))
  /\ (forall (createOrderDto : CreateOrderDto) (w : World),
        is_stock_failure (fst (OrdersService.create createOrderDto w)) = false).
Proof.
  split.
  - intros itemDtos w. by rewrite validateStock_run.
  - intros createOrderDto w. destruct (dto_items createOrderDto) as [l|] eqn:Hitems.
    + destruct (create_returns createOrderDto l w Hitems) as (w' & extra & Hrun & _).
      by rewrite Hrun.
    + destruct (create_without_items createOrderDto w Hitems) as (w' & Hrun & _).
      by rewrite Hrun.
Qed.

(** C8, as stated, fails: a command item has a product and a quantity but no
    price, and [getProductDetails] prices every product at 10000.  For the
    command with two units of p1 and one of p2 the order that [create] returns
    has total 30000, not 2500. *)
Lemma create_example_counterexample :
  ~ (forall (w : World) (r : ref) (w' : World) (o : Order),
       OrdersService.create example_command w = (Returned r, w') ->
       heap w' !! r = Some o ->
       total o = 2500%float /\ map item_subtotal (items o) = [2000%float; 500%float]).
Proof.
  intros H.
  destruct (create_returns example_command _ empty_world eq_refl)
    as (w' & extra & Hrun & Hobj & _).
  destruct (H _ _ _ _ Hrun Hobj) as [Htotal _].
  apply (f_equal (fun x => PrimFloat.eqb x 2500)) in Htotal.
  vm_compute in Htotal. discriminate Htotal.
Qed.

(** C8, amended.  For a create command with the items p1 (quantity 2) and p2
    (quantity 1), whatever the client and the state of the service, the
    created order is pendiente and stored, its total is 30000, and it has
    exactly two items, with unit price 10000 each and subtotals 20000 and
    10000: each subtotal is the unit price times the quantity, and the total
    is their sum. *)
Theorem create_example_totals (w : World) (client name email address p1 p2 : string) :
  exists w' o,
    OrdersService.create
      (mkCreateOrderDto client name email address
         (Some [mkCreateOrderItemDto p1 2; mkCreateOrderItemDto p2 1])) w
    = (Returned (length (heap w)), w')
    /\ heap w' !! length (heap w) = Some o
    /\ table w' !! uuid w (issued w) = Some o
    /\ status o = pendiente
    /\ total o = 30000%float
    /\ map item_productId (items o) = [p1; p2]
    /\ map item_quantity (items o) = [2%float; 1%float]
    /\ map item_unitPrice (items o) = [10000%float; 10000%float]
    /\ map item_subtotal (items o) = [20000%float; 10000%float]
    /\ Forall (fun item =>
                 item_subtotal item = (item_unitPrice item * item_quantity item)%float)
         (items o)
    /\ total o = sum_subtotals (items o).
Proof.
  destruct (create_returns
              (mkCreateOrderDto client name email address
                 (Some [mkCreateOrderItemDto p1 2; mkCreateOrderItemDto p2 1]))
              _ w eq_refl) as (w' & extra & Hrun & Hobj & Htable & _).
  eexists _, _. split; [exact Hrun|]. split; [exact Hobj|].
  rewrite Htable, lookup_insert_eq. cbn. repeat split; try done.
  repeat constructor.
Qed.

(** ** Connecting to the broker *)

Lemma pauses_schedule (from retries : nat) :
  pauses (schedule from retries) = map backoff (seq from retries).
Proof.
  revert from. induction retries as [|n IH]; intros from; [done|].
  cbn. f_equal. apply IH.
Qed.

Lemma attempts_schedule (from retries : nat) :
  attempts (schedule from retries) = seq from (S retries).
Proof.
  revert from. induction retries as [|n IH]; intros from; [done|].
  cbn. f_equal. apply IH.
Qed.

Lemma connect_run (amqp : nat -> Attempt) (n : nat) :
  forall (retryCount : nat) (w : World),
    (retryCount + n = RabbitMQService.maxReconnectAttempts)%nat ->
    exists k w',
      (retryCount <= k <= RabbitMQService.maxReconnectAttempts)%nat
      /\ (forall i, (retryCount <= i < k)%nat -> amqp i <> Connected)
      /\ RabbitMQService.connect amqp retryCount w = (Returned tt, w')
      /\ trace w' = trace w ++ schedule retryCount (k - retryCount)
      /\ table w' = table w
      /\ ((amqp k = Connected /\ channel w' = true /\ reconnectAttempts w' = 0%nat)
          \/ (k = RabbitMQService.maxReconnectAttempts /\ amqp k <> Connected
              /\ last (logs w')
                 = Some (ERROR,
                         "Máximo de reintentos alcanzado. No se pudo conectar a RabbitMQ."))).
Proof.
  unfold RabbitMQService.maxReconnectAttempts.
  induction n as [|n IH]; intros retryCount w Hn.
  - assert (retryCount = 10%nat) as -> by lia.
    rewrite RabbitMQService.connect_equation_1.
    unfold RabbitMQService.open_channel, RabbitMQService.reset_reconnectAttempts. prim.
    exists 10%nat.
    destruct (amqp 10%nat) as [|message|message] eqn:Hamqp; cbn.
    all: eexists; (split; [lia|]); (split; [intros i Hi; lia|]).
    all: (split; [reflexivity|]); cbn; (split; [done|]); (split; [done|]).
    + by left.
    + right. repeat split; try done. by rewrite last_snoc.
    + right. repeat split; try done. by rewrite last_snoc.
  - rewrite RabbitMQService.connect_equation_1.
    unfold RabbitMQService.open_channel, RabbitMQService.reset_reconnectAttempts. prim.
    destruct (amqp retryCount) as [|message|message] eqn:Hamqp; cbn.
    + exists retryCount. eexists. split; [lia|]. split; [intros i Hi; lia|].
      split; [reflexivity|]. cbn. rewrite Nat.sub_diag. cbn.
      split; [done|]. split; [done|]. left. by rewrite Hamqp.
    + unfold RabbitMQService.maxReconnectAttempts.
      destruct (lt_dec retryCount 10) as [Hlt|Hge]; [|lia]. cbn.
      match goal with
      | |- context [RabbitMQService.connect amqp (S retryCount) ?W] =>
          destruct (IH (S retryCount) W ltac:(lia))
            as (k & w' & Hk & Hfail & Hrun & Htrace & Htable & Hend)
      end.
      rewrite Hrun. cbn in *. exists k, w'. split; [lia|].
      split.
      { intros i Hi. destruct (Nat.eq_dec i retryCount) as [Heq|Hne].
        - subst i. by rewrite Hamqp.
        - apply Hfail. lia. }
      split; [reflexivity|]. split.
      { rewrite Htrace. replace (k - retryCount)%nat with (S (k - S retryCount)) by lia.
        cbn [schedule]. by rewrite <- !app_assoc. }
      split; [done|]. destruct Hend as [Hend|Hend]; [by left|by right].
    + unfold RabbitMQService.maxReconnectAttempts.
      destruct (lt_dec retryCount 10) as [Hlt|Hge]; [|lia]. cbn.
      match goal with
      | |- context [RabbitMQService.connect amqp (S retryCount) ?W] =>
          destruct (IH (S retryCount) W ltac:(lia))
            as (k & w' & Hk & Hfail & Hrun & Htrace & Htable & Hend)
      end.
      rewrite Hrun. cbn in *. exists k, w'. split; [lia|].
      split.
      { intros i Hi. destruct (Nat.eq_dec i retryCount) as [Heq|Hne].
        - subst i. by rewrite Hamqp.
        - apply Hfail. lia. }
      split; [reflexivity|]. split.
      { rewrite Htrace. replace (k - retryCount)%nat with (S (k - S retryCount)) by lia.
        cbn [schedule]. by rewrite <- !app_assoc. }
      split; [done|]. destruct Hend as [Hend|Hend]; [by left|by right].
Qed.

(** C7, as stated, fails: when every attempt is refused, [connect] makes its
    eleven attempts with ten pauses between them, logs that the retries are
    used up, and returns normally; no error reaches the caller. *)
Lemma connect_exhausted_counterexample :
  (exists w',
     RabbitMQService.connect always_down 0 empty_world = (Returned tt, w')
     /\ attempts (trace w') = seq 0 11
     /\ pauses (trace w')
        = [1000; 2000; 4000; 8000; 16000; 30000; 30000; 30000; 30000; 30000])
  /\ ~ (forall (amqp : nat -> Attempt) (w : World),
          (forall n, amqp n <> Connected) ->
          exists e w', RabbitMQService.connect amqp 0 w = (Thrown e, w')).
Proof.
  split.
  - eexists. split; [vm_compute; reflexivity|]. split; vm_compute; reflexivity.
  - intros H. destruct (H always_down empty_world) as (e & w' & Hrun); [done|].
    vm_compute in Hrun. discriminate Hrun.
Qed.

(** C7, amended.  When connection attempts fail, [connect] retries with
    exponential backoff: the pause before retry [n] (counted from 0, that is,
    after the failed attempt made with retry count [n]) is
    [min(1000 * 2^n, 30000)] ms, and there are at most 10 retries; every
    attempt before the last one made has failed.  The sequence ends with an
    attempt that connects, which leaves the channel open, or, when the tenth
    retry (the eleventh attempt) has failed too, with the error line "Máximo de reintentos
    alcanzado..." as the last line of the log.  In both cases [connect]
    returns normally to its caller: it never throws. *)
Theorem connect_retries_with_backoff (amqp : nat -> Attempt) (w : World) :
  exists retries w',
    (retries <= RabbitMQService.maxReconnectAttempts)%nat
    /\ (forall i, (i < retries)%nat -> amqp i <> Connected)
    /\ RabbitMQService.connect amqp 0 w = (Returned tt, w')
    /\ trace w' = trace w ++ schedule 0 retries
    /\ attempts (trace w') = attempts (trace w) ++ seq 0 (S retries)
    /\ pauses (trace w') = pauses (trace w) ++ map backoff (seq 0 retries)
    /\ ((amqp retries = Connected /\ channel w' = true)
        \/ (retries = RabbitMQService.maxReconnectAttempts /\ amqp retries <> Connected
            /\ last (logs w')
               = Some (ERROR,
                       "Máximo de reintentos alcanzado. No se pudo conectar a RabbitMQ."))).
Proof.
  destruct (connect_run amqp RabbitMQService.maxReconnectAttempts 0%nat w eq_refl)
    as (k & w' & Hk & Hfail & Hrun & Htrace & _ & Hend).
  exists k, w'. split; [lia|]. split; [intros i Hi; apply Hfail; lia|].
  split; [done|]. rewrite Nat.sub_0_r in Htrace. split; [done|].
  split; [by rewrite Htrace; unfold attempts; rewrite omap_app; f_equal;
             apply attempts_schedule|].
  split; [by rewrite Htrace; unfold pauses; rewrite omap_app; f_equal;
             apply pauses_schedule|].
  destruct Hend as [(Hok & Hch & _)|Hend]; [by left|by right].
Qed.

(** ** Consuming messages *)



(** With the channel up, [onModuleInit] registers the consumer of
    order.failed.stock with the handler's callback. *)
Lemma onModuleInit_registers (JSON_parse : string -> option FailedStockData) (w : World) :
  channel w = true ->
  exists w',
    OrdersService.onModuleInit JSON_parse w
    = (Returned (Some (RabbitMQService.consumer JSON_parse "order.failed.stock"
                         OrdersService.failedStockCallback)), w')
    /\ trace w'
       = trace w ++ [QueueAsserted "order.failed.stock"; ConsumerRegistered "order.failed.stock"].
Proof.
  intros Hch. unfold OrdersService.onModuleInit, RabbitMQService.consumeMessages,
    RabbitMQService.ensureQueue. prim. rewrite Hch. cbn.
  eexists. split; [reflexivity|]. cbn. by rewrite <- app_assoc.
Qed.




(** ** Further properties of [create] *)



Lemma productsMap_of_snoc (l : list OrderItem) (item : OrderItem) :
  OrdersService.productsMap_of (l ++ [item])
  = OrdersService.set_property (item_productId item) (item_quantity item)
      (OrdersService.productsMap_of l).
Proof. unfold OrdersService.productsMap_of. by rewrite foldl_app. Qed.

(** X2.  In the product map of the order.created event a product id stands
    for the quantity of the last item with that id: when a product occurs in
    several items the quantities are not added up, the earlier ones are
    overwritten; a product of no item is absent.  The one exception is the
    id [__proto__], which is never in the map: assigning a number under that
    key of a plain object makes no property. *)
Theorem productsMap_of_last_wins (l : list OrderItem) (productId : string) :
  OrdersService.productsMap_of l !! productId
  = if (productId =? "__proto__")%string then None
    else item_quantity <$> last (filter (fun item => item_productId item = productId) l).
Proof.
  induction l as [|item l IH] using rev_ind.
  { cbn. by destruct (productId =? "__proto__")%string. }
  rewrite productsMap_of_snoc, filter_app. unfold OrdersService.set_property.
  destruct (decide (item_productId item = productId)) as [Heq|Hne].
  - rewrite Heq. destruct (productId =? "__proto__")%string eqn:Hproto.
    + exact IH.
    + rewrite lookup_insert_eq.
      rewrite (filter_cons_True _ item []) by done. cbn. by rewrite last_snoc.
  - rewrite (filter_cons_False _ item []) by done. cbn. rewrite app_nil_r.
    destruct (item_productId item =? "__proto__")%string; [done|].
    by rewrite lookup_insert_ne.
Qed.

(** When the broker cannot take the message, publishing the order.created
    event returns all the same and leaves no trace. *)
Lemma publishOrderCreatedEvent_swallows (r : ref) (o : Order) (w : World) :
  heap w !! r = Some o ->
  broker_unavailable "RABBITMQ_QUEUE_ORDER_CREATED" w ->
  exists w',
    OrdersService.publishOrderCreatedEvent r w = (Returned tt, w')
    /\ same_store w w' /\ trace w' = trace w.
Proof.
  intros Hobj Hdown. unfold OrdersService.publishOrderCreatedEvent.
  run_with read_run.
  unfold RabbitMQService.publishOrderCreated, RabbitMQService.getRequiredConfig,
    RabbitMQService.publishMessage, RabbitMQService.ensureQueue.
  prim. destruct (truthy (config w !! _)) eqn:Hcfg; cbn.
  - destruct Hdown as [Hdown|Hdown]; [congruence|]. rewrite Hdown. cbn.
    eexists. split; [reflexivity|]. cbn. by repeat split.
  - eexists. split; [reflexivity|]. cbn. by repeat split.
Qed.

(** X3.  A broker that cannot take the order.created message (queue name not
    configured, or channel not initialised) does not make [create] fail: the
    order is saved and returned, the confirmation is mailed, and no message
    is sent. *)
Theorem create_survives_broker_failure (createOrderDto : CreateOrderDto)
    (l : list CreateOrderItemDto) (w : World) :
  dto_items createOrderDto = Some l ->
  broker_unavailable "RABBITMQ_QUEUE_ORDER_CREATED" w ->
  exists w' o,
    OrdersService.create createOrderDto w = (Returned (length (heap w)), w')
    /\ heap w' !! length (heap w) = Some o
    /\ table w' !! uuid w (issued w) = Some o
    /\ trace w' = trace w ++ [RowSaved o] ++ mails w (OrderConfirmationEmail o).
Proof.
  intros Hitems Hdown. unfold OrdersService.create, OrdersService.create_with.
  prim. rewrite validateStock_run. unfold repository_create, new_entity. prim.
  rewrite Hitems. prim. rewrite orderItems_of_run. prim. rewrite !heap_alter_new.
  run_with save_new_run. rewrite heap_insert_new. run_with read_run.
  match goal with
  | |- context [OrdersService.publishOrderCreatedEvent ?r ?W] =>
      destruct (publishOrderCreatedEvent_swallows r (new_order createOrderDto l
                  (Some (uuid w (issued w)))) W)
        as (w1 & Hpub & (Htable & Hheap & Hissued & Huuid & Hclock & Hconfig
                         & Hchannel & Hsendgrid) & Htrace);
        [cbn; by rewrite heap_lookup_new|exact Hdown|]
  end.
  rewrite Hpub. cbn in *.
  erewrite sendOrderConfirmationEmail_run
    by (rewrite ?Hheap; cbn; rewrite ?heap_lookup_new; eauto).
  cbn. eexists _, _. split; [reflexivity|]. cbn.
  rewrite Hheap, Htable, Htrace. cbn. rewrite heap_lookup_new, lookup_insert_eq.
  unfold mails. cbn. rewrite Hsendgrid. cbn.
  rewrite <- !app_assoc. done.
Qed.

Lemma create_survives_broker_failure_witness :
  dto_items example_command
  = Some [mkCreateOrderItemDto "p1" 2; mkCreateOrderItemDto "p2" 1]
  /\ broker_unavailable "RABBITMQ_QUEUE_ORDER_CREATED" (with_channel false empty_world)
  /\ exists w' o,
       OrdersService.create example_command (with_channel false empty_world)
       = (Returned (length (heap (with_channel false empty_world))), w')
       /\ heap w' !! length (heap (with_channel false empty_world)) = Some o
       /\ table w' !! uuid (with_channel false empty_world)
                        (issued (with_channel false empty_world)) = Some o
       /\ trace w'
          = trace (with_channel false empty_world) ++ [RowSaved o]
            ++ mails (with_channel false empty_world) (OrderConfirmationEmail o).
Proof.
  split; [reflexivity|]. split; [by right|].
  apply (create_survives_broker_failure example_command
           [mkCreateOrderItemDto "p1" 2; mkCreateOrderItemDto "p2" 1]
           (with_channel false empty_world)); [reflexivity|by right].
Defined.

(** ** Status operations and the broker *)

(** When the broker cannot take the message, publishing throws a plain
    [Error] and leaves no trace. *)
Lemma publish_fails (name : string) (payload : Payload) (w : World) :
  broker_unavailable name w ->
  exists message w',
    (queue ← RabbitMQService.getRequiredConfig name;
     RabbitMQService.publishMessage queue payload) w = (Thrown (Error message), w')
    /\ same_store w w' /\ trace w' = trace w.
Proof.
  intros Hdown.
  unfold RabbitMQService.getRequiredConfig, RabbitMQService.publishMessage,
    RabbitMQService.ensureQueue, mbind, M_bind, try_catch.
  destruct (truthy (config w !! name)) eqn:Hcfg; cbn.
  - destruct Hdown as [Hdown|Hdown]; [congruence|]. rewrite Hdown. prim.
    eexists _, _. split; [reflexivity|]. cbn. by repeat split.
  - eexists _, _. split; [reflexivity|]. split; [apply same_store_refl|done].
Qed.

Lemma publishOrderShipped_fails (payload : Payload) (w : World) :
  broker_unavailable "RABBITMQ_QUEUE_ORDER_SHIPPED" w ->
  exists message w',
    RabbitMQService.publishOrderShipped payload w = (Thrown (Error message), w')
    /\ same_store w w' /\ trace w' = trace w.
Proof. apply publish_fails. Qed.

Lemma updateStatus_broker_down (w : World) (key : string) (row : Order)
    (tracking : option string) :
  table w !! key = Some row -> isDeleted row = false ->
  status row = en_procesamiento -> truthy tracking = true ->
  broker_unavailable "RABBITMQ_QUEUE_ORDER_SHIPPED" w ->
  exists w',
    OrdersService.updateStatus key (mkUpdateOrderStatusDto enviado tracking) w
    = (Thrown (InternalServerErrorException "Error al actualizar el estado del pedido"), w')
    /\ table w' = table w /\ trace w' = trace w.
Proof.
  intros Hrow Hdel Hst Htr Hdown. unfold OrdersService.updateStatus.
  run_with findOne_found. run_with read_run.
  rewrite validateStatusTransition_run, Hst. prim. rewrite Htr. prim.
  rewrite !heap_alter_new. run_with read_run.
  match goal with
  | |- context [RabbitMQService.publishOrderShipped ?p ?W] =>
      destruct (publishOrderShipped_fails p W)
        as (message & w1 & Hpub & (Htable & _) & Htrace); [exact Hdown|]
  end.
  rewrite Hpub. cbn.
  eexists. split; [reflexivity|]. cbn. by rewrite Htable, Htrace.
Qed.

(** X4.  While the broker cannot take the order.shipped message, an order in
    en_procesamiento cannot be moved to enviado: [updateStatus] fails with the
    internal-error exception, and nothing is saved, sent or mailed. *)
Theorem updateStatus_enviado_needs_broker (w : World) (key : string) (row : Order)
    (tracking : option string) :
  table w !! key = Some row -> isDeleted row = false ->
  status row = en_procesamiento -> truthy tracking = true ->
  broker_unavailable "RABBITMQ_QUEUE_ORDER_SHIPPED" w ->
  exists w',
    OrdersService.updateStatus key (mkUpdateOrderStatusDto enviado tracking) w
    = (Thrown (InternalServerErrorException "Error al actualizar el estado del pedido"), w')
    /\ table w' = table w /\ trace w' = trace w.
Proof. apply updateStatus_broker_down. Qed.

Lemma updateStatus_enviado_needs_broker_witness :
  table (with_channel false (example_world en_procesamiento)) !! "order-0"
  = Some (example_order en_procesamiento)
  /\ broker_unavailable "RABBITMQ_QUEUE_ORDER_SHIPPED"
       (with_channel false (example_world en_procesamiento))
  /\ exists w',
       OrdersService.updateStatus "order-0" (mkUpdateOrderStatusDto enviado (Some "TRK-1"))
         (with_channel false (example_world en_procesamiento))
       = (Thrown (InternalServerErrorException "Error al actualizar el estado del pedido"), w')
       /\ table w' = table (with_channel false (example_world en_procesamiento))
       /\ trace w' = trace (with_channel false (example_world en_procesamiento)).
Proof.
  split; [reflexivity|]. split; [by right|].
  apply (updateStatus_enviado_needs_broker
           (with_channel false (example_world en_procesamiento)) "order-0"
           (example_order en_procesamiento) (Some "TRK-1")); try reflexivity.
  by right.
Defined.

(** X5.  Cancelling through [updateStatus] sets the status and [cancelledAt]
    and nothing else: the cancellation reason stays what it was (none, for an
    order that never had one), the tracking number of the request is ignored,
    no message goes to the broker, and the mail is the status-update mail. *)
Theorem updateStatus_cancelado_records_no_reason (w : World) (key : string) (row : Order)
    (tracking : option string) :
  table w !! key = Some row -> isDeleted row = false -> id row = Some key ->
  transition_table (status row) cancelado = true ->
  exists w' saved,
    OrdersService.updateStatus key (mkUpdateOrderStatusDto cancelado tracking) w
    = (Returned (length (heap w)), w')
    /\ table w' = <[key := saved]> (table w)
    /\ saved = set_cancelledAt (Some (clock w)) (set_status cancelado row)
    /\ cancellationReason saved = cancellationReason row
    /\ trackingNumber saved = trackingNumber row
    /\ trace w' = trace w ++ [RowSaved saved]
                  ++ mails w (OrderStatusUpdateEmail saved (status row)).
Proof.
  intros Hrow Hdel Hid Hedge. unfold OrdersService.updateStatus.
  run_with findOne_found. run_with read_run.
  rewrite validateStatusTransition_run, Hedge. prim.
  rewrite !heap_alter_new. run_with save_run. run_with sendOrderStatusUpdateEmail_run.
  eexists _, _. split; [reflexivity|]. cbn. repeat split; try done.
  unfold mails. cbn. by rewrite <- app_assoc.
Qed.

Lemma updateStatus_cancelado_records_no_reason_witness :
  table (example_world enviado) !! "order-0" = Some (example_order enviado)
  /\ transition_table (status (example_order enviado)) cancelado = true
  /\ exists w' saved,
       OrdersService.updateStatus "order-0" (mkUpdateOrderStatusDto cancelado (Some "TRK-9"))
         (example_world enviado)
       = (Returned (length (heap (example_world enviado))), w')
       /\ table w' = <["order-0" := saved]> (table (example_world enviado))
       /\ saved = set_cancelledAt (Some (clock (example_world enviado)))
                    (set_status cancelado (example_order enviado))
       /\ cancellationReason saved = cancellationReason (example_order enviado)
       /\ trackingNumber saved = trackingNumber (example_order enviado)
       /\ trace w' = trace (example_world enviado) ++ [RowSaved saved]
                     ++ mails (example_world enviado)
                          (OrderStatusUpdateEmail saved (status (example_order enviado))).
Proof.
  split; [reflexivity|]. split; [reflexivity|].
  apply (updateStatus_cancelado_records_no_reason (example_world enviado) "order-0"
           (example_order enviado) (Some "TRK-9")); reflexivity.
Defined.

(** ** What the status operations leave alone *)

Lemma touches_only_refl (key : string) (t : gmap string Order) : touches_only key t t.
Proof.
  intros k. destruct (t !! k) as [o|]; constructor. split; [by repeat split|done].
Qed.

Lemma touches_only_insert (key : string) (row saved : Order) (t : gmap string Order) :
  t !! key = Some row -> same_core row saved -> touches_only key t (<[key := saved]> t).
Proof.
  intros Hrow Hcore k. destruct (decide (k = key)) as [->|Hne].
  - rewrite lookup_insert_eq, Hrow. by constructor.
  - rewrite lookup_insert_ne by done.
    destruct (t !! k) as [o|]; constructor. split; [by repeat split|done].
Qed.

(** Whatever the request and however it ends, [updateStatus] leaves the table
    as it is or replaces the row of the order by one with the same core. *)
Lemma updateStatus_table (w : World) (key : string) (updateDto : UpdateOrderStatusDto) :
  (forall row, table w !! key = Some row -> id row = Some key) ->
  exists res w',
    OrdersService.updateStatus key updateDto w = (res, w')
    /\ (table w' = table w
        \/ exists row saved,
             table w !! key = Some row /\ same_core row saved
             /\ table w' = <[key := saved]> (table w)).
Proof.
  intros Hwf. unfold OrdersService.updateStatus.
  destruct (table w !! key) as [row|] eqn:Hrow.
  2: { run_with findOne_absent. eexists _, _. split; [reflexivity|]. by left. }
  destruct (isDeleted row) eqn:Hdel.
  { run_with findOne_deleted. eexists _, _. split; [reflexivity|]. by left. }
  specialize (Hwf row eq_refl).
  run_with findOne_found. run_with read_run.
  rewrite validateStatusTransition_run.
  destruct (transition_table (status row) (dto_status updateDto)); cbn.
  2: { eexists _, _. split; [reflexivity|]. by left. }
  prim. rewrite heap_alter_new.
  destruct updateDto as [requested tracking]. cbn in *.
  destruct requested; cbn.
  - run_with save_run. run_with sendOrderStatusUpdateEmail_run.
    eexists _, _. split; [reflexivity|]. cbn. right. eexists _, _.
    split; [done|]. split; [|reflexivity]. by repeat split.
  - run_with save_run. run_with sendOrderStatusUpdateEmail_run.
    eexists _, _. split; [reflexivity|]. cbn. right. eexists _, _.
    split; [done|]. split; [|reflexivity]. by repeat split.
  - destruct (truthy tracking); prim.
    + rewrite !heap_alter_new. run_with read_run.
      publish_with publishOrderShipped_frame.
      destruct Hres as [->|[message ->]]; cbn.
      * erewrite save_run by (rewrite ?Hheap; cbn; rewrite ?heap_lookup_new; eauto).
        cbn.
        erewrite sendOrderStatusUpdateEmail_run
          by (cbn; rewrite ?Hheap; cbn; rewrite ?heap_lookup_new; eauto).
        cbn. eexists _, _. split; [reflexivity|]. cbn. right. eexists _, _.
        split; [done|]. split; [|by rewrite Htable]. by repeat split.
      * eexists _, _. split; [reflexivity|]. cbn. left. by rewrite Htable.
    + eexists _, _. split; [reflexivity|]. by left.
  - rewrite !heap_alter_new. run_with read_run.
    publish_with publishOrderDelivered_frame.
    destruct Hres as [->|[message ->]]; cbn.
    + erewrite save_run by (rewrite ?Hheap; cbn; rewrite ?heap_lookup_new; eauto).
      cbn.
      erewrite sendOrderStatusUpdateEmail_run
        by (cbn; rewrite ?Hheap; cbn; rewrite ?heap_lookup_new; eauto).
      cbn. eexists _, _. split; [reflexivity|]. cbn. right. eexists _, _.
      split; [done|]. split; [|by rewrite Htable]. by repeat split.
    + eexists _, _. split; [reflexivity|]. cbn. left. by rewrite Htable.
  - rewrite !heap_alter_new. run_with save_run. run_with sendOrderStatusUpdateEmail_run.
    eexists _, _. split; [reflexivity|]. cbn. right. eexists _, _.
    split; [done|]. split; [|reflexivity]. by repeat split.
Qed.

Lemma cancel_rejected (w : World) (key : string) (row : Order) (cancelDto : CancelOrderDto) :
  table w !! key = Some row -> isDeleted row = false ->
  OrdersService.includes [entregado; cancelado] (status row) = true ->
  exists w',
    OrdersService.cancel key cancelDto w = (Thrown (cannot_cancel (status row)), w')
    /\ table w' = table w /\ trace w' = trace w.
Proof.
  intros Hrow Hdel Hinc. unfold OrdersService.cancel.
  run_with findOne_found. run_with read_run.
  destruct (status row); try discriminate Hinc; cbn.
  all: eexists; (split; [reflexivity|]); done.
Qed.

Lemma cancel_accepted (w : World) (key : string) (row : Order) (cancelDto : CancelOrderDto) :
  table w !! key = Some row -> isDeleted row = false -> id row = Some key ->
  OrdersService.includes [entregado; cancelado] (status row) = false ->
  exists w',
    let saved :=
      set_cancelledAt (Some (clock w))
        (set_cancellationReason
           (or_else (dto_cancellationReason cancelDto) (Some "Cancelado por el usuario"))
           (set_status cancelado row)) in
    OrdersService.cancel key cancelDto w = (Returned (length (heap w)), w')
    /\ table w' = <[key := saved]> (table w)
    /\ trace w' = trace w ++ [RowSaved saved] ++ mails w (OrderCancellationEmail saved)
    /\ heap w' = heap w ++ [saved].
Proof.
  intros Hrow Hdel Hid Hinc. unfold OrdersService.cancel.
  run_with findOne_found. run_with read_run.
  destruct (status row); try discriminate Hinc; prim.
  all: rewrite !heap_alter_new.
  all: run_with save_run; run_with sendOrderCancellationEmail_run.
  all: eexists; cbn; (split; [reflexivity|]); cbn.
  all: unfold mails; cbn; rewrite <- app_assoc; done.
Qed.

Lemma cancel_table (w : World) (key : string) (cancelDto : CancelOrderDto) :
  (forall row, table w !! key = Some row -> id row = Some key) ->
  exists res w',
    OrdersService.cancel key cancelDto w = (res, w')
    /\ (table w' = table w
        \/ exists row saved,
             table w !! key = Some row /\ same_core row saved
             /\ table w' = <[key := saved]> (table w)).
Proof.
  intros Hwf.
  destruct (table w !! key) as [row|] eqn:Hrow.
  2: { unfold OrdersService.cancel. run_with findOne_absent.
       eexists _, _. split; [reflexivity|]. by left. }
  destruct (isDeleted row) eqn:Hdel.
  { unfold OrdersService.cancel. run_with findOne_deleted.
    eexists _, _. split; [reflexivity|]. by left. }
  destruct (OrdersService.includes [entregado; cancelado] (status row)) eqn:Hinc.
  - destruct (cancel_rejected w key row cancelDto Hrow Hdel Hinc) as (w' & Hrun & Ht & _).
    eexists _, _. split; [exact Hrun|]. by left.
  - destruct (cancel_accepted w key row cancelDto Hrow Hdel (Hwf row eq_refl) Hinc)
      as (w' & Hrun & Ht & _).
    eexists _, _. split; [exact Hrun|]. right. eexists _, _.
    split; [reflexivity|]. split; [|exact Ht]. by repeat split.
Qed.

(** The handler on a message that names the order [key]. *)
Lemma handleFailedStock_discards (w : World) (data : FailedStockData)
    (message : FailedStockMessage) (key : string) :
  data_message data = Some message ->
  or_else (msg_orderId message) (msg_OrderId message) = Some key ->
  truthy (Some key) = true ->
  match table w !! key with
  | Some row => isDeleted row = true \/ status row <> pendiente
  | None => True
  end ->
  exists w',
    OrdersService.handleFailedStock data w = (Returned tt, w')
    /\ table w' = table w /\ trace w' = trace w.
Proof.
  intros Hmsg Hkey Htruthy Hcase. unfold OrdersService.handleFailedStock.
  prim. rewrite Hmsg, Hkey, Htruthy. cbn.
  destruct (table w !! key) as [row|] eqn:Hrow.
  - destruct (isDeleted row) eqn:Hdel.
    + run_with findOne_deleted. by eexists.
    + destruct Hcase as [?|Hst]; [done|].
      run_with findOne_found. run_with read_run.
      destruct (status row); [done|..]; prim.
      all: eexists; (split; [reflexivity|]); done.
  - run_with findOne_absent. by eexists.
Qed.

Lemma handleFailedStock_cancels (w : World) (data : FailedStockData)
    (message : FailedStockMessage) (key : string) (row : Order) :
  data_message data = Some message ->
  or_else (msg_orderId message) (msg_OrderId message) = Some key ->
  truthy (Some key) = true ->
  table w !! key = Some row -> isDeleted row = false -> id row = Some key ->
  status row = pendiente ->
  exists w',
    let saved :=
      set_cancelledAt (Some (clock w))
        (set_cancellationReason (Some "Stock insuficiente") (set_status cancelado row)) in
    OrdersService.handleFailedStock data w = (Returned tt, w')
    /\ table w' = <[key := saved]> (table w)
    /\ trace w' = trace w ++ [RowSaved saved] ++ mails w (OrderCancellationEmail saved).
Proof.
  intros Hmsg Hkey Htruthy Hrow Hdel Hid Hst. unfold OrdersService.handleFailedStock.
  prim. rewrite Hmsg, Hkey, Htruthy. cbn.
  run_with findOne_found. run_with read_run. rewrite Hst. prim.
  rewrite !heap_alter_new.
  run_with save_run. run_with sendOrderCancellationEmail_run. run_with read_run.
  eexists. split; [reflexivity|]. cbn.
  unfold mails. cbn. by rewrite <- app_assoc.
Qed.

(** A message without envelope or without order id is logged and dropped. *)
Lemma handleFailedStock_malformed (w : World) (data : FailedStockData) :
  match data_message data with
  | Some message => truthy (or_else (msg_orderId message) (msg_OrderId message)) = false
  | None => True
  end ->
  exists text,
    OrdersService.handleFailedStock data w
    = (Returned tt, with_logs (logs w ++ [(ERROR, text)]) w).
Proof.
  intros Hcase. unfold OrdersService.handleFailedStock. prim.
  destruct (data_message data) as [message|]; [rewrite Hcase|]; cbn; by eexists.
Qed.

Lemma handleFailedStock_table (w : World) (data : FailedStockData) :
  keyed_by_id (table w) ->
  touches_only (named_order data) (table w)
    (table (snd (OrdersService.handleFailedStock data w))).
Proof.
  intros Hwf. unfold named_order.
  destruct (data_message data) as [message|] eqn:Hmsg.
  2: { destruct (handleFailedStock_malformed w data) as (text & ->); [by rewrite Hmsg|].
       apply touches_only_refl. }
  cbn [mbind option_bind].
  destruct (or_else (msg_orderId message) (msg_OrderId message)) as [[|c key]|] eqn:Hkey.
  1,3: destruct (handleFailedStock_malformed w data) as (text & ->);
         [by rewrite Hmsg, Hkey|apply touches_only_refl].
  cbn [default].
  assert (Hdiscard :
            match table w !! String c key with
            | Some row => isDeleted row = true \/ status row <> pendiente
            | None => True
            end ->
            touches_only (String c key) (table w)
              (table (snd (OrdersService.handleFailedStock data w)))).
  { intros Hcase.
    destruct (handleFailedStock_discards w data message (String c key))
      as (w' & Hrun & Ht & _); [done..|].
    rewrite Hrun. cbn [snd]. rewrite Ht. apply touches_only_refl. }
  destruct (table w !! String c key) as [row|] eqn:Hrow; [|by apply Hdiscard].
  destruct (isDeleted row) eqn:Hdel; [apply Hdiscard; by left|].
  destruct (decide (status row = pendiente)) as [Hst|Hst]; [|apply Hdiscard; by right].
  destruct (handleFailedStock_cancels w data message (String c key) row)
    as (w' & Hrun & Ht & _); [done..|by apply Hwf|done|].
  rewrite Hrun. cbn [snd]. rewrite Ht.
  apply touches_only_insert with (row := row); [done|by repeat split].
Qed.

(** X6.  With every row stored under its id, none of the three status
    operations ([updateStatus], [cancel], the stock-failure handler) creates
    or removes a row, changes another order than the one addressed (for the
    handler: the one its message names), or changes the id, the client
    fields, the total, the shipping address, the items or the deletion flag
    of the order addressed -- whatever the request and whether the operation
    returns or throws. *)
Theorem status_operations_keep_the_core (w : World) (key : string)
    (updateDto : UpdateOrderStatusDto) (cancelDto : CancelOrderDto) (data : FailedStockData) :
  keyed_by_id (table w) ->
  touches_only key (table w) (table (snd (OrdersService.updateStatus key updateDto w)))
  /\ touches_only key (table w) (table (snd (OrdersService.cancel key cancelDto w)))
  /\ touches_only (named_order data) (table w)
       (table (snd (OrdersService.handleFailedStock data w))).
Proof.
  intros Hwf. split; [|split].
  - destruct (updateStatus_table w key updateDto) as (res & w' & Hrun & [Ht|Hsaved]);
      [by apply Hwf|..]; rewrite Hrun; cbn [snd].
    + rewrite Ht. apply touches_only_refl.
    + destruct Hsaved as (row & saved & Hrow & Hcore & ->).
      by apply touches_only_insert with (row := row).
  - destruct (cancel_table w key cancelDto) as (res & w' & Hrun & [Ht|Hsaved]);
      [by apply Hwf|..]; rewrite Hrun; cbn [snd].
    + rewrite Ht. apply touches_only_refl.
    + destruct Hsaved as (row & saved & Hrow & Hcore & ->).
      by apply touches_only_insert with (row := row).
  - by apply handleFailedStock_table.
Qed.

Lemma example_world_keyed (st : OrderStatus) : keyed_by_id (table (example_world st)).
Proof.
  intros k row. cbn. intros [<- <-]%lookup_singleton_Some. reflexivity.
Defined.

Lemma status_operations_keep_the_core_witness :
  keyed_by_id (table (example_world pendiente))
  /\ touches_only "order-0" (table (example_world pendiente))
       (table (snd (OrdersService.updateStatus "order-0"
                      (mkUpdateOrderStatusDto en_procesamiento None)
                      (example_world pendiente))))
  /\ touches_only "order-0" (table (example_world pendiente))
       (table (snd (OrdersService.cancel "order-0" (mkCancelOrderDto None)
                      (example_world pendiente))))
  /\ touches_only "order-0" (table (example_world pendiente))
       (table (snd (OrdersService.handleFailedStock
                      (mkFailedStockData (Some (mkFailedStockMessage (Some "order-0") None)))
                      (example_world pendiente)))).
Proof.
  split; [apply example_world_keyed|].
  apply (status_operations_keep_the_core (example_world pendiente) "order-0"
           (mkUpdateOrderStatusDto en_procesamiento None) (mkCancelOrderDto None)
           (mkFailedStockData (Some (mkFailedStockMessage (Some "order-0") None)))).
  apply example_world_keyed.
Defined.

(** X7.  cancelado is terminal: once [cancel] has gone through, every further
    [cancel] of that order fails with the cannot-cancel error and every
    [updateStatus], to whatever status, with the invalid-transition error,
    and neither saves, sends or mails anything. *)
Theorem cancelled_order_is_terminal (w : World) (key : string) (row : Order)
    (cancelDto : CancelOrderDto) :
  table w !! key = Some row -> isDeleted row = false -> id row = Some key ->
  OrdersService.includes [entregado; cancelado] (status row) = false ->
  exists w1,
    OrdersService.cancel key cancelDto w = (Returned (length (heap w)), w1)
    /\ (forall again : CancelOrderDto, exists w2,
          OrdersService.cancel key again w1 = (Thrown (cannot_cancel cancelado), w2)
          /\ table w2 = table w1 /\ trace w2 = trace w1)
    /\ (forall updateDto : UpdateOrderStatusDto, exists w2,
          OrdersService.updateStatus key updateDto w1
          = (Thrown (invalid_transition cancelado (dto_status updateDto)), w2)
          /\ table w2 = table w1 /\ trace w2 = trace w1).
Proof.
  intros Hrow Hdel Hid Hinc.
  destruct (cancel_accepted w key row cancelDto Hrow Hdel Hid Hinc) as (w1 & Hrun & Ht & _).
  exists w1. split; [exact Hrun|].
  assert (Hrow1 : table w1 !! key
                  = Some (set_cancelledAt (Some (clock w))
                            (set_cancellationReason
                               (or_else (dto_cancellationReason cancelDto)
                                  (Some "Cancelado por el usuario"))
                               (set_status cancelado row))))
    by (rewrite Ht; apply lookup_insert_eq).
  split.
  - intros again.
    destruct (cancel_rejected w1 key _ again Hrow1) as (w2 & Hrun2 & H2); [done..|].
    by exists w2.
  - intros updateDto.
    destruct (updateStatus_rejected w1 key _ updateDto Hrow1) as (w2 & Hrun2 & Ht2 & Htr2 & _);
      [done..|].
    by exists w2.
Qed.

Lemma cancelled_order_is_terminal_witness :
  table (example_world pendiente) !! "order-0" = Some (example_order pendiente)
  /\ OrdersService.includes [entregado; cancelado] (status (example_order pendiente)) = false
  /\ exists w1,
       OrdersService.cancel "order-0" (mkCancelOrderDto (Some "no longer needed"))
         (example_world pendiente)
       = (Returned (length (heap (example_world pendiente))), w1)
       /\ (forall again : CancelOrderDto, exists w2,
             OrdersService.cancel "order-0" again w1 = (Thrown (cannot_cancel cancelado), w2)
             /\ table w2 = table w1 /\ trace w2 = trace w1)
       /\ (forall updateDto : UpdateOrderStatusDto, exists w2,
             OrdersService.updateStatus "order-0" updateDto w1
             = (Thrown (invalid_transition cancelado (dto_status updateDto)), w2)
             /\ table w2 = table w1 /\ trace w2 = trace w1).
Proof.
  split; [reflexivity|]. split; [reflexivity|].
  apply (cancelled_order_is_terminal (example_world pendiente) "order-0"
           (example_order pendiente) (mkCancelOrderDto (Some "no longer needed")));
    reflexivity.
Defined.

(** X8.  The stock-failure handler is idempotent: with every row stored under
    its id, handling the same message a second time saves and mails nothing
    more; table and trace are what the first handling left. *)
Theorem handleFailedStock_idempotent (w : World) (data : FailedStockData) :
  keyed_by_id (table w) ->
  table (snd (OrdersService.handleFailedStock data
                (snd (OrdersService.handleFailedStock data w))))
  = table (snd (OrdersService.handleFailedStock data w))
  /\ trace (snd (OrdersService.handleFailedStock data
                   (snd (OrdersService.handleFailedStock data w))))
     = trace (snd (OrdersService.handleFailedStock data w)).
Proof.
  intros Hwf.
  destruct (data_message data) as [message|] eqn:Hmsg.
  2: { destruct (handleFailedStock_malformed w data) as (text & Hrun1); [by rewrite Hmsg|].
       rewrite Hrun1. cbn [snd].
       destruct (handleFailedStock_malformed (with_logs (logs w ++ [(ERROR, text)]) w) data)
         as (text' & Hrun2); [by rewrite Hmsg|]. by rewrite Hrun2. }
  destruct (or_else (msg_orderId message) (msg_OrderId message)) as [[|c key]|] eqn:Hkey.
  1,3: destruct (handleFailedStock_malformed w data) as (text & Hrun1);
         [by rewrite Hmsg, Hkey|]; rewrite Hrun1; cbn [snd];
       destruct (handleFailedStock_malformed (with_logs (logs w ++ [(ERROR, text)]) w) data)
         as (text' & Hrun2); [by rewrite Hmsg, Hkey|]; by rewrite Hrun2.
  assert (Hdiscard : forall w0,
            match table w0 !! String c key with
            | Some row => isDeleted row = true \/ status row <> pendiente
            | None => True
            end ->
            table (snd (OrdersService.handleFailedStock data
                          (snd (OrdersService.handleFailedStock data w0))))
            = table (snd (OrdersService.handleFailedStock data w0))
            /\ trace (snd (OrdersService.handleFailedStock data
                             (snd (OrdersService.handleFailedStock data w0))))
               = trace (snd (OrdersService.handleFailedStock data w0))).
  { intros w0 Hcase.
    destruct (handleFailedStock_discards w0 data message (String c key))
      as (w1 & Hrun1 & Ht1 & Htr1); [done..|]. rewrite Hrun1. cbn [snd].
    destruct (handleFailedStock_discards w1 data message (String c key))
      as (w2 & Hrun2 & Ht2 & Htr2); [done..|by rewrite Ht1|]. by rewrite Hrun2. }
  destruct (table w !! String c key) as [row|] eqn:Hrow.
  2: { apply Hdiscard. by rewrite Hrow. }
  destruct (isDeleted row) eqn:Hdel.
  { apply Hdiscard. rewrite Hrow. by left. }
  destruct (decide (status row = pendiente)) as [Hst|Hst].
  2: { apply Hdiscard. rewrite Hrow. by right. }
  destruct (handleFailedStock_cancels w data message (String c key) row)
    as (w1 & Hrun1 & Ht1 & Htr1); [done..|by apply Hwf|done|]. rewrite Hrun1. cbn [snd].
  destruct (handleFailedStock_discards w1 data message (String c key))
    as (w2 & Hrun2 & Ht2 & Htr2); [done..| |by rewrite Hrun2].
  rewrite Ht1, lookup_insert_eq. by right.
Qed.

Lemma handleFailedStock_idempotent_witness :
  keyed_by_id (table (example_world pendiente))
  /\ table (snd (OrdersService.handleFailedStock
                   (mkFailedStockData (Some (mkFailedStockMessage (Some "order-0") None)))
                   (snd (OrdersService.handleFailedStock
                           (mkFailedStockData (Some (mkFailedStockMessage (Some "order-0") None)))
                           (example_world pendiente)))))
     = table (snd (OrdersService.handleFailedStock
                     (mkFailedStockData (Some (mkFailedStockMessage (Some "order-0") None)))
                     (example_world pendiente)))
  /\ trace (snd (OrdersService.handleFailedStock
                   (mkFailedStockData (Some (mkFailedStockMessage (Some "order-0") None)))
                   (snd (OrdersService.handleFailedStock
                           (mkFailedStockData (Some (mkFailedStockMessage (Some "order-0") None)))
                           (example_world pendiente)))))
     = trace (snd (OrdersService.handleFailedStock
                     (mkFailedStockData (Some (mkFailedStockMessage (Some "order-0") None)))
                     (example_world pendiente))).
Proof.
  split; [apply example_world_keyed|].
  apply (handleFailedStock_idempotent (example_world pendiente)
           (mkFailedStockData (Some (mkFailedStockMessage (Some "order-0") None)))).
  apply example_world_keyed.
Defined.

(** X9.  A stock-failure message without the [message] envelope, or whose
    envelope has neither a non-empty [orderId] nor a non-empty [OrderId], is
    dropped: the handler writes one error line to the log and returns; it
    reads no order and saves, sends and mails nothing. *)
Theorem handleFailedStock_drops_malformed (w : World) (data : FailedStockData) :
  match data_message data with
  | Some message =>
      truthy (msg_orderId message) = false /\ truthy (msg_OrderId message) = false
  | None => True
  end ->
  exists w' text,
    OrdersService.handleFailedStock data w = (Returned tt, w')
    /\ logs w' = logs w ++ [(ERROR, text)]
    /\ table w' = table w /\ heap w' = heap w /\ trace w' = trace w.
Proof.
  intros Hcase.
  destruct (handleFailedStock_malformed w data) as (text & Hrun).
  - destruct (data_message data) as [message|]; [|done].
    destruct Hcase as [H1 H2]. unfold or_else. by rewrite H1, H2.
  - by eexists _, _.
Qed.

Lemma handleFailedStock_drops_malformed_witness :
  truthy (msg_orderId (mkFailedStockMessage (Some "") None)) = false
  /\ truthy (msg_OrderId (mkFailedStockMessage (Some "") None)) = false
  /\ exists w' text,
       OrdersService.handleFailedStock
         (mkFailedStockData (Some (mkFailedStockMessage (Some "") None)))
         (example_world pendiente) = (Returned tt, w')
       /\ logs w' = logs (example_world pendiente) ++ [(ERROR, text)]
       /\ table w' = table (example_world pendiente)
       /\ heap w' = heap (example_world pendiente)
       /\ trace w' = trace (example_world pendiente).
Proof.
  split; [reflexivity|]. split; [reflexivity|].
  apply (handleFailedStock_drops_malformed (example_world pendiente)
           (mkFailedStockData (Some (mkFailedStockMessage (Some "") None)))).
  split; reflexivity.
Defined.

(** ** The lifecycle as a whole *)

Lemma allowed_rank (a b : OrderStatus) : allowed a b = true -> (rank a < rank b)%nat.
Proof. destruct a, b; cbn; intros H; try discriminate H; lia. Qed.

Lemma allowed_validates (a b : OrderStatus) (w : World) :
  allowed a b = true <-> OrdersService.validateStatusTransition a b w = (Returned tt, w).
Proof. destruct a, b; cbn; split; intros H; try done. Qed.

Lemma lifecycle_climbs (a : OrderStatus) (history : list OrderStatus) :
  lifecycle (a :: history) = true ->
  (length history <= 3 - rank a)%nat /\ Forall (fun b => (rank a < rank b)%nat) history
  /\ NoDup history.
Proof.
  revert a. induction history as [|b rest IH]; intros a Hlife.
  - cbn. split; [lia|]. split; constructor.
  - cbn [lifecycle] in Hlife. apply andb_true_iff in Hlife as [Hstep Hrest].
    apply allowed_rank in Hstep. destruct (IH b Hrest) as (Hlen & Habove & Hnodup).
    assert (rank b <= 3)%nat by (destruct b; cbn; lia).
    split; [cbn; lia|]. split.
    + constructor; [done|]. eapply Forall_impl; [exact Habove|]. cbn. intros c Hc. lia.
    + constructor; [|done]. intros Hin.
      rewrite Forall_forall in Habove. specialize (Habove b Hin). lia.
Qed.

(** X10.  The transition table has no cycle: in a history of statuses in which
    every step is one that [validateStatusTransition] accepts, no status
    occurs twice, and the history has at most four statuses (three accepted
    status changes in the life of an order). *)
Theorem lifecycle_has_no_cycle (history : list OrderStatus) :
  lifecycle history = true -> NoDup history /\ (length history <= 4)%nat.
Proof.
  destruct history as [|a rest]; [split; [constructor|cbn; lia]|].
  intros Hlife. destruct (lifecycle_climbs a rest Hlife) as (Hlen & Habove & Hnodup).
  split.
  - constructor; [|done]. intros Hin.
    rewrite Forall_forall in Habove. specialize (Habove a Hin). lia.
  - cbn. lia.
Qed.

Lemma lifecycle_has_no_cycle_witness :
  lifecycle [pendiente; en_procesamiento; enviado; entregado] = true
  /\ NoDup [pendiente; en_procesamiento; enviado; entregado]
  /\ (length [pendiente; en_procesamiento; enviado; entregado] <= 4)%nat.
Proof.
  split; [reflexivity|].
  apply (lifecycle_has_no_cycle [pendiente; en_procesamiento; enviado; entregado]).
  reflexivity.
Defined.

(** ** Notifications and publishing *)

(** X11.  The three notification methods never throw, whatever they are given
    (an order without id, a reference to nothing, SendGrid down): they return
    and leave the table, the order objects and the id counter as they are. *)
Theorem notifications_never_fail (order : ref) (previousStatus : OrderStatus) (w : World) :
  (fst (SendGridService.sendOrderConfirmationEmail order w) = Returned tt
   /\ same_store w (snd (SendGridService.sendOrderConfirmationEmail order w)))
  /\ (fst (SendGridService.sendOrderStatusUpdateEmail order previousStatus w) = Returned tt
      /\ same_store w (snd (SendGridService.sendOrderStatusUpdateEmail order previousStatus w)))
  /\ (fst (SendGridService.sendOrderCancellationEmail order w) = Returned tt
      /\ same_store w (snd (SendGridService.sendOrderCancellationEmail order w))).
Proof.
  unfold SendGridService.sendOrderConfirmationEmail,
    SendGridService.sendOrderStatusUpdateEmail, SendGridService.sendOrderCancellationEmail,
    SendGridService.subject_id, SendGridService.sgMail_send, read.
  prim.
  destruct (heap w !! order) as [o|]; cbn; [|by repeat split].
  destruct (id o); cbn; [|by repeat split].
  destruct (sendgrid_up w); cbn; by repeat split.
Qed.

Lemma publish_sent_or_failed (name : string) (payload : Payload) (w : World) :
  sent_or_failed name payload w
    ((queue ← RabbitMQService.getRequiredConfig name;
      RabbitMQService.publishMessage queue payload) w).
Proof.
  unfold sent_or_failed, broker_unavailable.
  unfold RabbitMQService.getRequiredConfig, RabbitMQService.publishMessage,
    RabbitMQService.ensureQueue, mbind, M_bind, try_catch.
  destruct (config w !! name) as [[|c q]|] eqn:Hcfg; cbn.
  1,3: split; [done|]; split; [done|]; right; repeat split; eauto.
  destruct (channel w) eqn:Hch; prim.
  - split; [done|]. split; [done|]. left. exists (String c q).
    repeat split; try done. by rewrite <- app_assoc.
  - split; [done|]. split; [done|]. right. repeat split; eauto.
Qed.

(** X12.  Each of the four publishing methods either asserts its queue and
    sends the message on it, exactly once, which takes the queue name to be
    configured (and not empty) and the channel to be initialised, or throws
    a plain [Error] without anything going to the broker; it never touches
    the table or the order objects. *)
Theorem publishing_sends_or_fails (payload : Payload) (w : World) :
  sent_or_failed "RABBITMQ_QUEUE_ORDER_CREATED" payload w
    (RabbitMQService.publishOrderCreated payload w)
  /\ sent_or_failed "RABBITMQ_QUEUE_ORDER_SHIPPED" payload w
       (RabbitMQService.publishOrderShipped payload w)
  /\ sent_or_failed "RABBITMQ_QUEUE_ORDER_DELIVERED" payload w
       (RabbitMQService.publishOrderDelivered payload w)
  /\ sent_or_failed "RABBITMQ_QUEUE_ORDER_FAILED" payload w
       (RabbitMQService.publishOrderFailedStock payload w).
Proof. repeat split; apply publish_sent_or_failed. Qed.

(** ** Registering and running the consumer *)

(** X13.  When the channel is not initialised, [consumeMessages] registers
    nothing and raises nothing: it writes the error to the log and returns.
    So [onModuleInit] of the orders service, run before the broker is
    connected, leaves the service without a consumer for order.failed.stock,
    silently. *)
Theorem consumeMessages_without_channel {A : Type} (JSON_parse : string -> option A)
    (queue : string) (callback : A -> M Promise)
    (parse : string -> option FailedStockData) (w : World) :
  channel w = false ->
  RabbitMQService.consumeMessages JSON_parse queue callback w
  = (Returned None,
     with_logs (logs w ++ [(ERROR, "Error al consumir mensajes de " +:+ queue +:+ ": "
                                   +:+ "Canal RabbitMQ no inicializado")]) w)
  /\ OrdersService.onModuleInit parse w
     = (Returned None,
        with_logs (logs w ++ [(ERROR, "Error al consumir mensajes de order.failed.stock: "
                                      +:+ "Canal RabbitMQ no inicializado")]) w).
Proof.
  intros Hch.
  unfold OrdersService.onModuleInit, RabbitMQService.consumeMessages,
    RabbitMQService.ensureQueue.
  prim. by rewrite Hch.
Qed.

Lemma consumeMessages_without_channel_witness :
  channel (with_channel false empty_world) = false
  /\ RabbitMQService.consumeMessages example_JSON_parse "order.failed.stock"
       OrdersService.failedStockCallback (with_channel false empty_world)
     = (Returned None,
        with_logs (logs (with_channel false empty_world)
                   ++ [(ERROR, "Error al consumir mensajes de " +:+ "order.failed.stock" +:+ ": "
                               +:+ "Canal RabbitMQ no inicializado")])
          (with_channel false empty_world))
  /\ OrdersService.onModuleInit example_JSON_parse (with_channel false empty_world)
     = (Returned None,
        with_logs (logs (with_channel false empty_world)
                   ++ [(ERROR, "Error al consumir mensajes de order.failed.stock: "
                               +:+ "Canal RabbitMQ no inicializado")])
          (with_channel false empty_world)).
Proof.
  split; [reflexivity|].
  apply (consumeMessages_without_channel example_JSON_parse "order.failed.stock"
           OrdersService.failedStockCallback example_JSON_parse
           (with_channel false empty_world)).
  reflexivity.
Defined.

(** X14.  The consumer acknowledges only after the callback has returned: a
    delivery without message ([null], the consumer was cancelled) does
    nothing at all, and when the callback throws, the exception leaves the
    consumer as it is and the message is not acknowledged. *)
Theorem consumer_acks_only_after_callback {A : Type} (JSON_parse : string -> option A)
    (queue : string) (callback : A -> M Promise) (w : World) :
  RabbitMQService.consumer JSON_parse queue callback None w = (Returned None, w)
  /\ forall (m : Message) (data : A) (e : Exception) (w1 : World),
       JSON_parse (content m) = Some data ->
       callback data (snd (logger LOG ("Mensaje recibido de cola " +:+ queue) w))
       = (Thrown e, w1) ->
       RabbitMQService.consumer JSON_parse queue callback (Some m) w = (Thrown e, w1).
Proof.
  split; [reflexivity|].
  intros m data e w1 Hparse Hcall. unfold RabbitMQService.consumer. rewrite Hparse. prim.
  cbn in Hcall. by rewrite Hcall.
Qed.

(** ** Reconnection *)

(** While no attempt connects, [connect] leaves the reconnection counter as
    it was. *)
Lemma connect_keeps_counter (amqp : nat -> Attempt) (n : nat) :
  forall (retryCount : nat) (w : World),
    (retryCount + n = RabbitMQService.maxReconnectAttempts)%nat ->
    (forall i, (retryCount <= i <= RabbitMQService.maxReconnectAttempts)%nat ->
               amqp i <> Connected) ->
    reconnectAttempts (snd (RabbitMQService.connect amqp retryCount w)) = reconnectAttempts w.
Proof.
  unfold RabbitMQService.maxReconnectAttempts.
  induction n as [|n IH]; intros retryCount w Hn Hdown.
  - assert (retryCount = 10%nat) as -> by lia.
    rewrite RabbitMQService.connect_equation_1.
    unfold RabbitMQService.open_channel, RabbitMQService.reset_reconnectAttempts. prim.
    destruct (amqp 10%nat) as [|message|message] eqn:Hamqp; cbn; try done.
    exfalso. apply (Hdown 10%nat); [lia|done].
  - rewrite RabbitMQService.connect_equation_1.
    unfold RabbitMQService.open_channel, RabbitMQService.reset_reconnectAttempts. prim.
    destruct (amqp retryCount) as [|message|message] eqn:Hamqp; cbn.
    + exfalso. apply (Hdown retryCount); [lia|done].
    + unfold RabbitMQService.maxReconnectAttempts.
      destruct (lt_dec retryCount 10) as [Hlt|Hge]; [|lia]. cbn.
      match goal with
      | |- context [RabbitMQService.connect amqp (S retryCount) ?W] =>
          rewrite (surjective_pairing (RabbitMQService.connect amqp (S retryCount) W));
          destruct (fst (RabbitMQService.connect amqp (S retryCount) W)); cbn;
          rewrite (IH (S retryCount) W) by (try lia; intros i Hi; apply Hdown; lia)
      end; done.
    + unfold RabbitMQService.maxReconnectAttempts.
      destruct (lt_dec retryCount 10) as [Hlt|Hge]; [|lia]. cbn.
      match goal with
      | |- context [RabbitMQService.connect amqp (S retryCount) ?W] =>
          rewrite (surjective_pairing (RabbitMQService.connect amqp (S retryCount) W));
          destruct (fst (RabbitMQService.connect amqp (S retryCount) W)); cbn;
          rewrite (IH (S retryCount) W) by (try lia; intros i Hi; apply Hdown; lia)
      end; done.
Qed.

(** X15.  [reconnect] always returns.  Once the counter has reached 10 it
    does nothing at all: no pause, no connection attempt.  Below 10 it raises
    the counter by one, pauses for the backoff of the raised counter (2000 ms
    on the first reconnection, not 1000), and then runs the connection
    sequence from retry 0; the counter is back at 0 when an attempt connects
    and stays raised when all eleven fail. *)
Theorem reconnect_budget (amqp : nat -> Attempt) (w : World) :
  exists w',
    RabbitMQService.reconnect amqp w = (Returned tt, w')
    /\ table w' = table w
    /\ if (reconnectAttempts w <? RabbitMQService.maxReconnectAttempts)%nat then
         exists retries,
           (retries <= RabbitMQService.maxReconnectAttempts)%nat
           /\ trace w'
              = trace w ++ Slept (backoff (S (reconnectAttempts w))) :: schedule 0 retries
           /\ ((amqp retries = Connected /\ channel w' = true
                /\ reconnectAttempts w' = 0%nat)
               \/ (retries = RabbitMQService.maxReconnectAttempts
                   /\ reconnectAttempts w' = S (reconnectAttempts w)))
       else w' = w.
Proof.
  unfold RabbitMQService.reconnect, RabbitMQService.get_reconnectAttempts,
    RabbitMQService.set_reconnectAttempts.
  prim.
  change (reconnectAttempts w <=? 9)%nat
    with (reconnectAttempts w <? RabbitMQService.maxReconnectAttempts)%nat.
  destruct (reconnectAttempts w <? RabbitMQService.maxReconnectAttempts)%nat eqn:Hlt.
  2: { by exists w. }
  match goal with
  | |- context [RabbitMQService.connect amqp 0 ?W] =>
      destruct (connect_run amqp RabbitMQService.maxReconnectAttempts 0%nat W eq_refl)
        as (k & w' & Hk & Hfail & Hrun & Htrace & Htable & Hend);
      pose proof (connect_keeps_counter amqp RabbitMQService.maxReconnectAttempts 0%nat W
                    eq_refl) as Hkeep
  end.
  rewrite Hrun in *. cbn in *. exists w'. split; [done|]. split; [done|].
  exists k. split; [lia|]. split.
  { rewrite Htrace, Nat.sub_0_r, <- app_assoc. done. }
  destruct Hend as [Hend|(-> & Hlast & _)]; [by left|right].
  split; [done|]. apply Hkeep. intros i Hi.
  destruct (Nat.eq_dec i RabbitMQService.maxReconnectAttempts) as [->|Hne]; [done|].
  apply Hfail. lia.
Qed.

(** ** Reading orders *)

Lemma mapItem_id (l : list OrderItem) :
  map (fun item =>
         mkOrderItem (item_productId item) (item_productName item)
           (item_productImageUrl item) (item_unitPrice item)
           (item_quantity item) (item_subtotal item)) l = l.
Proof. induction l as [|[] l IH]; cbn; [done|]. by rewrite IH. Qed.

Lemma OrdersService_findOne_run (key : string) (w : World) :
  OrdersService.findOne key w
  = match stored w key with
    | Some row =>
        (Returned (detail_of row),
         with_heap (heap w ++ [row]) (noted LOG ("Consultando pedido " +:+ key) w))
    | None => (Thrown (OrdersService.not_found key), noted LOG ("Consultando pedido " +:+ key) w)
    end.
Proof.
  unfold OrdersService.findOne, stored, noted, repository_findOne. prim.
  destruct (table w !! key) as [row|] eqn:Hrow; cbn; [|done].
  destruct (isDeleted row) eqn:Hdel; cbn; [done|].
  unfold read. cbn. rewrite heap_lookup_new. cbn. by rewrite mapItem_id.
Qed.

(** X16.  [findOne] gives the detail of the order stored under the id, and
    the not-found exception (never the internal-error one) when the id is
    unknown or the order is soft-deleted.  It only reads: the table and the
    trace of outward effects are as before. *)
Theorem findOne_reads_the_stored_order (key : string) (w : World) :
  exists w',
    table w' = table w /\ trace w' = trace w
    /\ ((exists row,
           table w !! key = Some row /\ isDeleted row = false
           /\ OrdersService.findOne key w = (Returned (detail_of row), w'))
        \/ ((table w !! key = None \/ isDeleted <$> table w !! key = Some true)
            /\ OrdersService.findOne key w = (Thrown (OrdersService.not_found key), w'))).
Proof.
  rewrite OrdersService_findOne_run. unfold stored.
  destruct (table w !! key) as [row|] eqn:Hrow; cbn.
  - destruct (isDeleted row) eqn:Hdel.
    + eexists. split; [|split]; [..|right; split; [by right|reflexivity]];
        done.
    + eexists. split; [|split]; [..|left; exists row; by repeat split]; done.
  - eexists. split; [|split]; [..|right; split; [by left|reflexivity]]; done.
Qed.

(** ** The gRPC handlers *)

Ltac handler :=
  cbv zeta;
  unfold OrdersController.logged, OrdersController.try_rpc, OrdersController.handleRpcError,
    OrdersController.bad_request, OrdersController.respond, raise, await,
    mbind, Try_bind, mret, Try_ret; cbn.

Lemma updateStatus_not_found (w : World) (key : string) (updateDto : UpdateOrderStatusDto) :
  stored w key = None ->
  exists w',
    OrdersService.updateStatus key updateDto w = (Thrown (OrdersService.not_found key), w')
    /\ table w' = table w /\ heap w' = heap w /\ trace w' = trace w.
Proof.
  unfold stored. intros Hnone. unfold OrdersService.updateStatus, repository_findOne. prim.
  destruct (table w !! key) as [row|]; [destruct (isDeleted row); [|done]|].
  all: cbn; eexists; split; [reflexivity|]; done.
Qed.

Lemma cancel_not_found (w : World) (key : string) (cancelDto : CancelOrderDto) :
  stored w key = None ->
  exists w',
    OrdersService.cancel key cancelDto w = (Thrown (OrdersService.not_found key), w')
    /\ table w' = table w /\ heap w' = heap w /\ trace w' = trace w.
Proof.
  unfold stored. intros Hnone. unfold OrdersService.cancel, repository_findOne. prim.
  destruct (table w !! key) as [row|]; [destruct (isDeleted row); [|done]|].
  all: cbn; eexists; split; [reflexivity|]; done.
Qed.

Lemma stored_found (w : World) (key : string) (row : Order) :
  table w !! key = Some row -> isDeleted row = false -> stored w key = Some row.
Proof. intros Hrow Hdel. unfold stored. by rewrite Hrow, Hdel. Qed.

(** X17.  Only a caller whose metadata says role admin can update a status:
    for every other caller, one without metadata included, and whatever the
    message holds, [updateOrderStatus] answers PERMISSION_DENIED before it
    looks at the message, and no order is read, changed or announced. *)
Theorem updateOrderStatus_requires_admin (data : option UpdateOrderStatusRequest)
    (metadata : option (gmap string string)) (w : World) :
  role (OrdersController.extractUserFromMetadata metadata) <> "admin" ->
  exists w',
    OrdersController.updateOrderStatus data metadata w
    = (inr (mkRpcException PERMISSION_DENIED
              "Solo administradores pueden actualizar estados"), w')
    /\ table w' = table w /\ heap w' = heap w /\ trace w' = trace w.
Proof.
  intros Hrole%String.eqb_neq. unfold OrdersController.updateOrderStatus.
  cbv zeta. rewrite Hrole. handler.
  eexists. split; [reflexivity|]. done.
Qed.

Lemma updateOrderStatus_requires_admin_witness :
  role (OrdersController.extractUserFromMetadata None) <> "admin"
  /\ exists w',
       OrdersController.updateOrderStatus
         (Some (mkUpdateOrderStatusRequest (Some "order-0") (Some en_procesamiento) None))
         None (example_world pendiente)
       = (inr (mkRpcException PERMISSION_DENIED
                 "Solo administradores pueden actualizar estados"), w')
       /\ table w' = table (example_world pendiente)
       /\ heap w' = heap (example_world pendiente)
       /\ trace w' = trace (example_world pendiente).
Proof.
  split; [discriminate|].
  apply (updateOrderStatus_requires_admin
           (Some (mkUpdateOrderStatusRequest (Some "order-0") (Some en_procesamiento) None))
           None (example_world pendiente)).
  discriminate.
Defined.

Lemma updateStatus_without_tracking (w : World) (key : string) (row : Order)
    (tracking : option string) :
  table w !! key = Some row -> isDeleted row = false ->
  transition_table (status row) enviado = true -> truthy tracking = false ->
  exists w',
    OrdersService.updateStatus key (mkUpdateOrderStatusDto enviado tracking) w
    = (Thrown tracking_required, w')
    /\ table w' = table w /\ trace w' = trace w.
Proof.
  intros Hrow Hdel Hst Htr. unfold OrdersService.updateStatus.
  run_with findOne_found. run_with read_run.
  rewrite validateStatusTransition_run, Hst. prim. rewrite Htr. cbn.
  eexists. split; [reflexivity|]. done.
Qed.

Lemma stored_inv (w : World) (key : string) (row : Order) :
  stored w key = Some row -> table w !! key = Some row /\ isDeleted row = false.
Proof.
  unfold stored. destruct (table w !! key) as [row'|]; [|done].
  destruct (isDeleted row') eqn:Hdel; [done|]. by intros [= <-].
Qed.

(** X18.  What [updateOrderStatus] answers to an admin whose update the
    service refuses: NOT_FOUND for an order that is unknown or soft-deleted,
    INVALID_ARGUMENT for a transition outside the table and for a shipment
    without tracking number, each with the message of the service's exception;
    the stored orders are as before and nothing is sent. *)
Theorem updateOrderStatus_reports_refusals (request : UpdateOrderStatusRequest)
    (metadata : option (gmap string string)) (key : string) (requested : OrderStatus)
    (answer : RpcException) (w : World) :
  role (OrdersController.extractUserFromMetadata metadata) = "admin" ->
  update_id request = Some key -> key <> "" -> update_status request = Some requested ->
  update_refusal w key requested (update_trackingNumber request) = Some answer ->
  exists w',
    OrdersController.updateOrderStatus (Some request) metadata w = (inr answer, w')
    /\ table w' = table w /\ trace w' = trace w.
Proof.
  intros Hrole%String.eqb_eq Hid Hkey Hst Href.
  unfold OrdersController.updateOrderStatus. cbv zeta. rewrite Hrole, Hst, Hid.
  destruct key as [|c key]; [done|]. handler.
  set (w0 := with_logs _ w). unfold update_refusal in Href.
  change (stored w (String c key)) with (stored w0 (String c key)) in Href.
  change (table w) with (table w0). change (trace w) with (trace w0).
  destruct (stored w0 (String c key)) as [row|] eqn:Hstored.
  - apply stored_inv in Hstored as [Hrow Hdel].
    destruct (transition_table (status row) requested) eqn:Hedge; cbn in Href.
    + destruct requested; try discriminate Href.
      destruct (truthy (update_trackingNumber request)) eqn:Htr; [done|].
      injection Href as <-.
      destruct (updateStatus_without_tracking w0 (String c key) row _ Hrow Hdel Hedge Htr)
        as (w1 & -> & Ht & Htr1).
      cbn. eexists. split; [reflexivity|]. done.
    + injection Href as <-.
      destruct (updateStatus_rejected w0 (String c key) row
                  (mkUpdateOrderStatusDto requested (update_trackingNumber request))
                  Hrow Hdel Hedge) as (w1 & -> & Ht & Htr1 & _).
      cbn. eexists. split; [reflexivity|]. done.
  - injection Href as <-.
    destruct (updateStatus_not_found w0 (String c key)
                (mkUpdateOrderStatusDto requested (update_trackingNumber request)) Hstored)
      as (w1 & -> & Ht & _ & Htr1).
    cbn. eexists. split; [reflexivity|]. done.
Qed.

Lemma updateOrderStatus_reports_refusals_witness :
  role (OrdersController.extractUserFromMetadata (Some {["x-user-role" := "admin"]})) = "admin"
  /\ update_refusal (example_world pendiente) "order-0" entregado None
     = Some (mkRpcException INVALID_ARGUMENT
               (error_message (invalid_transition pendiente entregado)))
  /\ exists w',
       OrdersController.updateOrderStatus
         (Some (mkUpdateOrderStatusRequest (Some "order-0") (Some entregado) None))
         (Some {["x-user-role" := "admin"]}) (example_world pendiente)
       = (inr (mkRpcException INVALID_ARGUMENT
                 (error_message (invalid_transition pendiente entregado))), w')
       /\ table w' = table (example_world pendiente)
       /\ trace w' = trace (example_world pendiente).
Proof.
  split; [reflexivity|]. split; [reflexivity|].
  apply (updateOrderStatus_reports_refusals
           (mkUpdateOrderStatusRequest (Some "order-0") (Some entregado) None)
           (Some {["x-user-role" := "admin"]}) "order-0" entregado
           (mkRpcException INVALID_ARGUMENT
              (error_message (invalid_transition pendiente entregado)))
           (example_world pendiente)); [reflexivity|reflexivity|discriminate|reflexivity..].
Defined.

(** X19.  What [cancelOrder] refuses: an order that is not stored is
    NOT_FOUND for every caller; a caller with role client gets
    PERMISSION_DENIED on an order of another client, whatever its status; an
    order already delivered or cancelled is INVALID_ARGUMENT.  In each case
    the stored orders are as before and nothing is sent. *)
Theorem cancelOrder_reports_refusals (request : CancelOrderRequest)
    (metadata : option (gmap string string)) (key : string) (answer : RpcException)
    (w : World) :
  cancel_id request = Some key -> key <> "" ->
  cancel_refusal w (OrdersController.extractUserFromMetadata metadata) key = Some answer ->
  exists w',
    OrdersController.cancelOrder (Some request) metadata w = (inr answer, w')
    /\ table w' = table w /\ trace w' = trace w.
Proof.
  intros Hid Hkey Href. unfold OrdersController.cancelOrder. cbv zeta. rewrite Hid.
  set (user := OrdersController.extractUserFromMetadata metadata) in *. clearbody user.
  destruct key as [|c key]; [done|]. handler.
  rewrite OrdersService_findOne_run.
  set (w0 := with_logs _ w). unfold cancel_refusal in Href.
  change (stored w (String c key)) with (stored (noted LOG ("Consultando pedido " +:+ String c key) w0) (String c key)) in Href.
  change (stored w0 (String c key))
    with (stored (noted LOG ("Consultando pedido " +:+ String c key) w0) (String c key)).
  set (w1 := noted _ _ w0) in *.
  change (table w) with (table w1). change (trace w) with (trace w1).
  destruct (stored w1 (String c key)) as [row|] eqn:Hstored.
  - cbn [detail_of detail_clientId].
    destruct ((role user =? "client")%string && negb (clientId row =? userId user)%string).
    + injection Href as <-. cbn. eexists. split; [reflexivity|]. done.
    + destruct (OrdersService.includes [entregado; cancelado] (status row)) eqn:Hinc; [|done].
      injection Href as <-. apply stored_inv in Hstored as [Hrow Hdel].
      cbn.
      match goal with
      | |- context [OrdersService.cancel ?k ?d ?W] =>
          destruct (cancel_rejected W k row d Hrow Hdel Hinc) as (w2 & -> & Ht & Htr)
      end.
      cbn. eexists. split; [reflexivity|]. done.
  - injection Href as <-. cbn. eexists. split; [reflexivity|]. done.
Qed.

Lemma cancelOrder_reports_refusals_witness :
  cancel_refusal (example_world pendiente)
    (OrdersController.extractUserFromMetadata
       (Some {["x-user-id" := "client-2"; "x-user-role" := "client"]})) "order-0"
  = Some (mkRpcException PERMISSION_DENIED "No tienes permiso para cancelar este pedido")
  /\ exists w',
       OrdersController.cancelOrder (Some (mkCancelOrderRequest (Some "order-0") None))
         (Some {["x-user-id" := "client-2"; "x-user-role" := "client"]})
         (example_world pendiente)
       = (inr (mkRpcException PERMISSION_DENIED
                 "No tienes permiso para cancelar este pedido"), w')
       /\ table w' = table (example_world pendiente)
       /\ trace w' = trace (example_world pendiente).
Proof.
  split; [reflexivity|].
  apply (cancelOrder_reports_refusals (mkCancelOrderRequest (Some "order-0") None)
           (Some {["x-user-id" := "client-2"; "x-user-role" := "client"]}) "order-0"
           (mkRpcException PERMISSION_DENIED "No tienes permiso para cancelar este pedido")
           (example_world pendiente)); [reflexivity|discriminate|reflexivity].
Defined.

(** X20.  When nothing is refused, [cancelOrder] cancels: the order is stored
    with status cancelado, the reason of the message (or "Cancelado por el
    usuario") and the time of the call, and the response carries that order,
    its cancellation time as a timestamp.  Any role other than client
    (spelled exactly so) passes the ownership check. *)
Theorem cancelOrder_cancels (request : CancelOrderRequest)
    (metadata : option (gmap string string)) (key : string) (row : Order) (w : World) :
  cancel_id request = Some key -> key <> "" ->
  table w !! key = Some row -> id row = Some key ->
  cancel_refusal w (OrdersController.extractUserFromMetadata metadata) key = None ->
  exists w',
    let saved := cancelled w (cancel_cancellationReason request) row in
    OrdersController.cancelOrder (Some request) metadata w
    = (inl (OrdersController.mapOrderToResponse (Some (inl saved))), w')
    /\ table w' = <[key := saved]> (table w)
    /\ trace w' = trace w ++ [RowSaved saved] ++ mails w (OrderCancellationEmail saved)
    /\ response_status <$> OrdersController.mapOrderToResponse (Some (inl saved))
       = Some cancelado
    /\ (OrdersController.mapOrderToResponse (Some (inl saved)) ≫= response_cancelledAt)
       = Some (mkTimestamp (clock w / 1000) (Z.rem (clock w) 1000 * 1000000)).
Proof.
  intros Hid Hkey Hrow Hrowid Href. unfold OrdersController.cancelOrder. cbv zeta. rewrite Hid.
  set (user := OrdersController.extractUserFromMetadata metadata) in *. clearbody user.
  destruct key as [|c key]; [done|]. handler.
  rewrite OrdersService_findOne_run.
  set (w0 := with_logs _ w). unfold cancel_refusal in Href.
  change (stored w0 (String c key))
    with (stored (noted LOG ("Consultando pedido " +:+ String c key) w0) (String c key)).
  set (w1 := noted _ _ w0) in *.
  assert (isDeleted row = false) as Hdel.
  { unfold stored in Href. rewrite Hrow in Href. by destruct (isDeleted row). }
  rewrite (stored_found w _ _ Hrow Hdel) in Href.
  rewrite (stored_found w1 _ row Hrow Hdel).
  cbn [detail_of detail_clientId].
  destruct ((role user =? "client")%string && negb (clientId row =? userId user)%string);
    [done|].
  destruct (OrdersService.includes [entregado; cancelado] (status row)) eqn:Hinc; [done|].
  cbn.
  match goal with
  | |- context [OrdersService.cancel ?k ?d ?W] =>
      destruct (cancel_accepted W k row d Hrow Hdel Hrowid Hinc)
        as (w2 & Hrun & Ht & Htr & Hheap)
  end.
  cbn in Hrun, Ht, Htr, Hheap. rewrite Hrun. cbn.
  unfold read. rewrite Hheap.
  rewrite (list_lookup_middle _ [] _ _ eq_refl). cbn.
  eexists. split; [reflexivity|]. unfold cancelled. by rewrite Ht, Htr.
Qed.

Lemma cancelOrder_cancels_witness :
  table (example_world pendiente) !! "order-0" = Some (example_order pendiente)
  /\ cancel_refusal (example_world pendiente)
       (OrdersController.extractUserFromMetadata
          (Some {["x-user-id" := "client-1"; "x-user-role" := "client"]})) "order-0" = None
  /\ exists w',
       let saved := cancelled (example_world pendiente) None (example_order pendiente) in
       OrdersController.cancelOrder (Some (mkCancelOrderRequest (Some "order-0") None))
         (Some {["x-user-id" := "client-1"; "x-user-role" := "client"]})
         (example_world pendiente)
       = (inl (OrdersController.mapOrderToResponse (Some (inl saved))), w')
       /\ table w' = <["order-0" := saved]> (table (example_world pendiente))
       /\ trace w'
          = trace (example_world pendiente) ++ [RowSaved saved]
            ++ mails (example_world pendiente) (OrderCancellationEmail saved)
       /\ response_status <$> OrdersController.mapOrderToResponse (Some (inl saved))
          = Some cancelado
       /\ (OrdersController.mapOrderToResponse (Some (inl saved)) ≫= response_cancelledAt)
          = Some (mkTimestamp (clock (example_world pendiente) / 1000)
                    (Z.rem (clock (example_world pendiente)) 1000 * 1000000)).
Proof.
  split; [reflexivity|]. split; [reflexivity|].
  apply (cancelOrder_cancels (mkCancelOrderRequest (Some "order-0") None)
           (Some {["x-user-id" := "client-1"; "x-user-role" := "client"]}) "order-0"
           (example_order pendiente) (example_world pendiente));
    [reflexivity|discriminate|reflexivity..].
Defined.

(** X21.  A caller with role client (the role of a caller whose metadata
    names none) cannot create an order for another client id: [createOrder]
    answers PERMISSION_DENIED, or INVALID_ARGUMENT when the message is missing
    or its client id is empty, and nothing is created, stored, published or
    mailed.  Without an x-user-id in the metadata no command gets through. *)
Theorem createOrder_only_for_self (data : option CreateOrderDto)
    (metadata : option (gmap string string)) (w : World) :
  role (OrdersController.extractUserFromMetadata metadata) = "client" ->
  (forall createOrderDto, data = Some createOrderDto ->
     dto_clientId createOrderDto <> "" ->
     dto_clientId createOrderDto
     <> userId (OrdersController.extractUserFromMetadata metadata)) ->
  exists message w',
    OrdersController.createOrder data metadata w
    = (inr (mkRpcException
              match data with
              | Some createOrderDto =>
                  if truthy (Some (dto_clientId createOrderDto)) then PERMISSION_DENIED
                  else INVALID_ARGUMENT
              | None => INVALID_ARGUMENT
              end message), w')
    /\ table w' = table w /\ heap w' = heap w /\ trace w' = trace w /\ issued w' = issued w.
Proof.
  intros Hrole Hother. unfold OrdersController.createOrder. cbv zeta.
  set (user := OrdersController.extractUserFromMetadata metadata) in *. clearbody user.
  rewrite Hrole. destruct data as [createOrderDto|]; handler.
  2: { eexists _, _. split; [reflexivity|]. done. }
  specialize (Hother createOrderDto eq_refl).
  destruct (dto_clientId createOrderDto) as [|c rest].
  - cbn. eexists _, _. split; [reflexivity|]. done.
  - specialize (Hother ltac:(discriminate)). apply String.eqb_neq in Hother.
    rewrite Hother. cbn. eexists _, _. split; [reflexivity|]. done.
Qed.

Lemma createOrder_only_for_self_witness :
  role (OrdersController.extractUserFromMetadata None) = "client"
  /\ dto_clientId example_command <> userId (OrdersController.extractUserFromMetadata None)
  /\ exists message w',
       OrdersController.createOrder (Some example_command) None empty_world
       = (inr (mkRpcException PERMISSION_DENIED message), w')
       /\ table w' = table empty_world /\ heap w' = heap empty_world
       /\ trace w' = trace empty_world /\ issued w' = issued empty_world.
Proof.
  split; [reflexivity|]. split; [discriminate|].
  apply (createOrder_only_for_self (Some example_command) None empty_world);
    [reflexivity|].
  intros createOrderDto [= <-] _. discriminate.
Defined.

Lemma uuidRegex_test_truthy (key : string) :
  OrdersController.uuidRegex_test key = true -> truthy (Some key) = true.
Proof. by destruct key. Qed.

(** X22.  [findOneOrder] never looks up an id that does not have the shape
    of a UUID (8-4-4-4-12 hexadecimal digits): a missing message, a missing,
    empty or blank id and a malformed id are all answered INVALID_ARGUMENT,
    and no order is read. *)
Theorem findOneOrder_rejects_malformed_ids (trim : string -> string)
    (JSON_stringify : option FindOneOrderRequest -> string)
    (data : option FindOneOrderRequest) (metadata : option (gmap string string)) (w : World) :
  (forall key, data ≫= find_id = Some key -> OrdersController.uuidRegex_test key = false) ->
  exists message w',
    OrdersController.findOneOrder trim JSON_stringify data metadata w
    = (inr (mkRpcException INVALID_ARGUMENT message), w')
    /\ table w' = table w /\ heap w' = heap w /\ trace w' = trace w.
Proof.
  intros Hbad. unfold OrdersController.findOneOrder. cbv zeta.
  destruct data as [[[key|]]|]; handler.
  2, 3: eexists _, _; split; [reflexivity|]; done.
  rewrite (Hbad key eq_refl).
  destruct (trim key =? "")%string, key; cbn.
  all: eexists _, _; split; [reflexivity|]; done.
Qed.

Lemma findOneOrder_rejects_malformed_ids_witness :
  OrdersController.uuidRegex_test "order-0" = false
  /\ exists message w',
       OrdersController.findOneOrder (fun s => s) (fun _ => "{}")
         (Some (mkFindOneOrderRequest (Some "order-0"))) None (example_world pendiente)
       = (inr (mkRpcException INVALID_ARGUMENT message), w')
       /\ table w' = table (example_world pendiente)
       /\ heap w' = heap (example_world pendiente)
       /\ trace w' = trace (example_world pendiente).
Proof.
  split; [reflexivity|].
  apply (findOneOrder_rejects_malformed_ids (fun s => s) (fun _ => "{}")
           (Some (mkFindOneOrderRequest (Some "order-0"))) None (example_world pendiente)).
  intros key [= <-]. reflexivity.
Defined.

(** X23.  For an id of UUID shape, [findOneOrder] answers NOT_FOUND when no
    order is stored under it, PERMISSION_DENIED to a client asking for an
    order of another client, and otherwise the detail of the order.  The
    detail comes from [findOne], so the response carries no shipping,
    delivery or cancellation date and no e-mail address, whatever the stored
    order holds.  Nothing is changed or sent. *)
Theorem findOneOrder_answers (trim : string -> string)
    (JSON_stringify : option FindOneOrderRequest -> string)
    (key : string) (metadata : option (gmap string string)) (w : World) :
  OrdersController.uuidRegex_test key = true -> trim key <> "" ->
  exists w',
    let user := OrdersController.extractUserFromMetadata metadata in
    OrdersController.findOneOrder trim JSON_stringify
      (Some (mkFindOneOrderRequest (Some key))) metadata w
    = (match stored w key with
       | None =>
           inr (mkRpcException NOT_FOUND ("Pedido con ID " +:+ key +:+ " no encontrado"))
       | Some row =>
           if (role user =? "client")%string && negb (clientId row =? userId user)%string then
             inr (mkRpcException PERMISSION_DENIED "No tienes permiso para ver este pedido")
           else
             inl (Some (mkOrderResponse (id row) (clientId row) (clientName row) None
                          (status row) (OrdersController.parseFloat_or_0 (total row))
                          (shippingAddress row) (trackingNumber row)
                          (cancellationReason row) None
                          (map OrdersController.mapItem (items row)) None None None))
       end, w')
    /\ table w' = table w /\ trace w' = trace w.
Proof.
  intros Hshape Htrim%String.eqb_neq. unfold OrdersController.findOneOrder. cbv zeta.
  set (user := OrdersController.extractUserFromMetadata metadata) in *. clearbody user.
  change (find_id (mkFindOneOrderRequest (Some key))) with (Some key).
  change (default "" (Some key)) with key.
  rewrite Hshape, Htrim, (uuidRegex_test_truthy key Hshape).
  handler. rewrite OrdersService_findOne_run.
  match goal with
  | |- context [stored ?W key] => change (stored W key) with (stored w key)
  end.
  destruct (stored w key) as [row|]; cbn.
  - destruct ((role user =? "client")%string && negb (clientId row =? userId user)%string);
      cbn.
    + eexists. split; [reflexivity|]. done.
    + eexists. split; [reflexivity|]. done.
  - eexists. split; [reflexivity|]. done.
Qed.

Lemma findOneOrder_answers_witness :
  OrdersController.uuidRegex_test "123e4567-e89b-42d3-a456-426614174000" = true
  /\ exists w',
       OrdersController.findOneOrder (fun s => s) (fun _ => "{}")
         (Some (mkFindOneOrderRequest (Some "123e4567-e89b-42d3-a456-426614174000")))
         None (example_world enviado)
       = (inr (mkRpcException NOT_FOUND
                 "Pedido con ID 123e4567-e89b-42d3-a456-426614174000 no encontrado"), w')
       /\ table w' = table (example_world enviado)
       /\ trace w' = trace (example_world enviado).
Proof.
  split; [reflexivity|].
  apply (findOneOrder_answers (fun s => s) (fun _ => "{}")
           "123e4567-e89b-42d3-a456-426614174000" None (example_world enviado));
    [reflexivity|discriminate].
Defined.



(** ** Listings *)

Lemma In_andWhere (c : Condition) (value : option string) (condition : string -> Condition) :
  In c (OrdersService.andWhere value condition) ->
  truthy value = true /\ c = condition (default "" value).
Proof.
  unfold OrdersService.andWhere. destruct (truthy value); [|done].
  intros [<-|[]]. done.
Qed.

Lemma queryBuilder_clients (queryDto : QueryOrderDto) (c : string) :
  In (ClientIdIs c) (conditions (OrdersService.queryBuilder queryDto))
  <-> truthy (q_clientId queryDto) = true /\ q_clientId queryDto = Some c.
Proof.
  unfold OrdersService.queryBuilder. cbn [conditions]. rewrite !in_app_iff. split.
  - intros [Hin|[Hin|[Hin|[Hin|[Hin|Hin]]]]].
    + destruct Hin as [Heq|Hf]; [discriminate Heq|destruct Hf].
    + by apply In_andWhere in Hin as [_ ?].
    + apply In_andWhere in Hin as [Htr [= ->]]. split; [done|].
      by destruct (q_clientId queryDto).
    + by apply In_andWhere in Hin as [_ ?].
    + by apply In_andWhere in Hin as [_ ?].
    + destruct (truthy (q_startDate queryDto)), (truthy (q_endDate queryDto)); cbn in Hin.
      all: try (destruct Hin as [Heq|Hf]; [discriminate Heq|destruct Hf]).
      destruct Hin.
  - intros [Htr Hc]. right. right. left. unfold OrdersService.andWhere.
    rewrite Htr, Hc. by left.
Qed.

Lemma queryBuilder_not_deleted (queryDto : QueryOrderDto) :
  In (IsDeletedIs false) (conditions (OrdersService.queryBuilder queryDto)).
Proof. unfold OrdersService.queryBuilder. cbn [conditions]. rewrite in_app_iff. left. by left. Qed.

Lemma findAll_listing (methodName : string) (getMany : SelectQuery -> M (list Order))
    (queryDto : QueryOrderDto) (w : World) :
  OrdersController.try_rpc methodName
    (orders ← await (OrdersService.findAll getMany queryDto);
     mret (map (fun o => OrdersController.mapOrderToResponse (Some (inl o))) orders)) w
  = listing methodName (getMany (OrdersService.queryBuilder queryDto))
      (noted LOG "Consultando listado de pedidos" w).
Proof.
  unfold OrdersService.findAll, listing, noted. handler. prim.
  destruct (getMany _ _) as [[orders|e] w']; cbn; done.
Qed.

(** X24.  A client with a user id lists their own orders only: whatever
    client id the message of [findAllOrders] names, the query that reaches
    the database is restricted to the caller's id and to orders that are not
    soft-deleted.  The answer is the rows of that query, or INTERNAL with
    "Error al consultar pedidos" for any database error. *)
Theorem findAllOrders_scopes_clients (data : option QueryOrderDto)
    (metadata : option (gmap string string)) :
  role (OrdersController.extractUserFromMetadata metadata) = "client" ->
  userId (OrdersController.extractUserFromMetadata metadata) <> "" ->
  exists q,
    scoped_to (userId (OrdersController.extractUserFromMetadata metadata)) q
    /\ forall (getMany : SelectQuery -> M (list Order)) (w : World),
         OrdersController.findAllOrders getMany data metadata w
         = listing "FindAllOrders" (getMany q)
             (noted LOG "Consultando listado de pedidos" (noted LOG "gRPC FindAllOrders" w)).
Proof.
  intros Hrole Hid. unfold OrdersController.findAllOrders. cbv zeta.
  set (user := OrdersController.extractUserFromMetadata metadata) in *. clearbody user.
  exists (OrdersService.queryBuilder (OrdersController.effectiveQueryDto data user)). split.
  - split; [apply queryBuilder_not_deleted|]. intros c. rewrite queryBuilder_clients.
    unfold OrdersController.effectiveQueryDto. rewrite Hrole. cbn.
    destruct (userId user); [done|]. cbn. split; [by intros [_ [= <-]]|intros ->; by split].
  - intros getMany w. unfold OrdersController.logged. by rewrite findAll_listing.
Qed.

Lemma findAllOrders_scopes_clients_witness :
  role (OrdersController.extractUserFromMetadata (Some {["x-user-id" := "client-1"]}))
  = "client"
  /\ exists q,
       scoped_to "client-1" q
       /\ forall (getMany : SelectQuery -> M (list Order)) (w : World),
            OrdersController.findAllOrders getMany
              (Some (mkQueryOrderDto None (Some "client-2") None None None None))
              (Some {["x-user-id" := "client-1"]}) w
            = listing "FindAllOrders" (getMany q)
                (noted LOG "Consultando listado de pedidos" (noted LOG "gRPC FindAllOrders" w)).
Proof.
  split; [reflexivity|].
  refine (findAllOrders_scopes_clients
            (Some (mkQueryOrderDto None (Some "client-2") None None None None))
            (Some {["x-user-id" := "client-1"]}) _ _); [reflexivity|discriminate].
Defined.

(** X25.  A caller with role client and no user id (no x-user-id in the
    metadata, or no metadata at all) gets from [findAllOrders] the orders of
    every client: the empty id replaces the client filter of the message and
    is then skipped by [findAll], so the answer is the one an admin gets who
    asks with the same filters and no client. *)
Theorem findAllOrders_without_user_id (getMany : SelectQuery -> M (list Order))
    (data : option QueryOrderDto) (metadata : option (gmap string string)) (w : World) :
  role (OrdersController.extractUserFromMetadata metadata) = "client" ->
  userId (OrdersController.extractUserFromMetadata metadata) = "" ->
  unscoped (OrdersService.queryBuilder
              (OrdersController.effectiveQueryDto data
                 (OrdersController.extractUserFromMetadata metadata)))
  /\ OrdersController.findAllOrders getMany data metadata w
     = OrdersController.findAllOrders getMany
         (Some (any_client (default (mkQueryOrderDto None None None None None None) data)))
         (Some {["x-user-role" := "admin"]}) w.
Proof.
  intros Hrole Hid. unfold OrdersController.findAllOrders. cbv zeta.
  set (user := OrdersController.extractUserFromMetadata metadata) in *. clearbody user.
  split.
  - intros c. rewrite queryBuilder_clients. unfold OrdersController.effectiveQueryDto.
    rewrite Hrole, Hid. cbn. by intros [? _].
  - unfold OrdersController.logged. rewrite !findAll_listing. f_equal. f_equal.
    unfold OrdersController.effectiveQueryDto. rewrite Hrole, Hid. cbn.
    by destruct data as [[]|].
Qed.

Lemma findAllOrders_without_user_id_witness :
  role (OrdersController.extractUserFromMetadata None) = "client"
  /\ userId (OrdersController.extractUserFromMetadata None) = ""
  /\ unscoped (OrdersService.queryBuilder
                 (OrdersController.effectiveQueryDto
                    (Some (mkQueryOrderDto None (Some "client-2") None None None None))
                    (OrdersController.extractUserFromMetadata None)))
  /\ OrdersController.findAllOrders (fun _ => mret [example_order pendiente])
       (Some (mkQueryOrderDto None (Some "client-2") None None None None)) None empty_world
     = OrdersController.findAllOrders (fun _ => mret [example_order pendiente])
         (Some (any_client (mkQueryOrderDto None (Some "client-2") None None None None)))
         (Some {["x-user-role" := "admin"]}) empty_world.
Proof.
  split; [reflexivity|]. split; [reflexivity|].
  apply (findAllOrders_without_user_id (fun _ => mret [example_order pendiente])
           (Some (mkQueryOrderDto None (Some "client-2") None None None None)) None
           empty_world); reflexivity.
Defined.

(** X26.  [getClientHistory] of the controller: a client asking for the
    history of another client is answered PERMISSION_DENIED and the database
    is not queried; every other caller gets the orders of exactly the client
    named in the message (not soft-deleted, newest first), or INTERNAL on a
    database error. *)
Theorem getClientHistory_of_one_client (getMany : SelectQuery -> M (list Order))
    (client : string) (metadata : option (gmap string string)) (w : World) :
  client <> "" ->
  let user := OrdersController.extractUserFromMetadata metadata in
  let w0 := noted LOG ("gRPC GetClientHistory - Cliente " +:+ client) w in
  OrdersController.getClientHistory getMany
    (Some (mkGetClientHistoryRequest (Some client))) metadata w
  = if (role user =? "client")%string && negb (client =? userId user)%string then
      (inr (mkRpcException PERMISSION_DENIED
              "No tienes permiso para ver el historial de este cliente"),
       noted ERROR ("Error en GetClientHistory: "
                    +:+ "No tienes permiso para ver el historial de este cliente") w0)
    else
      listing "GetClientHistory"
        (getMany (mkSelectQuery [IsDeletedIs false; ClientIdIs client]
                    ("order.createdAt", "DESC")))
        (noted LOG "Consultando listado de pedidos"
           (noted LOG ("Consultando historial de pedidos del cliente " +:+ client) w0)).
Proof.
  intros Hclient user w0. unfold OrdersController.getClientHistory. cbv zeta. fold user.
  clearbody user. destruct client as [|c client]; [done|].
  unfold OrdersController.logged.
  change (interpolate _) with (String c client).
  fold (noted LOG ("gRPC GetClientHistory - Cliente " +:+ String c client) w). fold w0.
  clearbody w0.
  change (truthy _) with true. cbn [negb]. cbv iota.
  change (default "" _) with (String c client).
  destruct ((role user =? "client")%string && negb (String c client =? userId user)%string).
  - by handler.
  - unfold OrdersService.getClientHistory.
    handler. prim.
    unfold OrdersService.findAll, listing, noted. prim.
    destruct (getMany _ _) as [[orders|e] w']; cbn; done.
Qed.

Lemma getClientHistory_of_one_client_witness :
  "client-1" <> ""
  /\ OrdersController.getClientHistory (fun _ => mret [example_order pendiente])
       (Some (mkGetClientHistoryRequest (Some "client-1")))
       (Some {["x-user-id" := "client-2"]}) empty_world
     = (inr (mkRpcException PERMISSION_DENIED
               "No tienes permiso para ver el historial de este cliente"),
        noted ERROR ("Error en GetClientHistory: "
                     +:+ "No tienes permiso para ver el historial de este cliente")
          (noted LOG ("gRPC GetClientHistory - Cliente " +:+ "client-1") empty_world)).
Proof.
  split; [discriminate|].
  refine (getClientHistory_of_one_client (fun _ => mret [example_order pendiente])
            "client-1" (Some {["x-user-id" := "client-2"]}) empty_world _).
  discriminate.
Defined.

(** ** Timestamps and the authenticated user *)

(** X27.  [toTimestamp] is exact from 1970 on: for a date of [ms]
    milliseconds, the seconds and nanoseconds give [ms] back, with the
    nanoseconds within a second, exactly when [ms] is not negative or is a
    whole number of seconds.  For an earlier date with a fraction of a second
    the nanoseconds come out negative and the timestamp is one second early. *)
Theorem toTimestamp_exact_from_1970 (ms : Z) :
  exists t,
    OrdersController.toTimestamp (Some ms) = Some t
    /\ ((0 <= nanos t < 1000000000 /\ seconds t * 1000 + nanos t / 1000000 = ms)
        <-> (0 <= ms \/ Z.rem ms 1000 = 0))
    /\ (ms < 0 -> Z.rem ms 1000 <> 0 ->
        nanos t < 0 /\ seconds t * 1000 + nanos t / 1000000 = ms - 1000).
Proof.
  eexists. split; [reflexivity|]. cbn [seconds nanos].
  rewrite Z.div_mul by lia.
  pose proof (Z.quot_rem' ms 1000) as Hqr.
  pose proof (Z.div_mod ms 1000 ltac:(lia)) as Hdm.
  pose proof (Z.mod_pos_bound ms 1000 ltac:(lia)) as Hmod.
  destruct (Z.le_gt_cases 0 ms) as [Hpos|Hneg].
  - pose proof (Z.rem_bound_pos ms 1000 Hpos ltac:(lia)) as Hrem.
    rewrite Z.rem_mod_nonneg in * by lia. split; [|lia]. split; [by left|lia].
  - pose proof (Z.rem_bound_pos_neg ms 1000 ltac:(lia) ltac:(lia)) as Hrem.
    assert (Z.rem ms 1000 = 0 \/ Z.rem ms 1000 < 0) as [Hz|Hnz] by lia.
    + assert (ms mod 1000 = 0) as Hm.
      { apply Z.rem_divide in Hz; [|lia]. by apply Z.mod_divide. }
      split; [|lia]. split; [by right|lia].
    + assert (ms mod 1000 = Z.rem ms 1000 + 1000) as Hm.
      { symmetry. apply (Z.mod_unique_pos ms 1000 (Z.quot ms 1000 - 1)); lia. }
      split; [|lia]. split; lia.
Qed.

(** X28.  The [GrpcUser] decorator is stricter than the controller's own
    [extractUserFromMetadata]: on metadata it accepts, the two give the same
    user, with a user id and a role; metadata without user id or without role
    is UNAUTHENTICATED for the decorator, where the controller goes on with an
    empty id or with the role client. *)
Theorem GrpcUser_stricter_than_controller (metadata : gmap string string) :
  match GrpcUser (Some (Some metadata)) with
  | inl user =>
      OrdersController.extractUserFromMetadata (Some metadata) = user
      /\ userId user <> "" /\ role user <> ""
  | inr e =>
      rpc_code e = UNAUTHENTICATED
      /\ (userId (OrdersController.extractUserFromMetadata (Some metadata)) = ""
          \/ (truthy (metadata !! "x-user-role") = false
              /\ role (OrdersController.extractUserFromMetadata (Some metadata)) = "client"))
  end.
Proof.
  unfold GrpcUser, OrdersController.extractUserFromMetadata, or_string.
  change (default ∅ (Some metadata)) with metadata.
  destruct (metadata !! "x-user-id") as [[|c1 s1]|]; cbn.
  1, 3: split; [done|by left].
  destruct (metadata !! "x-user-role") as [[|c2 s2]|]; cbn.
  1, 3: split; [done|by right].
  done.
Qed.
